(** * Soap formulation engine: blend calculator, recipe record, allocation solver

    A shallow embedding of
      - [src/chemistry/soap_calculator.py]  (class [SoapChemistry]),
      - [src/models/recipe.py]              (classes [Recipe], [RecipeManager]),
      - [src/main_auto.py]                  (class [AutoRecipeGenerator], the
                                             batch arithmetic of
                                             [SoapMakerAutoApp]),
    followed by the properties of the formulation engine proved about it.

    Numbers.  Python's numbers are modelled as exact rationals ([Q]); the
    binary floating-point representation error of the interpreter is outside
    the model.  The built-in [round(x, n)] is modelled by rounding the exact
    rational to [n] decimals, ties going to the even neighbour.  Where the
    exact value lies on a rounding tie, or within the accumulation error of
    one, the interpreter can return the other neighbour, and the result can
    then depend on the order in which a sum is accumulated.

    Dictionaries.  A Python dict that the code iterates over or builds by
    assignment is an insertion-ordered association list; the databases, which
    are only looked up, are finite maps ([gmap]).

    Objects.  A [Recipe] is modelled by its attributes.  [RecipeManager]
    holds its recipes by value; [RecipeObjects] keeps the objects apart from
    the references to them, for the method that writes to an object it
    shares with its caller ([update_recipe]). *)

From Stdlib Require Import QArith Qround Qabs Qminmax Lqa.
From stdpp Require Import gmap strings list.

Local Open Scope Q_scope.
Local Open Scope string_scope.
Local Open Scope list_scope.

(** ** Python runtime fragments *)

Module Py.

(** Exceptions the modelled code can raise. *)
Inductive exn : Type :=
| ValueError (msg : string)
| KeyError (key : string)
| IndexError
| ZeroDivisionError.

Inductive result (A : Type) : Type :=
| Ok (a : A)
| Raise (e : exn).
Arguments Ok {A} a.
Arguments Raise {A} e.

Definition bind {A B} (r : result A) (k : A -> result B) : result B :=
  match r with
  | Ok a => k a
  | Raise e => Raise e
  end.

Definition raises {A} (r : result A) : Prop :=
  match r with Ok _ => False | Raise _ => True end.

(** [round(x)] to the nearest integer, ties to even. *)
Definition round_half_even (x : Q) : Z :=
  let f := Qfloor x in
  match Qcompare (x - inject_Z f) (1 # 2) with
  | Lt => f
  | Gt => (f + 1)%Z
  | Eq => if Z.even f then f else (f + 1)%Z
  end.

Definition pow10 (ndigits : nat) : positive := Nat.iter ndigits (Pos.mul 10) 1%positive.

(** [round(x, ndigits)] *)
Definition round (x : Q) (ndigits : nat) : Q :=
  round_half_even (x * inject_Z (Z.pos (pow10 ndigits))) # pow10 ndigits.

(** [sum(xs)] *)
Definition sum (xs : list Q) : Q := fold_left Qplus xs 0.

(** [len(xs)] as a number *)
Definition len {A} (xs : list A) : Q := inject_Z (Z.of_nat (length xs)).

(** Insertion-ordered dictionaries with string keys. *)
Definition dict (V : Type) : Type := list (string * V).

Definition keys {V} (d : dict V) : list string := map fst d.
Definition values {V} (d : dict V) : list V := map snd d.

Fixpoint get {V} (d : dict V) (k : string) : option V :=
  match d with
  | [] => None
  | (k', v) :: d' => if String.eqb k k' then Some v else get d' k
  end.

(** [d[k] = v]: overwrite in place, or append a new key. *)
Fixpoint set {V} (d : dict V) (k : string) (v : V) : dict V :=
  match d with
  | [] => [(k, v)]
  | (k', v') :: d' =>
      if String.eqb k k' then (k', v) :: d' else (k', v') :: set d' k v
  end.

(** [{k: f(v) for k, v in d.items()}] *)
Definition map_values {V W} (f : V -> W) (d : dict V) : dict W :=
  map (fun kv => (fst kv, f (snd kv))) d.

End Py.

#[global] Instance result_ret : MRet Py.result := @Py.Ok.
#[global] Instance result_bind : MBind Py.result :=
  fun A B k r => Py.bind r k.


(** ** [chemistry/soap_calculator.py]: class [SoapChemistry] *)

Module SoapChemistry.
Import Py.

(** Keys of an oil's ['properties'] entry and of the accumulators of
    [calculate_soap_properties]. *)
Inductive PropName : Set :=
| hardness | cleansing | conditioning | bubbly | creamy | iodine | ins.

(** Keys of an oil's ['fatty_acids'] entry. *)
Inductive FattyAcid : Set :=
| lauric | myristic | palmitic | stearic
| ricinoleic | oleic | linoleic | linolenic.

Definition property_names : list PropName :=
  [hardness; cleansing; conditioning; bubbly; creamy; iodine; ins].

Definition fatty_acid_names : list FattyAcid :=
  [lauric; myristic; palmitic; stearic; ricinoleic; oleic; linoleic; linolenic].

(** An entry of [data/oils.json]. *)
Record Oil : Type := {
  sap_naoh : Q;
  sap_koh : Q;
  properties : PropName -> Q;
  fatty_acids : FattyAcid -> Q
}.

(** An entry of [data/modifiers.json]; the three keys are optional
    (the code reads them with [in] and [.get]). *)
Record Modifier : Type := {
  typical_usage_percent : option Q;
  usage_rate_type : option string;
  lye_adjustment_factor : option Q
}.

Section Calculator.
(** [self.oils_db] and [self.modifiers_db] *)
Variable oils_db : gmap string Oil.
Variable modifiers_db : gmap string Modifier.

(** [self.oils_db[oil_name][sap_key]] with
    [sap_key = 'sap_naoh' if lye_type == 'NaOH' else 'sap_koh'] *)
Definition sap_value (lye_type : string) (oil : Oil) : Q :=
  if String.eqb lye_type "NaOH" then sap_naoh oil else sap_koh oil.

Definition oil_not_found (oil_name : string) : exn :=
  ValueError ("Oil '" +:+ oil_name +:+ "' not found in database").

(** The loop over [oil_weights.items()] of [calculate_lye_amount]. *)
Fixpoint lye_loop (lye_type : string) (items : dict Q) (total_lye : Q)
  : result Q :=
  match items with
  | [] => Ok total_lye
  | (oil_name, weight) :: rest =>
      match oils_db !! oil_name with
      | None => Raise (oil_not_found oil_name)
      | Some oil =>
          lye_loop lye_type rest (total_lye + weight * sap_value lye_type oil)
      end
  end.

(** The loop over [modifiers.items()] of [calculate_lye_amount]. *)
Fixpoint adjustment_loop (items : dict Q) (lye_adjustment : Q) : Q :=
  match items with
  | [] => lye_adjustment
  | (modifier_name, amount) :: rest =>
      match modifiers_db !! modifier_name with
      | Some modifier =>
          match lye_adjustment_factor modifier with
          | Some factor =>
              adjustment_loop rest (lye_adjustment + amount * factor)
          | None => adjustment_loop rest lye_adjustment
          end
      | None => adjustment_loop rest lye_adjustment
      end
  end.

(** The reagent amount before the final [round]. *)
Definition lye_unrounded (oil_weights : dict Q) (superfat_percent : Q)
    (lye_type : string) : result Q :=
  total_lye ← lye_loop lye_type oil_weights 0;
  mret (total_lye * (1 - superfat_percent / 100)).

(** [if modifiers: for ... in modifiers.items(): ...] *)
Definition lye_adjustment_unrounded (modifiers : option (dict Q)) : Q :=
  match modifiers with
  | Some ((_ :: _) as items) => adjustment_loop items 0
  | _ => 0
  end.

Definition calculate_lye_amount (oil_weights : dict Q) (superfat_percent : Q)
    (modifiers : option (dict Q)) (lye_type : string) : result (Q * Q) :=
  total_lye ← lye_unrounded oil_weights superfat_percent lye_type;
  mret (round total_lye 2, round (lye_adjustment_unrounded modifiers) 2).

Definition calculate_water_amount (lye_weight lye_concentration : Q)
  : result Q :=
  if Qeq_bool lye_concentration 0 then Raise ZeroDivisionError
  else Ok (round (lye_weight * (100 - lye_concentration) / lye_concentration) 2).

(** The accumulation loop shared, word for word, by
    [calculate_soap_properties] and [calculate_fatty_acid_profile]:
    [vec] selects the oil's ['properties'] or ['fatty_acids'] entry. *)
Fixpoint average_loop {K} (vec : Oil -> K -> Q) (total_weight : Q)
    (items : dict Q) (acc : list (K * Q)) : list (K * Q) :=
  match items with
  | [] => acc
  | (oil_name, weight) :: rest =>
      match oils_db !! oil_name with
      | None => average_loop vec total_weight rest acc
      | Some oil =>
          let percentage := weight / total_weight in
          average_loop vec total_weight rest
            (map (fun kv => (fst kv, snd kv + vec oil (fst kv) * percentage)) acc)
      end
  end.

Definition weighted_average {K} (names : list K) (vec : Oil -> K -> Q)
    (oil_weights : dict Q) : list (K * Q) :=
  let total_weight := sum (values oil_weights) in
  if Qeq_bool total_weight 0 then []
  else
    map (fun kv => (fst kv, round (snd kv) 1))
      (average_loop vec total_weight oil_weights
         (map (fun k => (k, 0)) names)).

Definition calculate_soap_properties (oil_weights : dict Q)
  : list (PropName * Q) :=
  weighted_average property_names properties oil_weights.

Definition calculate_fatty_acid_profile (oil_weights : dict Q)
  : list (FattyAcid * Q) :=
  weighted_average fatty_acid_names fatty_acids oil_weights.

Definition calculate_fragrance_amount (total_oil_weight fragrance_percent : Q)
  : Q :=
  round (total_oil_weight * fragrance_percent / 100) 2.

Definition calculate_modifier_amount (modifier_name : string)
    (total_oil_weight : Q) (usage_percent : option Q) : Q :=
  match modifiers_db !! modifier_name with
  | None => 0
  | Some modifier =>
      let usage_percent :=
        match usage_percent with
        | Some p => p
        | None => default 1 (typical_usage_percent modifier)
        end in
      let usage_type :=
        default "percent_of_oils" (usage_rate_type modifier) in
      if String.eqb usage_type "percent_of_oils"
      then round (total_oil_weight * usage_percent / 100) 2
      else usage_percent
  end.

(** [self.oils_db.get(oil_name, {})]; [None] stands for the empty
    dictionary returned for an unknown name. *)
Definition get_oil_info (oil_name : string) : option Oil :=
  oils_db !! oil_name.

(** [self.modifiers_db.get(modifier_name, {})] *)
Definition get_modifier_info (modifier_name : string) : option Modifier :=
  modifiers_db !! modifier_name.

#[global] Instance PropName_eq_dec : EqDecision PropName.
Proof. solve_decision. Defined.

(** The table [modifier_effects] of [apply_modifier_effects]. *)
Definition modifier_effects : dict (list (PropName * Q)) :=
  [ ("Sugar", [(bubbly, 3); (conditioning, 1)]);
    ("Honey", [(bubbly, 2); (conditioning, 2); (creamy, 1)]);
    ("Silk Amino Acids", [(creamy, 3); (conditioning, 2)]);
    ("Sodium Lactate", [(hardness, 2)]);
    ("Citric Acid", [(hardness, 1); (conditioning, 1)]);
    ("Colloidal Oatmeal", [(conditioning, 2)]);
    ("Tussah Silk Fibers", [(creamy, 2)]);
    ("Kaolin Clay", [(creamy, 1); (hardness, 1)]);
    ("Bentonite Clay", [(creamy, 2)]);
    ("Vitamin E Oil", [(conditioning, 1)]) ].

(** [if prop in adjusted_props:
       adjusted_props[prop] = round(adjusted_props[prop] + boost, 1)] *)
Fixpoint boost_prop (adjusted_props : list (PropName * Q)) (prop : PropName)
    (boost : Q) : list (PropName * Q) :=
  match adjusted_props with
  | [] => []
  | (p, v) :: rest =>
      if decide (prop = p) then (p, round (v + boost) 1) :: rest
      else (p, v) :: boost_prop rest prop boost
  end.

(** [for prop, boost in effects.items(): ...] *)
Definition apply_effects (adjusted_props : list (PropName * Q))
    (effects : list (PropName * Q)) : list (PropName * Q) :=
  fold_left (fun adjusted pb => boost_prop adjusted (fst pb) (snd pb))
    effects adjusted_props.

Definition apply_modifier_effects (base_properties : list (PropName * Q))
    (modifiers : dict Q) : list (PropName * Q) :=
  fold_left
    (fun adjusted_props ma =>
       match get modifier_effects (fst ma) with
       | Some effects =>
           if Qlt_le_dec 0 (snd ma) then apply_effects adjusted_props effects
           else adjusted_props
       | None => adjusted_props
       end)
    modifiers base_properties.

End Calculator.

End SoapChemistry.

(** ** [models/recipe.py]: class [Recipe] *)

Module Recipe.
Import Py.

(** Python objects held by a recipe's attributes and by the dictionary
    [to_dict] produces: the attributes are untyped at run time. *)
Inductive pyval : Type :=
| PNone
| PStr (s : string)
| PNum (q : Q)
| PDict (d : dict Q).

Record t : Type := mk {
  name : pyval;
  oils : pyval;
  superfat : pyval;
  lye_concentration : pyval;
  fragrance_percent : pyval;
  notes : pyval;
  modifiers : pyval;
  created_date : pyval;
  modified_date : pyval;
  lye_amount : pyval;
  water_amount : pyval;
  fragrance_amount : pyval;
  lye_adjustment : pyval;
  properties : pyval;
  fatty_acids : pyval
}.

(** [Recipe.__init__]; [now] is the value of
    [datetime.now().isoformat()] at the call. *)
Definition init (now : string)
    (name oils superfat lye_concentration fragrance_percent notes modifiers
      : pyval) : t :=
  {| name := name;
     oils := oils;
     superfat := superfat;
     lye_concentration := lye_concentration;
     fragrance_percent := fragrance_percent;
     notes := notes;
     modifiers := match modifiers with PNone => PDict [] | m => m end;
     created_date := PStr now;
     modified_date := PStr now;
     lye_amount := PNum 0;
     water_amount := PNum 0;
     fragrance_amount := PNum 0;
     lye_adjustment := PNum 0;
     properties := PDict [];
     fatty_acids := PDict [] |}.

Definition to_dict (self : t) : dict pyval :=
  [ ("name", name self);
    ("oils", oils self);
    ("superfat", superfat self);
    ("lye_concentration", lye_concentration self);
    ("fragrance_percent", fragrance_percent self);
    ("notes", notes self);
    ("modifiers", modifiers self);
    ("created_date", created_date self);
    ("modified_date", modified_date self);
    ("lye_amount", lye_amount self);
    ("water_amount", water_amount self);
    ("fragrance_amount", fragrance_amount self);
    ("lye_adjustment", lye_adjustment self);
    ("properties", properties self);
    ("fatty_acids", fatty_acids self) ].

(** [data[key]] *)
Definition getitem (data : dict pyval) (key : string) : result pyval :=
  match get data key with
  | Some v => Ok v
  | None => Raise (KeyError key)
  end.

(** [data.get(key, dflt)] *)
Definition get_or (data : dict pyval) (key : string) (dflt : pyval) : pyval :=
  default dflt (get data key).

Definition from_dict (now : string) (data : dict pyval) : result t :=
  name' ← getitem data "name";
  oils' ← getitem data "oils";
  let recipe :=
    init now name' oils'
      (get_or data "superfat" (PNum 5))
      (get_or data "lye_concentration" (PNum 33))
      (get_or data "fragrance_percent" (PNum 3))
      (get_or data "notes" (PStr ""))
      (get_or data "modifiers" (PDict [])) in
  let created := get_or data "created_date" (created_date recipe) in
  let modified := get_or data "modified_date" (modified_date recipe) in
  mret {| name := name recipe;
          oils := oils recipe;
          superfat := superfat recipe;
          lye_concentration := lye_concentration recipe;
          fragrance_percent := fragrance_percent recipe;
          notes := notes recipe;
          modifiers := modifiers recipe;
          created_date := created;
          modified_date := modified;
          lye_amount := get_or data "lye_amount" (PNum 0);
          water_amount := get_or data "water_amount" (PNum 0);
          fragrance_amount := get_or data "fragrance_amount" (PNum 0);
          lye_adjustment := get_or data "lye_adjustment" (PNum 0);
          properties := get_or data "properties" (PDict []);
          fatty_acids := get_or data "fatty_acids" (PDict []) |}.

End Recipe.

(** ** [main_auto.py]: class [AutoRecipeGenerator] *)

Module AutoRecipeGenerator.
Import Py.

(** [OIL_CATEGORIES] *)
Definition base_oils : list string :=
  ["Olive Oil"; "Sunflower Oil"; "Sweet Almond Oil"; "Rice Bran Oil";
   "Canola Oil"; "Apricot Kernel Oil"; "Avocado Oil"; "Hazelnut Oil";
   "Macadamia Nut Oil"].
Definition hard_oils : list string :=
  ["Coconut Oil"; "Palm Oil"; "Cocoa Butter"; "Shea Butter"; "Babassu Oil";
   "Beeswax"; "Mango Butter"].
Definition super_fat_oils : list string := ["Castor Oil"; "Jojoba Oil"].
Definition conditioning_oils : list string :=
  ["Beef Tallow"; "Lard"; "Grapeseed Oil"; "Hemp Seed Oil"; "Safflower Oil"].
Definition specialty_oils : list string := ["Argan Oil"; "Neem Oil"].

(** [[oil for oil in selected_oils if oil in category]] *)
Definition select (category selected_oils : list string) : list string :=
  filter (fun oil => oil ∈ category) selected_oils.

(** [for oil in oils: recipe[oil] = weight] *)
Definition assign_each (recipe : dict Q) (oils : list string) (weight : Q)
  : dict Q :=
  fold_left (fun r oil => set r oil weight) oils recipe.

(** [for oil in oils: recipe[oil] = recipe.get(oil, 0) + weight] *)
Definition add_each (recipe : dict Q) (oils : list string) (weight : Q)
  : dict Q :=
  fold_left (fun r oil => set r oil (default 0 (get r oil) + weight)) oils recipe.

(** The normalized target factors. *)
Record factors : Type := {
  hardness_factor : Q;
  cleansing_factor : Q;
  conditioning_factor : Q;
  bubbly_factor : Q;
  creamy_factor : Q
}.

Definition target_factors (target_props : gmap string Q) : factors :=
  let target_hardness := default 40 (target_props !! "hardness") in
  let target_cleansing := default 15 (target_props !! "cleansing") in
  let target_conditioning := default 55 (target_props !! "conditioning") in
  let target_bubbly := default 25 (target_props !! "bubbly") in
  let target_creamy := default 30 (target_props !! "creamy") in
  {| hardness_factor := (target_hardness - 29) / 25;
     cleansing_factor := (target_cleansing - 12) / 10;
     conditioning_factor := (target_conditioning - 44) / 25;
     bubbly_factor := (target_bubbly - 14) / 32;
     creamy_factor := (target_creamy - 16) / 32 |}.

(** The six category percentages, in the order the code sums them. *)
Record shares : Type := {
  base_pct : Q;
  coconut_pct : Q;
  hard_pct : Q;
  animal_pct : Q;
  castor_pct : Q;
  specialty_pct : Q
}.

Definition total_pct (s : shares) : Q :=
  base_pct s + coconut_pct s + hard_pct s + animal_pct s + castor_pct s
  + specialty_pct s.

(** Which categories the selection populates. *)
Record available : Type := {
  has_base : bool;
  has_coconut : bool;
  has_other_hard : bool;
  has_animal : bool;
  has_castor : bool;
  has_specialty : bool
}.

Definition nonempty {A} (l : list A) : bool :=
  match l with [] => false | _ => true end.

Definition availability (selected_oils : list string) : available :=
  let selected_hard := select hard_oils selected_oils in
  {| has_base := nonempty (select base_oils selected_oils);
     has_coconut := bool_decide ("Coconut Oil" ∈ selected_hard);
     has_other_hard :=
       nonempty (filter (fun o => o ≠ "Coconut Oil") selected_hard);
     has_animal := nonempty (select conditioning_oils selected_oils);
     has_castor := nonempty (select super_fat_oils selected_oils);
     has_specialty := nonempty (select specialty_oils selected_oils) |}.

(** The affine share formulas. *)
Definition initial_shares (a : available) (f : factors) : shares :=
  let coconut_need := Qmax (cleansing_factor f) (bubbly_factor f) in
  {| base_pct :=
       if has_base a then 0.30 + conditioning_factor f * 0.30 else 0;
     coconut_pct :=
       if has_coconut a then 0.15 + coconut_need * 0.35 else 0;
     hard_pct :=
       if has_other_hard a then 0.10 + hardness_factor f * 0.15 else 0;
     animal_pct :=
       if has_animal a then 0.10 + creamy_factor f * 0.20 else 0;
     castor_pct :=
       if has_castor a then 0.05 + creamy_factor f * 0.05 else 0;
     specialty_pct :=
       if has_specialty a then 0.03 + conditioning_factor f * 0.02 else 0 |}.

(** [if not has_base: ...] *)
Definition compensate (a : available) (s : shares) : shares :=
  if has_base a then s
  else
    {| base_pct := base_pct s;
       coconut_pct :=
         if has_coconut a then coconut_pct s * 0.6 else coconut_pct s;
       hard_pct :=
         if has_other_hard a then hard_pct s * 1.5 else hard_pct s;
       animal_pct :=
         if has_animal a then animal_pct s * 1.8 else animal_pct s;
       castor_pct := castor_pct s;
       specialty_pct := specialty_pct s |}.

(** [if total_pct > 0: base_pct /= total_pct; ...] *)
Definition normalize (s : shares) : shares :=
  let total := total_pct s in
  if Qlt_le_dec 0 total then
    {| base_pct := base_pct s / total;
       coconut_pct := coconut_pct s / total;
       hard_pct := hard_pct s / total;
       animal_pct := animal_pct s / total;
       castor_pct := castor_pct s / total;
       specialty_pct := specialty_pct s / total |}
  else s.

(** The category percentages with which the oils are allocated. *)
Definition category_shares (selected_oils : list string)
    (target_props : gmap string Q) : shares :=
  let a := availability selected_oils in
  normalize (compensate a (initial_shares a (target_factors target_props))).

(** The recipe of [generate_targeted_recipe] before
    ["Normalize to exact total"]. *)
Definition targeted_allocation (selected_oils : list string) (total_oz : Q)
    (s : shares) : dict Q :=
  let selected_base := select base_oils selected_oils in
  let selected_hard := select hard_oils selected_oils in
  let selected_super := select super_fat_oils selected_oils in
  let selected_cond := select conditioning_oils selected_oils in
  let selected_specialty := select specialty_oils selected_oils in
  let recipe : dict Q := [] in
  let recipe :=
    if nonempty selected_base then
      let base_total := total_oz * base_pct s in
      assign_each recipe selected_base (base_total / len selected_base)
    else recipe in
  let '(recipe, selected_hard) :=
    if bool_decide ("Coconut Oil" ∈ selected_hard) then
      (set recipe "Coconut Oil" (total_oz * coconut_pct s),
       filter (fun o => o ≠ "Coconut Oil") selected_hard)
    else (recipe, selected_hard) in
  let recipe :=
    if nonempty selected_hard then
      let hard_total := total_oz * hard_pct s in
      add_each recipe selected_hard (hard_total / len selected_hard)
    else recipe in
  let recipe :=
    if nonempty selected_cond then
      let animal_total := total_oz * animal_pct s in
      add_each recipe selected_cond (animal_total / len selected_cond)
    else recipe in
  let recipe :=
    if nonempty selected_super then
      let castor_total := total_oz * castor_pct s in
      add_each recipe selected_super (castor_total / len selected_super)
    else recipe in
  if nonempty selected_specialty then
    let specialty_total := total_oz * specialty_pct s in
    add_each recipe selected_specialty (specialty_total / len selected_specialty)
  else recipe.

(** ["Normalize to exact total"] *)
Definition normalize_total (total_oz : Q) (recipe : dict Q) : dict Q :=
  let current_total := sum (values recipe) in
  if Qlt_le_dec 0 current_total then
    let factor := total_oz / current_total in
    map_values (fun weight => weight * factor) recipe
  else recipe.

Definition round_weights (recipe : dict Q) : dict Q :=
  map_values (fun weight => round weight 2) recipe.

Definition generate_targeted_recipe (selected_oils : list string)
    (total_oz : Q) (target_props : gmap string Q) : dict Q :=
  let s := category_shares selected_oils target_props in
  let recipe := targeted_allocation selected_oils total_oz s in
  round_weights (normalize_total total_oz recipe).

(** One block of the ["Multiple oils"] branch:
    [if selected: per = cat_total / len(selected); ...;
     remaining_oz -= cat_total] *)
Definition allocate (selected : list string) (cat_total : Q)
    (st : dict Q * Q) : dict Q * Q :=
  let '(recipe, remaining_oz) := st in
  if nonempty selected then
    (assign_each recipe selected (cat_total / len selected),
     remaining_oz - cat_total)
  else st.

(** The ["Multiple oils - comprehensive recipe"] branch. *)
Definition comprehensive (selected_oils : list string) (total_oz : Q)
  : dict Q :=
  let st : dict Q * Q := ([], total_oz) in
  let st := allocate (select base_oils selected_oils) (total_oz * 0.45) st in
  let st :=
    allocate (select hard_oils selected_oils)
      (Qmin (total_oz * 0.30) (snd st)) st in
  let st :=
    allocate (select conditioning_oils selected_oils)
      (Qmin (total_oz * 0.18) (snd st)) st in
  let st :=
    allocate (select super_fat_oils selected_oils)
      (Qmin (total_oz * 0.07) (snd st)) st in
  let st :=
    allocate (select specialty_oils selected_oils)
      (Qmin (total_oz * 0.05) (snd st)) st in
  let '(recipe, remaining_oz) := st in
  if Qlt_le_dec 0.01 remaining_oz then
    if nonempty recipe then
      let per_oil := remaining_oz / len recipe in
      map_values (fun weight => weight + per_oil) recipe
    else recipe
  else recipe.

(** The recipe of the default strategy before the final rounding. *)
Definition balanced (selected_oils : list string) (total_oz : Q)
  : result (dict Q) :=
  let selected_base := select base_oils selected_oils in
  let selected_hard := select hard_oils selected_oils in
  let recipe : dict Q := [] in
  match selected_oils with
  | [oil0] => Ok (set recipe oil0 total_oz)
  | [oil0; oil1] =>
      match selected_base, selected_hard with
      | b :: _, h :: _ =>
          Ok (set (set recipe b (total_oz * 0.70)) h (total_oz * 0.30))
      | _, _ =>
          Ok (set (set recipe oil0 (total_oz * 0.60)) oil1 (total_oz * 0.40))
      end
  | [_; _; _] =>
      match selected_base, selected_hard with
      | b :: _, h :: _ =>
          let recipe := set recipe b (total_oz * 0.50) in
          let recipe := set recipe h (total_oz * 0.30) in
          match filter (fun oil => oil ∉ [b; h]) selected_oils with
          | other :: _ => Ok (set recipe other (total_oz * 0.20))
          | [] => Raise IndexError
          end
      | _, _ => Ok (assign_each recipe selected_oils (total_oz / 3))
      end
  | _ => Ok (comprehensive selected_oils total_oz)
  end.

(** [if target_props:] *)
Definition truthy (target_props : option (gmap string Q)) : bool :=
  match target_props with
  | Some m => negb (bool_decide (m = ∅))
  | None => false
  end.

Definition generate_recipe (selected_oils : list string)
    (total_weight_lbs : Q) (target_props : option (gmap string Q))
  : result (dict Q) :=
  match selected_oils with
  | [] => Ok []
  | _ =>
      let total_oz := total_weight_lbs * 16 in
      if truthy target_props then
        Ok (generate_targeted_recipe selected_oils total_oz
              (default ∅ target_props))
      else
        recipe ← balanced selected_oils total_oz;
        mret (round_weights recipe)
  end.

End AutoRecipeGenerator.

(** ** [models/recipe.py]: class [RecipeManager] *)

Module RecipeManager.
Import Py.

(** What [load_recipes] finds at [self.recipes_file].  The JSON text
    itself is not modelled: a readable file is the JSON object it encodes,
    with or without the key ['recipes']; [Unreadable] is a file on which
    [open] or [json.load] raises. *)
Inductive file : Type :=
| Missing
| Unreadable
| Json (recipes : option (list (dict Recipe.pyval))).

(** The manager's list [self.recipes] and the file behind it. *)
Record t : Type := mk {
  recipes_file : file;
  recipes : list Recipe.t
}.

(** [[Recipe.from_dict(r) for r in entries]]; [clock i] is the time at
    which the [i]-th recipe of a load is constructed. *)
Fixpoint from_dicts (clock : nat -> string) (i : nat)
    (entries : list (dict Recipe.pyval)) : result (list Recipe.t) :=
  match entries with
  | [] => Ok []
  | data :: rest =>
      recipe ← Recipe.from_dict (clock i) data;
      recipes ← from_dicts clock (S i) rest;
      mret (recipe :: recipes)
  end.

(** [load_recipes]: any exception leaves the list empty. *)
Definition load_recipes (clock : nat -> string) (self : t) : t :=
  match recipes_file self with
  | Missing | Unreadable => mk (recipes_file self) []
  | Json data =>
      match from_dicts clock 0 (default [] data) with
      | Ok loaded => mk (recipes_file self) loaded
      | Raise _ => mk (recipes_file self) []
      end
  end.

(** [RecipeManager.__init__] *)
Definition init (clock : nat -> string) (recipes_file : file) : t :=
  load_recipes clock (mk recipes_file []).

(** [save_recipes], the write succeeding. *)
Definition save_recipes (self : t) : t :=
  mk (Json (Some (map Recipe.to_dict (recipes self)))) (recipes self).

Definition add_recipe (recipe : Recipe.t) (self : t) : t :=
  save_recipes (mk (recipes_file self) (recipes self ++ [recipe])).

(** [0 <= index < len(self.recipes)] *)
Definition in_range (index : Z) (self : t) : bool :=
  bool_decide (0 <= index < Z.of_nat (length (recipes self)))%Z.

(** [recipe.modified_date = datetime.now().isoformat()] *)
Definition touch (now : string) (recipe : Recipe.t) : Recipe.t :=
  {| Recipe.name := Recipe.name recipe;
     Recipe.oils := Recipe.oils recipe;
     Recipe.superfat := Recipe.superfat recipe;
     Recipe.lye_concentration := Recipe.lye_concentration recipe;
     Recipe.fragrance_percent := Recipe.fragrance_percent recipe;
     Recipe.notes := Recipe.notes recipe;
     Recipe.modifiers := Recipe.modifiers recipe;
     Recipe.created_date := Recipe.created_date recipe;
     Recipe.modified_date := Recipe.PStr now;
     Recipe.lye_amount := Recipe.lye_amount recipe;
     Recipe.water_amount := Recipe.water_amount recipe;
     Recipe.fragrance_amount := Recipe.fragrance_amount recipe;
     Recipe.lye_adjustment := Recipe.lye_adjustment recipe;
     Recipe.properties := Recipe.properties recipe;
     Recipe.fatty_acids := Recipe.fatty_acids recipe |}.

(** [update_recipe] on the list taken by value: [recipe] is an object the
    list does not hold yet.  [RecipeObjects.update_recipe] follows the
    identity of the objects, and so covers a [recipe] that the list
    already holds. *)
Definition update_recipe (now : string) (index : Z) (recipe : Recipe.t)
    (self : t) : t :=
  if in_range index self then
    save_recipes
      (mk (recipes_file self)
          (<[Z.to_nat index := touch now recipe]> (recipes self)))
  else self.

Definition delete_recipe (index : Z) (self : t) : t :=
  if in_range index self then
    save_recipes (mk (recipes_file self) (delete (Z.to_nat index) (recipes self)))
  else self.

Definition get_recipe (index : Z) (self : t) : option Recipe.t :=
  if in_range index self then recipes self !! Z.to_nat index else None.

Definition get_all_recipes (self : t) : list Recipe.t := recipes self.

End RecipeManager.

(** ** [models/recipe.py]: [RecipeManager] over [Recipe] objects

    [self.recipes] is a list of references: the same [Recipe] object can
    sit at several indices and be held by the caller, and [update_recipe]
    writes to the object it is passed. *)

Module RecipeObjects.
Import Py.

(** The identity of a [Recipe] object. *)
Definition ref : Type := nat.

(** The attributes of every object, the manager's file and its list. *)
Record t : Type := mk {
  objects : ref -> Recipe.t;
  recipes_file : RecipeManager.file;
  recipes : list ref
}.

(** [save_recipes], the write succeeding:
    [{'recipes': [r.to_dict() for r in self.recipes]}] *)
Definition save_recipes (self : t) : t :=
  mk (objects self)
     (RecipeManager.Json
        (Some (map (fun r => Recipe.to_dict (objects self r)) (recipes self))))
     (recipes self).

(** [self.recipes.append(recipe); self.save_recipes()] *)
Definition add_recipe (recipe : ref) (self : t) : t :=
  save_recipes
    (mk (objects self) (recipes_file self) (recipes self ++ [recipe])).

(** [0 <= index < len(self.recipes)] *)
Definition in_range (index : Z) (self : t) : bool :=
  bool_decide (0 <= index < Z.of_nat (length (recipes self)))%Z.

(** [recipe.modified_date = datetime.now().isoformat();
     self.recipes[index] = recipe; self.save_recipes()] *)
Definition update_recipe (now : string) (index : Z) (recipe : ref)
    (self : t) : t :=
  if in_range index self then
    save_recipes
      (mk (fun r => if decide (r = recipe)
                    then RecipeManager.touch now (objects self recipe)
                    else objects self r)
          (recipes_file self)
          (<[Z.to_nat index := recipe]> (recipes self)))
  else self.

(** [self.recipes.pop(index); self.save_recipes()] *)
Definition delete_recipe (index : Z) (self : t) : t :=
  if in_range index self then
    save_recipes
      (mk (objects self) (recipes_file self)
          (delete (Z.to_nat index) (recipes self)))
  else self.

(** [get_recipe] returns the object itself, not a copy. *)
Definition get_recipe (index : Z) (self : t) : option ref :=
  if in_range index self then recipes self !! Z.to_nat index else None.

End RecipeObjects.

(** ** [main_auto.py]: helpers of class [SoapMakerAutoApp] *)

Module SoapMakerAutoApp.
Import Py SoapChemistry.

Section App.
(** The databases of [self.chemistry]. *)
Variable oils_db : gmap string Oil.
Variable modifiers_db : gmap string Modifier.

(** The loop of [calculate_average_sap]; the [.get('sap_naoh', 0.14)]
    default is not reachable, every oil entry carrying the key. *)
Fixpoint total_sap_loop (oil_names : list string) (total_sap : Q) : Q :=
  match oil_names with
  | [] => total_sap
  | oil_name :: rest =>
      match get_oil_info oils_db oil_name with
      | Some oil_info => total_sap_loop rest (total_sap + sap_naoh oil_info)
      | None => total_sap_loop rest total_sap
      end
  end.

Definition calculate_average_sap (oil_names : list string) : Q :=
  match oil_names with
  | [] => 0.14
  | _ => total_sap_loop oil_names 0 / len oil_names
  end.

(** The batch arithmetic of [SoapMakerAutoApp.generate_recipe] (the lines
    from ["Calculate average SAP value"] to ["Calculate oil weight from
    total batch weight"]): the factor by which a batch outweighs its oils. *)
Definition total_multiplier (avg_sap superfat lye_conc fragrance_pct : Q)
  : result Q :=
  if Qeq_bool lye_conc 0 then Raise ZeroDivisionError
  else
    let lye_per_oil := avg_sap * (1 - superfat / 100) in
    let water_per_oil := lye_per_oil * ((100 - lye_conc) / lye_conc) in
    let fragrance_per_oil := fragrance_pct / 100 in
    Ok (1 + lye_per_oil + water_per_oil + fragrance_per_oil).

(** [oil_weight_oz], the oil weight computed for the batch. *)
Definition oil_weight_oz (selected_oils : list string)
    (superfat lye_conc fragrance_pct batch_size_lbs : Q) : result Q :=
  let avg_sap := calculate_average_sap selected_oils in
  multiplier ← total_multiplier avg_sap superfat lye_conc fragrance_pct;
  let total_batch_oz := batch_size_lbs * 16 in
  if Qeq_bool multiplier 0 then Raise ZeroDivisionError
  else Ok (total_batch_oz / multiplier).

End App.

End SoapMakerAutoApp.

(** ** An example database

    [data/oils.json] and [data/modifiers.json] are read at start-up and are
    not part of the code; the calculator is modelled for an arbitrary
    database.  The entries below, in the format of those files, serve the
    concrete evaluations. *)

Module Sample.
Import SoapChemistry.

Definition olive_oil : Oil :=
  {| sap_naoh := 0.134;
     sap_koh := 0.188;
     properties := fun p =>
       match p with
       | hardness => 17 | cleansing => 0 | conditioning => 82
       | bubbly => 0 | creamy => 17 | iodine => 85 | ins => 105
       end;
     fatty_acids := fun fa =>
       match fa with
       | palmitic => 14 | stearic => 3 | oleic => 69
       | linoleic => 12 | linolenic => 1 | _ => 0
       end |}.

Definition coconut_oil : Oil :=
  {| sap_naoh := 0.183;
     sap_koh := 0.257;
     properties := fun p =>
       match p with
       | hardness => 79 | cleansing => 67 | conditioning => 10
       | bubbly => 67 | creamy => 12 | iodine => 10 | ins => 258
       end;
     fatty_acids := fun fa =>
       match fa with
       | lauric => 48 | myristic => 19 | palmitic => 9 | stearic => 3
       | oleic => 8 | linoleic => 2 | _ => 0
       end |}.

Definition oils_db : gmap string Oil :=
  {[ "Olive Oil" := olive_oil; "Coconut Oil" := coconut_oil ]}.

Definition citric_acid : Modifier :=
  {| typical_usage_percent := Some 1;
     usage_rate_type := Some "percent_of_oils";
     lye_adjustment_factor := Some 0.6 |}.

Definition sugar : Modifier :=
  {| typical_usage_percent := Some 1;
     usage_rate_type := Some "tablespoons_per_pound";
     lye_adjustment_factor := None |}.

Definition modifiers_db : gmap string Modifier :=
  {[ "Citric Acid" := citric_acid; "Sugar" := sugar ]}.

End Sample.

(** ** Definitions used to state and prove the properties *)

Section CalculatorSpecifications.
Import Py SoapChemistry.

Variable oils_db : gmap string Oil.

(** What the loop leaves under one key, started from [v]. *)
Fixpoint loop_value {K} (vec : Oil -> K -> Q) (total : Q) (items : dict Q)
    (v : Q) (k : K) : Q :=
  match items with
  | [] => v
  | (oil_name, weight) :: rest =>
      match oils_db !! oil_name with
      | None => loop_value vec total rest v k
      | Some oil => loop_value vec total rest (v + vec oil k * (weight / total)) k
      end
  end.

(** Σ [value × weight] over the entries whose name the database knows. *)
Fixpoint known_contributions {K} (vec : Oil -> K -> Q) (items : dict Q) (k : K)
  : Q :=
  match items with
  | [] => 0
  | (oil_name, weight) :: rest =>
      match oils_db !! oil_name with
      | None => known_contributions vec rest k
      | Some oil => vec oil k * weight + known_contributions vec rest k
      end
  end.

(** [{oil: 2 * weight for oil, weight in oil_weights.items()}] *)
Definition doubled (oil_weights : dict Q) : dict Q :=
  map_values (Qmult 2) oil_weights.

End CalculatorSpecifications.

Section SolverSpecifications.
Import Py AutoRecipeGenerator.

(** Every oil named in [OIL_CATEGORIES]. *)
Definition categorized : list string :=
  base_oils ++ hard_oils ++ super_fat_oils ++ conditioning_oils
  ++ specialty_oils.

(** No target lies below the minimum of its property's range. *)
Definition nonneg_factors (f : factors) : Prop :=
  0 <= hardness_factor f /\ 0 <= cleansing_factor f
  /\ 0 <= conditioning_factor f /\ 0 <= bubbly_factor f
  /\ 0 <= creamy_factor f.

Definition populated (a : available) : bool :=
  has_base a || has_coconut a || has_other_hard a || has_animal a
  || has_castor a || has_specialty a.

(** The total of the shares of the categories the selection populates. *)
Definition populated_total (a : available) (s : shares) : Q :=
  (if has_base a then base_pct s else 0)
  + (if has_coconut a then coconut_pct s else 0)
  + (if has_other_hard a then hard_pct s else 0)
  + (if has_animal a then animal_pct s else 0)
  + (if has_castor a then castor_pct s else 0)
  + (if has_specialty a then specialty_pct s else 0).

(** A category without selected oil has share 0. *)
Definition respects (a : available) (s : shares) : Prop :=
  (has_base a = false -> base_pct s == 0)
  /\ (has_coconut a = false -> coconut_pct s == 0)
  /\ (has_other_hard a = false -> hard_pct s == 0)
  /\ (has_animal a = false -> animal_pct s == 0)
  /\ (has_castor a = false -> castor_pct s == 0)
  /\ (has_specialty a = false -> specialty_pct s == 0).

Definition other_hard (selected_oils : list string) : list string :=
  filter (fun o => o ≠ "Coconut Oil") (select hard_oils selected_oils).

(** The recipe of the targeted solver, block by block. *)
Definition targeted_blocks (oils : list string) (total_oz : Q) (s : shares)
  : dict Q :=
  let B := select base_oils oils in
  let H := other_hard oils in
  let C := select conditioning_oils oils in
  let S := select super_fat_oils oils in
  let P := select specialty_oils oils in
  map (fun o => (o, total_oz * base_pct s / len B)) B
  ++ (if bool_decide ("Coconut Oil" ∈ select hard_oils oils)
      then [("Coconut Oil", total_oz * coconut_pct s)] else [])
  ++ map (fun o => (o, 0 + total_oz * hard_pct s / len H)) H
  ++ map (fun o => (o, 0 + total_oz * animal_pct s / len C)) C
  ++ map (fun o => (o, 0 + total_oz * castor_pct s / len S)) S
  ++ map (fun o => (o, 0 + total_oz * specialty_pct s / len P)) P.

End SolverSpecifications.

Section CalculatorClosedForms.
Import Py SoapChemistry.

Variable oils_db : gmap string Oil.
Variable modifiers_db : gmap string Modifier.

(** Σ [weight × SAP value] over the entries the database knows. *)
Fixpoint reagent_sum (lye_type : string) (items : dict Q) : Q :=
  match items with
  | [] => 0
  | (oil_name, weight) :: rest =>
      match oils_db !! oil_name with
      | Some oil => weight * sap_value lye_type oil + reagent_sum lye_type rest
      | None => reagent_sum lye_type rest
      end
  end.

(** Σ [amount × factor] over the modifiers that have a factor. *)
Fixpoint adjustment_sum (items : dict Q) : Q :=
  match items with
  | [] => 0
  | (modifier_name, amount) :: rest =>
      match modifiers_db !! modifier_name with
      | Some modifier =>
          match lye_adjustment_factor modifier with
          | Some factor => amount * factor + adjustment_sum rest
          | None => adjustment_sum rest
          end
      | None => adjustment_sum rest
      end
  end.

(** Every name of the mapping is in the oil database. *)
Definition all_known (items : dict Q) : Prop :=
  forall name, name ∈ keys items -> is_Some (oils_db !! name).

End CalculatorClosedForms.

Section ModifierEffectSpecifications.
Import Py SoapChemistry.

(** The boost a modifier entry gives to a property: the table's value when
    the modifier is listed and its amount is positive, 0 otherwise. *)
Definition entry_boost (prop : PropName) (entry : string * Q) : Q :=
  match get modifier_effects (fst entry) with
  | Some effects =>
      if Qlt_le_dec 0 (snd entry)
      then sum (map snd (filter (fun pb => fst pb = prop) effects))
      else 0
  | None => 0
  end.

Definition total_boost (prop : PropName) (modifiers : dict Q) : Q :=
  sum (map (entry_boost prop) modifiers).

(** A number with at most one decimal. *)
Definition one_decimal (q : Q) : Prop := exists z : Z, q == z # 10.

(** One entry of [modifiers]. *)
Definition effect_step (adjusted : list (PropName * Q)) (entry : string * Q)
  : list (PropName * Q) :=
  match get modifier_effects (fst entry) with
  | Some effects =>
      if Qlt_le_dec 0 (snd entry) then apply_effects adjusted effects
      else adjusted
  | None => adjusted
  end.

(** Values shifted key by key. *)
Definition shifted (f : PropName -> Q) (a a' : list (PropName * Q)) : Prop :=
  Forall2 (fun kv kv' => fst kv = fst kv' /\ snd kv' == snd kv + f (fst kv)) a a'.

(** Distinct keys, values with at most one decimal. *)
Definition tenths (a : list (PropName * Q)) : Prop :=
  NoDup (map fst a) /\ Forall (fun kv => one_decimal (snd kv)) a.

(** Values raised, or kept, key by key. *)
Definition raised (a a' : list (PropName * Q)) : Prop :=
  Forall2 (fun kv kv' => fst kv = fst kv' /\ snd kv <= snd kv') a a'.

End ModifierEffectSpecifications.

Section SolverBlockSpecifications.
Import Py AutoRecipeGenerator.

(** The oils of one allocation block of the targeted solver. *)
Definition same_block (oils : list string) (o1 o2 : string) : Prop :=
  exists block,
    block ∈ [select base_oils oils; other_hard oils;
             select conditioning_oils oils; select super_fat_oils oils;
             select specialty_oils oils]
    /\ o1 ∈ block /\ o2 ∈ block.

(** No category has a negative share. *)
Definition nonneg_shares (s : shares) : Prop :=
  0 <= base_pct s /\ 0 <= coconut_pct s /\ 0 <= hard_pct s
  /\ 0 <= animal_pct s /\ 0 <= castor_pct s /\ 0 <= specialty_pct s.

End SolverBlockSpecifications.

Section RecipeSpecifications.
Import Py.

(** The keys [from_dict] reads with [data.get], each with a default. *)
Definition optional_keys : list string :=
  ["superfat"; "lye_concentration"; "fragrance_percent"; "notes";
   "modifiers"; "created_date"; "modified_date"; "lye_amount";
   "water_amount"; "fragrance_amount"; "lye_adjustment"; "properties";
   "fatty_acids"].

(** The attributes seen through the reference [get_recipe] returns. *)
Definition read (index : Z) (self : RecipeObjects.t) : option Recipe.t :=
  RecipeObjects.objects self <$> RecipeObjects.get_recipe index self.

End RecipeSpecifications.

(** * Properties *)

(** ** Facts about the runtime fragments *)

Section PyFacts.
Import Py.

Lemma round_half_even_err (x : Q) :
  Qabs (inject_Z (round_half_even x) - x) <= 1 # 2.
Proof.
  unfold round_half_even.
  pose proof (Qfloor_le x) as Hlo.
  pose proof (Qlt_floor x) as Hhi.
  rewrite inject_Z_plus in Hhi.
  apply Qabs_Qle_condition.
  destruct (Qcompare_spec (x - inject_Z (Qfloor x)) (1 # 2)) as [He|Hl|Hg];
    [destruct (Z.even (Qfloor x))| |];
    rewrite ?inject_Z_plus; change (inject_Z 1) with 1 in *;
    generalize dependent (inject_Z (Qfloor x)); intros; lra.
Qed.

(** A weight rounded to two decimals moves by at most half a hundredth. *)
Lemma round2_err (x : Q) : Qabs (round x 2 - x) <= 0.005.
Proof.
  unfold round. change (pow10 2) with 100%positive.
  pose proof (round_half_even_err (x * inject_Z 100)) as H.
  apply Qabs_Qle_condition in H. apply Qabs_Qle_condition.
  rewrite (Qmake_Qdiv (round_half_even (x * inject_Z 100)) 100).
  change (inject_Z (Z.pos 100)) with 100 in *.
  generalize dependent (inject_Z (round_half_even (x * 100))). intros q H.
  unfold Qdiv. change (/ 100) with (1 # 100). lra.
Qed.

(** Rounding does not depend on the representation of the fraction. *)
Lemma round_half_even_proper (x y : Q) :
  x == y -> round_half_even x = round_half_even y.
Proof.
  intros H. unfold round_half_even. cbv zeta.
  rewrite (Qfloor_comp x y H).
  assert (Qcompare (x - inject_Z (Qfloor y)) (1 # 2)
          = Qcompare (y - inject_Z (Qfloor y)) (1 # 2)) as ->.
  { apply Qcompare_comp; [rewrite H|]; reflexivity. }
  reflexivity.
Qed.

Lemma round_proper (x y : Q) (n : nat) : x == y -> round x n = round y n.
Proof.
  intros H. unfold round. f_equal.
  apply round_half_even_proper. rewrite H. reflexivity.
Qed.

Lemma fold_Qplus_acc (xs : list Q) (a : Q) :
  fold_left Qplus xs a == a + sum xs.
Proof.
  unfold sum. revert a.
  induction xs as [|x xs IH]; intros a; simpl.
  - lra.
  - rewrite (IH (a + x)), (IH (0 + x)). lra.
Qed.

Lemma sum_cons (x : Q) (xs : list Q) : sum (x :: xs) == x + sum xs.
Proof. unfold sum at 1. simpl. rewrite fold_Qplus_acc. lra. Qed.

Lemma sum_app (xs ys : list Q) : sum (xs ++ ys) == sum xs + sum ys.
Proof.
  induction xs as [|x xs IH]; simpl.
  - unfold sum at 2. simpl. lra.
  - rewrite !sum_cons, IH. lra.
Qed.

Lemma len_cons {A} (x : A) (xs : list A) : len (x :: xs) == 1 + len xs.
Proof.
  unfold len. cbn [length]. rewrite Nat2Z.inj_succ, <- Z.add_1_l.
  rewrite inject_Z_plus. reflexivity.
Qed.

Lemma len_nonneg {A} (xs : list A) : 0 <= len xs.
Proof.
  unfold len, Qle. simpl. lia.
Qed.

Lemma len_pos {A} (x : A) (xs : list A) : 0 < len (x :: xs).
Proof. rewrite len_cons. pose proof (len_nonneg xs). lra. Qed.

Lemma round_half_even_bounds (x : Q) :
  (Qfloor x <= round_half_even x <= Qfloor x + 1)%Z.
Proof.
  unfold round_half_even. cbv zeta.
  destruct (Qcompare _ _); [destruct (Z.even _)| |]; lia.
Qed.

Lemma round_half_even_mono (x y : Q) :
  x <= y -> (round_half_even x <= round_half_even y)%Z.
Proof.
  intros Hxy.
  pose proof (Qfloor_resp_le x y Hxy) as Hf.
  pose proof (round_half_even_bounds x) as Hx.
  pose proof (round_half_even_bounds y) as Hy.
  destruct (Z.eq_dec (Qfloor x) (Qfloor y)) as [E|Hne]; [|lia].
  clear Hx Hy. unfold round_half_even. cbv zeta. rewrite E.
  destruct (Qcompare_spec (x - inject_Z (Qfloor y)) (1 # 2)) as [Hx|Hx|Hx];
    destruct (Qcompare_spec (y - inject_Z (Qfloor y)) (1 # 2)) as [Hy|Hy|Hy];
    try destruct (Z.even (Qfloor y)); try lia;
    exfalso; generalize dependent (inject_Z (Qfloor y)); intros; lra.
Qed.

Lemma pow10_pos (n : nat) : 0 < inject_Z (Z.pos (pow10 n)).
Proof. reflexivity. Qed.

(** [round] is monotone. *)
Lemma round_mono (x y : Q) (n : nat) : x <= y -> round x n <= round y n.
Proof.
  intros Hxy. unfold round, Qle. cbn [Qnum Qden].
  apply Z.mul_le_mono_nonneg_r; [lia|].
  apply round_half_even_mono.
  apply Qmult_le_compat_r; [exact Hxy|]. apply Qlt_le_weak, pow10_pos.
Qed.

End PyFacts.

(** ** The blend calculator *)

Section CalculatorFacts.
Import Py SoapChemistry.

Variable oils_db : gmap string Oil.
Variable modifiers_db : gmap string Modifier.

(** *** The reagent loop *)

Lemma lye_loop_app lye_type (xs ys : dict Q) (acc : Q) :
  lye_loop oils_db lye_type (xs ++ ys) acc
  = Py.bind (lye_loop oils_db lye_type xs acc)
      (lye_loop oils_db lye_type ys).
Proof.
  revert acc. induction xs as [|[n w] xs IH]; intros acc; simpl; [done|].
  destruct (oils_db !! n); [apply IH | done].
Qed.

(** The loop stops at the first name, in iteration order, that the
    database lacks. *)
Lemma lye_loop_unknown lye_type (items : dict Q) (acc : Q) :
  (exists name, name ∈ keys items /\ oils_db !! name = None) ->
  exists missing,
    missing ∈ keys items /\ oils_db !! missing = None
    /\ lye_loop oils_db lye_type items acc = Raise (oil_not_found missing).
Proof.
  revert acc. induction items as [|[n w] items IH]; intros acc [name [Hin Hnone]].
  - inversion Hin.
  - simpl. destruct (oils_db !! n) as [oil|] eqn:E.
    + assert (name ∈ keys items) as Hin'.
      { apply elem_of_cons in Hin as [->|]; [simpl in Hnone; congruence | done]. }
      destruct (IH (acc + w * sap_value lye_type oil)) as (m & Hm & Hn & Hr);
        [by exists name|].
      exists m. split_and!; [by apply list_elem_of_further | done | done].
    + exists n. split_and!; [apply list_elem_of_here | done | done].
Qed.

Lemma lye_loop_known lye_type (items : dict Q) (acc : Q) :
  (forall name, name ∈ keys items -> is_Some (oils_db !! name)) ->
  exists total, lye_loop oils_db lye_type items acc = Ok total.
Proof.
  revert acc. induction items as [|[n w] items IH]; intros acc Hall; simpl.
  - by eexists.
  - destruct (Hall n) as [oil ->]; [apply list_elem_of_here|].
    apply IH. intros name Hin. apply Hall. by apply list_elem_of_further.
Qed.

(** Scaling every weight scales the accumulated reagent mass. *)
Lemma lye_loop_scale lye_type (k : Q) (items : dict Q) (acc acc' total : Q) :
  acc' == k * acc ->
  lye_loop oils_db lye_type items acc = Ok total ->
  exists total',
    lye_loop oils_db lye_type (map_values (Qmult k) items) acc' = Ok total'
    /\ total' == k * total.
Proof.
  revert acc acc'. induction items as [|[n w] items IH]; intros acc acc' Hacc; simpl.
  - intros [= <-]. by exists acc'.
  - destruct (oils_db !! n) as [oil|]; [|done].
    apply IH. rewrite Hacc. ring.
Qed.

(** *** The modifier loop *)

Lemma adjustment_loop_app (xs ys : dict Q) (acc : Q) :
  adjustment_loop modifiers_db (xs ++ ys) acc
  = adjustment_loop modifiers_db ys (adjustment_loop modifiers_db xs acc).
Proof.
  revert acc. induction xs as [|[n a] xs IH]; intros acc; simpl; [done|].
  destruct (modifiers_db !! n) as [m|]; [destruct (lye_adjustment_factor m)|];
    apply IH.
Qed.

(** *** The weighted-average loop *)

Lemma average_loop_app {K} (vec : Oil -> K -> Q) total (xs ys : dict Q) acc :
  average_loop oils_db vec total (xs ++ ys) acc
  = average_loop oils_db vec total ys (average_loop oils_db vec total xs acc).
Proof.
  revert acc. induction xs as [|[n w] xs IH]; intros acc; simpl; [done|].
  destruct (oils_db !! n); apply IH.
Qed.

Lemma average_loop_pointwise {K} (vec : Oil -> K -> Q) total items
    (names : list K) (a : K -> Q) :
  average_loop oils_db vec total items (map (fun k => (k, a k)) names)
  = map (fun k => (k, loop_value oils_db vec total items (a k) k)) names.
Proof.
  revert a. induction items as [|[n w] items IH]; intros a; simpl; [done|].
  destruct (oils_db !! n) as [oil|]; [|apply IH].
  rewrite map_map. simpl. apply (IH (fun k => a k + vec oil k * (w / total))).
Qed.

Lemma loop_value_sum {K} (vec : Oil -> K -> Q) total items (v : Q) (k : K) :
  ~ total == 0 ->
  loop_value oils_db vec total items v k
  == v + known_contributions oils_db vec items k / total.
Proof.
  intros Hnz. revert v. induction items as [|[n w] items IH]; intros v; simpl.
  - field. exact Hnz.
  - destruct (oils_db !! n) as [oil|]; [|apply IH].
    rewrite IH. field. exact Hnz.
Qed.

Lemma known_contributions_app {K} (vec : Oil -> K -> Q) (xs ys : dict Q) k :
  known_contributions oils_db vec (xs ++ ys) k
  == known_contributions oils_db vec xs k + known_contributions oils_db vec ys k.
Proof.
  induction xs as [|[n w] xs IH]; simpl; [ring|].
  destruct (oils_db !! n); rewrite IH; ring.
Qed.

(** The returned vector, key by key: the known entries' contributions
    over the sum of all weights, rounded to one decimal. *)
Lemma weighted_average_value {K} (names : list K) (vec : Oil -> K -> Q)
    (oil_weights : dict Q) :
  ~ sum (values oil_weights) == 0 ->
  weighted_average oils_db names vec oil_weights
  = map (fun k =>
           (k, round (known_contributions oils_db vec oil_weights k
                      / sum (values oil_weights)) 1)) names.
Proof.
  intros Hnz. unfold weighted_average.
  destruct (Qeq_bool _ 0) eqn:E; [apply Qeq_bool_eq in E; contradiction|].
  rewrite (average_loop_pointwise vec _ oil_weights names (fun _ => 0)).
  rewrite map_map. apply map_ext. intros k. simpl. f_equal.
  apply round_proper. rewrite loop_value_sum by exact Hnz. ring.
Qed.

Lemma values_middle (xs ys : dict Q) (name : string) (w : Q) :
  sum (values (xs ++ (name, w) :: ys)) == sum (values (xs ++ ys)) + w.
Proof.
  unfold values. rewrite !map_app, !sum_app. simpl. rewrite sum_cons. ring.
Qed.

(** The known contributions of non-negative weights and values are not
    negative. *)
Lemma known_contributions_nonneg {K} (vec : Oil -> K -> Q) (k : K)
    (items : dict Q) :
  (forall name weight, (name, weight) ∈ items -> 0 <= weight) ->
  (forall name oil, oils_db !! name = Some oil -> 0 <= vec oil k) ->
  0 <= known_contributions oils_db vec items k.
Proof.
  intros Hw Hv. induction items as [|[n w] items IH]; simpl; [lra|].
  assert (0 <= known_contributions oils_db vec items k) as IH'.
  { apply IH. intros name weight Hin. apply (Hw name).
    by apply list_elem_of_further. }
  destruct (oils_db !! n) as [oil|] eqn:E; [|exact IH'].
  pose proof (Hv n oil E) as Hv0.
  pose proof (Hw n w (list_elem_of_here _ _)) as Hw0.
  pose proof (Qmult_le_0_compat _ _ Hv0 Hw0). lra.
Qed.

(** A score over a larger total is the score times the ratio of the totals,
    and is not larger when the contributions are not negative. *)
Lemma diluted_score (c total weight : Q) :
  0 < weight -> 0 < total ->
  c / (total + weight) == c / total * (total / (total + weight))
  /\ (0 <= c -> c / (total + weight) <= c / total).
Proof.
  intros Hw Ht.
  assert (c / (total + weight) == c / total * (total / (total + weight))) as E
    by (field; lra).
  split; [exact E|]. intros Hc. rewrite E.
  assert (0 <= c / total) as Ha by (apply Qle_shift_div_l; lra).
  assert (total / (total + weight) <= 1) as Hf
    by (apply Qle_shift_div_r; lra).
  assert (0 <= (c / total) * (1 - total / (total + weight))) as H
    by (apply Qmult_le_0_compat; lra).
  revert H. generalize (c / total) (total / (total + weight)). intros a f H.
  nra.
Qed.

End CalculatorFacts.

Section CalculatorClaims.
Import Py SoapChemistry.

Implicit Types (oils_db : gmap string Oil) (modifiers_db : gmap string Modifier).

(** C4.  A name the database lacks is fatal to the reagent calculation,
    which raises the "not found" error for the first such name, whereas
    the property vector and the fatty-acid vector are returned as if the
    entry contributed nothing: the accumulation runs over the remaining
    entries, with the total weight of the whole mapping. *)
Theorem unknown_oil_asymmetry oils_db modifiers_db
    (before after : dict Q) (name : string) (weight : Q)
    (superfat_percent : Q) (modifiers : option (dict Q)) (lye_type : string) :
  oils_db !! name = None ->
  let oil_weights := before ++ (name, weight) :: after in
  let total_weight := sum (values oil_weights) in
  (exists missing,
      missing ∈ keys oil_weights /\ oils_db !! missing = None
      /\ calculate_lye_amount oils_db modifiers_db oil_weights
           superfat_percent modifiers lye_type
         = Raise (oil_not_found missing))
  /\ calculate_soap_properties oils_db oil_weights
     = (if Qeq_bool total_weight 0 then []
        else map (fun kv => (fst kv, round (snd kv) 1))
               (average_loop oils_db properties total_weight (before ++ after)
                  (map (fun k => (k, 0)) property_names)))
  /\ calculate_fatty_acid_profile oils_db oil_weights
     = (if Qeq_bool total_weight 0 then []
        else map (fun kv => (fst kv, round (snd kv) 1))
               (average_loop oils_db fatty_acids total_weight (before ++ after)
                  (map (fun k => (k, 0)) fatty_acid_names))).
Proof.
  intros Hnone oil_weights total_weight. split_and!.
  - destruct (lye_loop_unknown oils_db lye_type oil_weights 0)
      as (missing & Hin & Hmiss & Hraise).
    { exists name. split; [|done]. unfold oil_weights, keys.
      rewrite map_app. apply elem_of_app. right. apply list_elem_of_here. }
    exists missing. split_and!; [done | done |].
    unfold calculate_lye_amount, lye_unrounded, mbind, result_bind.
    rewrite Hraise. reflexivity.
  - unfold calculate_soap_properties, weighted_average.
    fold total_weight. destruct (Qeq_bool total_weight 0); [done|].
    unfold oil_weights. rewrite !average_loop_app. simpl. by rewrite Hnone.
  - unfold calculate_fatty_acid_profile, weighted_average.
    fold total_weight. destruct (Qeq_bool total_weight 0); [done|].
    unfold oil_weights. rewrite !average_loop_app. simpl. by rewrite Hnone.
Qed.

Lemma unknown_oil_asymmetry_witness :
  Sample.oils_db !! "Palm Kernel Oil" = None
  /\ raises (calculate_lye_amount Sample.oils_db Sample.modifiers_db
               [("Olive Oil", 400); ("Palm Kernel Oil", 100); ("Coconut Oil", 200)]
               5 None "NaOH")
  /\ calculate_soap_properties Sample.oils_db
       [("Olive Oil", 400); ("Palm Kernel Oil", 100); ("Coconut Oil", 200)]
     = [(hardness, 32.3); (cleansing, 19.1); (conditioning, 49.7);
        (bubbly, 19.1); (creamy, 13.1); (iodine, 51.4); (ins, 133.7)].
Proof.
  assert (Sample.oils_db !! "Palm Kernel Oil" = None) as Hnone
    by (vm_compute; reflexivity).
  destruct (unknown_oil_asymmetry Sample.oils_db Sample.modifiers_db
              [("Olive Oil", 400)] [("Coconut Oil", 200)]
              "Palm Kernel Oil" 100 5 None "NaOH" Hnone)
    as ((missing & _ & _ & Hraise) & Hprops & _).
  split_and!.
  - exact Hnone.
  - simpl app in Hraise. rewrite Hraise. exact I.
  - simpl app in Hprops. rewrite Hprops. vm_compute. reflexivity.
Defined.

(** C5 (as amended).  The diluent amount is
    [lye_weight * (100 - concentration) / concentration] rounded to two
    decimals; it raises [ZeroDivisionError] at concentration 0; at reagent
    100 and concentration 33 it is 203.03, which is 100 × 67/33 rounded. *)
Theorem water_amount_formula (lye_weight lye_concentration : Q) :
  (lye_concentration == 0 ->
     calculate_water_amount lye_weight lye_concentration
     = Raise ZeroDivisionError)
  /\ (~ lye_concentration == 0 ->
        calculate_water_amount lye_weight lye_concentration
        = Ok (round (lye_weight * (100 - lye_concentration)
                     / lye_concentration) 2))
  /\ calculate_water_amount 100 33 = Ok 203.03
  /\ round (100 * 67 / 33) 2 = 203.03.
Proof.
  unfold calculate_water_amount. split_and!.
  - intros H. apply Qeq_eq_bool in H. by rewrite H.
  - intros H. destruct (Qeq_bool lye_concentration 0) eqn:E; [|done].
    apply Qeq_bool_eq in E. contradiction.
  - vm_compute. reflexivity.
  - vm_compute. reflexivity.
Qed.

Lemma water_amount_formula_witness :
  calculate_water_amount 100 0 = Raise ZeroDivisionError
  /\ calculate_water_amount 200 25 = Ok 600.00.
Proof.
  destruct (water_amount_formula 100 0) as (Hzero & _).
  destruct (water_amount_formula 200 25) as (_ & Hnz & _).
  split.
  - apply Hzero. reflexivity.
  - rewrite Hnz; [vm_compute; reflexivity | discriminate].
Defined.

(** C5, the claim as stated fails: at reagent 100 and concentration 33 the
    result is not within 1 of 202.02. *)
Lemma water_amount_100_33_is_not_202_02 :
  ~ exists water,
      calculate_water_amount 100 33 = Ok water
      /\ Qabs (water - 202.02) <= 1.
Proof.
  intros (water & Hw & Habs).
  vm_compute in Hw. injection Hw as <-.
  vm_compute in Habs. apply Habs. reflexivity.
Qed.

End CalculatorClaims.

Section ReagentClaims.
Import Py SoapChemistry.

Implicit Types (oils_db : gmap string Oil) (modifiers_db : gmap string Modifier).

(** C6 (as amended).  With every name in the database and the superfat
    percent fixed, doubling every weight doubles the reagent amount as it
    stands before the final rounding; the returned amounts are those values
    rounded to two decimals, so the amount returned for the doubled mapping
    is within 0.015 of twice the amount returned for the original. *)
Theorem lye_amount_doubling oils_db modifiers_db (oil_weights : dict Q)
    (superfat_percent : Q) (modifiers : option (dict Q)) (lye_type : string) :
  (forall name, name ∈ keys oil_weights -> is_Some (oils_db !! name)) ->
  exists lye lye2 adjustment,
    lye_unrounded oils_db oil_weights superfat_percent lye_type = Ok lye
    /\ lye_unrounded oils_db (doubled oil_weights) superfat_percent lye_type
       = Ok lye2
    /\ lye2 == 2 * lye
    /\ calculate_lye_amount oils_db modifiers_db oil_weights
         superfat_percent modifiers lye_type
       = Ok (round lye 2, adjustment)
    /\ calculate_lye_amount oils_db modifiers_db (doubled oil_weights)
         superfat_percent modifiers lye_type
       = Ok (round lye2 2, adjustment)
    /\ Qabs (round lye2 2 - 2 * round lye 2) <= 0.015.
Proof.
  intros Hknown.
  destruct (lye_loop_known oils_db lye_type oil_weights 0 Hknown) as [total Ht].
  destruct (lye_loop_scale oils_db lye_type 2 oil_weights 0 0 total)
    as (total2 & Ht2 & Heq); [ring | exact Ht |].
  exists (total * (1 - superfat_percent / 100)),
         (total2 * (1 - superfat_percent / 100)),
         (round (lye_adjustment_unrounded modifiers_db modifiers) 2).
  assert (total2 * (1 - superfat_percent / 100)
          == 2 * (total * (1 - superfat_percent / 100))) as Hdouble
    by (rewrite Heq; ring).
  unfold calculate_lye_amount, lye_unrounded, doubled, mbind, result_bind.
  rewrite Ht, Ht2. cbv beta iota delta [Py.bind mret result_ret].
  split_and!; try reflexivity; [exact Hdouble|].
  pose proof (round2_err (total * (1 - superfat_percent / 100))) as E1.
  pose proof (round2_err (total2 * (1 - superfat_percent / 100))) as E2.
  apply Qabs_Qle_condition in E1, E2. apply Qabs_Qle_condition.
  revert Hdouble E1 E2.
  generalize (total * (1 - superfat_percent / 100))
             (total2 * (1 - superfat_percent / 100)).
  intros l1 l2. generalize (round l1 2) (round l2 2). intros r1 r2 ? ? ?.
  lra.
Qed.

Lemma lye_amount_doubling_witness :
  exists lye lye2,
    calculate_lye_amount Sample.oils_db Sample.modifiers_db
      [("Olive Oil", 400); ("Coconut Oil", 200)] 5 None "NaOH"
    = Ok (round lye 2, 0.00)
    /\ calculate_lye_amount Sample.oils_db Sample.modifiers_db
         [("Olive Oil", 2 * 400); ("Coconut Oil", 2 * 200)] 5 None "NaOH"
       = Ok (round lye2 2, 0.00)
    /\ lye2 == 2 * lye.
Proof.
  destruct (lye_amount_doubling Sample.oils_db Sample.modifiers_db
              [("Olive Oil", 400); ("Coconut Oil", 200)] 5 None "NaOH")
    as (lye & lye2 & adj & _ & _ & Hd & H1 & H2 & _).
  - intros name Hin. simpl in Hin.
    apply elem_of_cons in Hin as [->|Hin]; [by eexists|].
    apply list_elem_of_singleton in Hin as ->. by eexists.
  - exists lye, lye2. split_and!; [| |exact Hd].
    + rewrite H1. vm_compute in H1. injection H1 as _ <-. reflexivity.
    + unfold doubled, map_values in H2. simpl in H2.
      rewrite H2. vm_compute in H2. injection H2 as _ <-. reflexivity.
Defined.

(** C6, the claim as stated fails: 101 g of olive oil at 5 % superfat
    needs 12.86 g, 202 g needs 25.71 g, and 2 × 12.86 = 25.72. *)
Lemma lye_amount_doubling_fails :
  exists lye lye2 adjustment,
    calculate_lye_amount Sample.oils_db Sample.modifiers_db
      [("Olive Oil", 101)] 5 None "NaOH"
    = Ok (lye, adjustment)
    /\ calculate_lye_amount Sample.oils_db Sample.modifiers_db
         (doubled [("Olive Oil", 101)]) 5 None "NaOH"
       = Ok (lye2, adjustment)
    /\ lye = 12.86 /\ lye2 = 25.71 /\ ~ lye2 == 2 * lye.
Proof.
  exists 12.86, 25.71, 0.00.
  split_and!; try (vm_compute; reflexivity).
  intros H. vm_compute in H. discriminate H.
Qed.

End ReagentClaims.

Section EmptySelectionClaims.
Import Py SoapChemistry.

Implicit Types (oils_db : gmap string Oil) (modifiers_db : gmap string Modifier).

(** C7 (as amended).  On a mapping that is empty or whose weights sum to
    zero no error is raised: the property vector and the fatty-acid vector
    are the empty mapping, and on the empty mapping the reagent amount is 0,
    returned together with the modifier adjustment. *)
Theorem empty_selection_is_not_an_error oils_db modifiers_db
    (oil_weights : dict Q) (superfat_percent : Q)
    (modifiers : option (dict Q)) (lye_type : string) :
  oil_weights = [] \/ sum (values oil_weights) == 0 ->
  calculate_soap_properties oils_db oil_weights = []
  /\ calculate_fatty_acid_profile oils_db oil_weights = []
  /\ (oil_weights = [] ->
      calculate_lye_amount oils_db modifiers_db oil_weights
        superfat_percent modifiers lye_type
      = Ok (0.00, round (lye_adjustment_unrounded modifiers_db modifiers) 2)).
Proof.
  intros H.
  assert (Qeq_bool (sum (values oil_weights)) 0 = true) as Hz.
  { apply Qeq_eq_bool. destruct H as [-> | H]; [reflexivity | exact H]. }
  unfold calculate_soap_properties, calculate_fatty_acid_profile,
    weighted_average.
  rewrite Hz. split_and!; [done | done |].
  intros ->. unfold calculate_lye_amount, lye_unrounded, mbind, result_bind.
  cbv beta iota delta [lye_loop Py.bind mret result_ret].
  change 0.00 with (round 0 2).
  rewrite (round_proper (0 * (1 - superfat_percent / 100)) 0 2) by ring.
  reflexivity.
Qed.

Lemma empty_selection_is_not_an_error_witness :
  calculate_soap_properties Sample.oils_db [("Olive Oil", 0)] = []
  /\ calculate_lye_amount Sample.oils_db Sample.modifiers_db [] 5
       (Some [("Citric Acid", 10)]) "NaOH"
     = Ok (0.00, 6.00).
Proof.
  destruct (empty_selection_is_not_an_error Sample.oils_db
              Sample.modifiers_db [("Olive Oil", 0)] 5 None "NaOH")
    as (Hp & _); [right; reflexivity|].
  destruct (empty_selection_is_not_an_error Sample.oils_db
              Sample.modifiers_db [] 5 (Some [("Citric Acid", 10)]) "NaOH")
    as (_ & _ & Hl); [left; reflexivity|].
  split; [exact Hp|]. rewrite Hl; [|reflexivity]. vm_compute. reflexivity.
Defined.

(** C7, the claim as stated fails: on the empty mapping the three
    calculations return normally. *)
Lemma empty_selection_raises_nothing :
  ~ raises (calculate_lye_amount Sample.oils_db Sample.modifiers_db
              [] 5 None "NaOH")
  /\ calculate_lye_amount Sample.oils_db Sample.modifiers_db [] 5 None "NaOH"
     = Ok (0.00, 0.00)
  /\ calculate_soap_properties Sample.oils_db [] = []
  /\ calculate_fatty_acid_profile Sample.oils_db [] = [].
Proof.
  split_and!; [intros H; vm_compute in H; exact H | | |];
    vm_compute; reflexivity.
Qed.

(** C9 (as amended).  In the property vector and in the fatty-acid vector
    the weight of a name the database lacks stays in the denominator: every
    returned value is the known entries' Σ value × weight divided by the sum
    of all weights, the missing one included, rounded to one decimal.
    Before the rounding, a missing entry of positive weight [w] beside
    entries of total weight [S > 0] multiplies every score by
    [S / (S + w) < 1]; after it, with non-negative weights and values, no
    returned value is larger than it is without the missing entry. *)
Theorem missing_oil_dilutes oils_db (before after : dict Q)
    (missing : string) (weight : Q) :
  oils_db !! missing = None ->
  let known := before ++ after in
  let oil_weights := before ++ (missing, weight) :: after in
  let total := sum (values known) in
  ~ sum (values oil_weights) == 0 ->
  (calculate_soap_properties oils_db oil_weights
   = map (fun p =>
            (p, round (known_contributions oils_db properties known p
                       / (total + weight)) 1))
       property_names
   /\ calculate_fatty_acid_profile oils_db oil_weights
      = map (fun fa =>
               (fa, round (known_contributions oils_db fatty_acids known fa
                           / (total + weight)) 1))
          fatty_acid_names)
  /\ (0 < weight -> 0 < total ->
      (forall K (vec : Oil -> K -> Q) (k : K),
          known_contributions oils_db vec oil_weights k
          / sum (values oil_weights)
          == known_contributions oils_db vec known k / total
             * (total / (total + weight)))
      /\ total / (total + weight) < 1
      /\ ((forall name w, (name, w) ∈ known -> 0 <= w) ->
          (forall name oil p fa,
              oils_db !! name = Some oil ->
              0 <= properties oil p /\ 0 <= fatty_acids oil fa) ->
          Forall2 (fun kv kv' => fst kv = fst kv' /\ snd kv <= snd kv')
            (calculate_soap_properties oils_db oil_weights)
            (calculate_soap_properties oils_db known)
          /\ Forall2 (fun kv kv' => fst kv = fst kv' /\ snd kv <= snd kv')
               (calculate_fatty_acid_profile oils_db oil_weights)
               (calculate_fatty_acid_profile oils_db known))).
Proof.
  intros Hnone known oil_weights total Hnz.
  assert (sum (values oil_weights) == total + weight) as Hsum
    by apply values_middle.
  assert (forall K (vec : Oil -> K -> Q) k,
             known_contributions oils_db vec oil_weights k
             == known_contributions oils_db vec known k) as Hkc.
  { intros K vec k. unfold oil_weights, known.
    rewrite !known_contributions_app. simpl. rewrite Hnone. reflexivity. }
  assert (forall K (names : list K) (vec : Oil -> K -> Q),
             weighted_average oils_db names vec oil_weights
             = map (fun k =>
                      (k, round (known_contributions oils_db vec known k
                                 / (total + weight)) 1)) names) as Hval.
  { intros K names vec. rewrite weighted_average_value by exact Hnz.
    apply map_ext. intros k. f_equal. apply round_proper.
    by rewrite Hkc, Hsum. }
  split; [split; apply Hval|].
  intros Hw Ht.
  assert (~ sum (values known) == 0) as Hnz' by (fold total; lra).
  split_and!.
  - intros K vec k. rewrite Hkc, Hsum. by apply diluted_score.
  - apply Qlt_shift_div_r; lra.
  - intros Hpos Hvals.
    unfold calculate_soap_properties, calculate_fatty_acid_profile.
    rewrite !Hval, !(weighted_average_value _ _ _ known) by exact Hnz'.
    fold total.
    split; apply Forall2_fmap, Forall_Forall2_diag, Forall_forall;
      intros k _; (split; [reflexivity|]); cbn [snd];
      apply round_mono, diluted_score; try done;
      apply known_contributions_nonneg; try done; intros name oil E.
    + by destruct (Hvals name oil k lauric E).
    + by destruct (Hvals name oil hardness k E).
Qed.

Lemma missing_oil_dilutes_witness :
  (calculate_soap_properties Sample.oils_db
     [("Olive Oil", 400); ("Palm Kernel Oil", 100); ("Coconut Oil", 200)]
   = [(hardness, 32.3); (cleansing, 19.1); (conditioning, 49.7);
      (bubbly, 19.1); (creamy, 13.1); (iodine, 51.4); (ins, 133.7)]
   /\ calculate_fatty_acid_profile Sample.oils_db
        [("Olive Oil", 400); ("Palm Kernel Oil", 100); ("Coconut Oil", 200)]
      = [(lauric, 13.7); (myristic, 5.4); (palmitic, 10.6); (stearic, 2.6);
         (ricinoleic, 0.0); (oleic, 41.7); (linoleic, 7.4);
         (linolenic, 0.6)])
  /\ known_contributions Sample.oils_db properties
       [("Olive Oil", 400); ("Palm Kernel Oil", 100); ("Coconut Oil", 200)]
       hardness
     / sum (values [("Olive Oil", 400); ("Palm Kernel Oil", 100);
                    ("Coconut Oil", 200)])
     == 22600 / 600 * (600 / 700)
  /\ Forall2 (fun kv kv' => fst kv = fst kv' /\ snd kv <= snd kv')
       (calculate_soap_properties Sample.oils_db
          [("Olive Oil", 400); ("Palm Kernel Oil", 100); ("Coconut Oil", 200)])
       (calculate_soap_properties Sample.oils_db
          [("Olive Oil", 400); ("Coconut Oil", 200)])
  /\ Forall2 (fun kv kv' => fst kv = fst kv' /\ snd kv <= snd kv')
       (calculate_fatty_acid_profile Sample.oils_db
          [("Olive Oil", 400); ("Palm Kernel Oil", 100); ("Coconut Oil", 200)])
       (calculate_fatty_acid_profile Sample.oils_db
          [("Olive Oil", 400); ("Coconut Oil", 200)]).
Proof.
  destruct (missing_oil_dilutes Sample.oils_db
              [("Olive Oil", 400)] [("Coconut Oil", 200)]
              "Palm Kernel Oil" 100) as ((Hp & Hf) & Hd).
  - vm_compute. reflexivity.
  - discriminate.
  - destruct Hd as (Hq & _ & Hle); [reflexivity|reflexivity|].
    simpl app in *. split_and!.
    + rewrite Hp. vm_compute. reflexivity.
    + rewrite Hf. vm_compute. reflexivity.
    + rewrite (Hq PropName properties hardness). vm_compute. reflexivity.
    + apply Hle.
      * intros name w Hin.
        apply elem_of_cons in Hin as [[= -> ->]|Hin]; [discriminate|].
        apply list_elem_of_singleton in Hin as [= -> ->]. discriminate.
      * intros name oil p fa Hoil. unfold Sample.oils_db in Hoil.
        apply lookup_insert_Some in Hoil as [[_ <-]|[_ Hoil]];
          [destruct p, fa; split; discriminate|].
        apply lookup_singleton_Some in Hoil as [_ <-].
        destruct p, fa; split; discriminate.
    + apply Hle.
      * intros name w Hin.
        apply elem_of_cons in Hin as [[= -> ->]|Hin]; [discriminate|].
        apply list_elem_of_singleton in Hin as [= -> ->]. discriminate.
      * intros name oil p fa Hoil. unfold Sample.oils_db in Hoil.
        apply lookup_insert_Some in Hoil as [[_ <-]|[_ Hoil]];
          [destruct p, fa; split; discriminate|].
        apply lookup_singleton_Some in Hoil as [_ <-].
        destruct p, fa; split; discriminate.
Defined.

(** C9, the claim as stated fails.  The returned value is the quotient
    rounded, not the quotient: hardness is 32.3 where the known
    contributions over the sum of all weights are 226/7.  And a missing
    entry need not change any returned score: 0.001 g of an unknown oil
    beside 600 g of known oils leaves both vectors as they are without
    it. *)
Lemma missing_oil_scores_are_rounded :
  (exists value,
      (hardness, value)
        ∈ calculate_soap_properties Sample.oils_db
            [("Olive Oil", 400); ("Palm Kernel Oil", 100);
             ("Coconut Oil", 200)]
      /\ value = 32.3
      /\ known_contributions Sample.oils_db properties
           [("Olive Oil", 400); ("Palm Kernel Oil", 100);
            ("Coconut Oil", 200)] hardness
         / sum (values [("Olive Oil", 400); ("Palm Kernel Oil", 100);
                        ("Coconut Oil", 200)])
         == 226 # 7
      /\ ~ value == 226 # 7)
  /\ Sample.oils_db !! "Palm Kernel Oil" = None
  /\ calculate_soap_properties Sample.oils_db
       [("Olive Oil", 400); ("Palm Kernel Oil", 0.001); ("Coconut Oil", 200)]
     = calculate_soap_properties Sample.oils_db
         [("Olive Oil", 400); ("Coconut Oil", 200)]
  /\ calculate_fatty_acid_profile Sample.oils_db
       [("Olive Oil", 400); ("Palm Kernel Oil", 0.001); ("Coconut Oil", 200)]
     = calculate_fatty_acid_profile Sample.oils_db
         [("Olive Oil", 400); ("Coconut Oil", 200)].
Proof.
  split_and!; try (vm_compute; reflexivity).
  exists 32.3. split_and!; try (vm_compute; reflexivity).
  - apply list_elem_of_here.
  - intros H. vm_compute in H. discriminate H.
Qed.

End EmptySelectionClaims.

Section ModifierClaims.
Import Py SoapChemistry.

Implicit Types (oils_db : gmap string Oil) (modifiers_db : gmap string Modifier).

(** C10.  A modifier name the modifier database lacks raises nothing: in
    the reagent calculation its entry adds exactly 0 to the adjustment sum,
    so the result (value or error) is the one obtained without the entry,
    and [calculate_modifier_amount] returns 0 for it. *)
Theorem unknown_modifier_contributes_zero oils_db modifiers_db
    (unknown : string) (amount : Q) (before after : dict Q)
    (oil_weights : dict Q) (superfat_percent : Q) (lye_type : string)
    (total_oil_weight : Q) (usage_percent : option Q) :
  modifiers_db !! unknown = None ->
  (forall acc,
      adjustment_loop modifiers_db ((unknown, amount) :: after) acc
      = adjustment_loop modifiers_db after acc)
  /\ lye_adjustment_unrounded modifiers_db
       (Some (before ++ (unknown, amount) :: after))
     = lye_adjustment_unrounded modifiers_db (Some (before ++ after))
  /\ calculate_lye_amount oils_db modifiers_db oil_weights superfat_percent
       (Some (before ++ (unknown, amount) :: after)) lye_type
     = calculate_lye_amount oils_db modifiers_db oil_weights superfat_percent
         (Some (before ++ after)) lye_type
  /\ calculate_modifier_amount modifiers_db unknown total_oil_weight
       usage_percent = 0.
Proof.
  intros Hnone.
  assert (forall acc,
             adjustment_loop modifiers_db ((unknown, amount) :: after) acc
             = adjustment_loop modifiers_db after acc) as Hstep.
  { intros acc. simpl. by rewrite Hnone. }
  assert (lye_adjustment_unrounded modifiers_db
            (Some (before ++ (unknown, amount) :: after))
          = lye_adjustment_unrounded modifiers_db (Some (before ++ after)))
    as Hadj.
  { unfold lye_adjustment_unrounded.
    transitivity (adjustment_loop modifiers_db
                    (before ++ (unknown, amount) :: after) 0).
    { by destruct before. }
    rewrite adjustment_loop_app, Hstep, <- adjustment_loop_app.
    by destruct (before ++ after). }
  split_and!; [exact Hstep | exact Hadj | |].
  - unfold calculate_lye_amount. by rewrite Hadj.
  - unfold calculate_modifier_amount. by rewrite Hnone.
Qed.

Lemma unknown_modifier_contributes_zero_witness :
  calculate_lye_amount Sample.oils_db Sample.modifiers_db
    [("Olive Oil", 400)] 5
    (Some [("Citric Acid", 10); ("Unicorn Dust", 50)]) "NaOH"
  = Ok (50.92, 6.00)
  /\ calculate_modifier_amount Sample.modifiers_db "Unicorn Dust" 400 None
     = 0.
Proof.
  destruct (unknown_modifier_contributes_zero Sample.oils_db
              Sample.modifiers_db "Unicorn Dust" 50
              [("Citric Acid", 10)] [] [("Olive Oil", 400)] 5 "NaOH"
              400 None) as (_ & _ & Hlye & Hamount).
  - vm_compute. reflexivity.
  - split; [|exact Hamount].
    simpl app in Hlye. rewrite Hlye. vm_compute. reflexivity.
Defined.

End ModifierClaims.

(** ** The recipe record *)

Section RecipeClaims.
Import Py.

(** C8.  Restoring a recipe from the dictionary [to_dict] made of it
    succeeds and yields the stored reagent amount, reagent adjustment,
    diluent amount, fragrance amount, property vector and fatty-acid
    vector unchanged: [from_dict] reads them back and computes nothing. *)
Theorem recipe_roundtrip (now : string) (r : Recipe.t) :
  exists r',
    Recipe.from_dict now (Recipe.to_dict r) = Ok r'
    /\ Recipe.lye_amount r' = Recipe.lye_amount r
    /\ Recipe.lye_adjustment r' = Recipe.lye_adjustment r
    /\ Recipe.water_amount r' = Recipe.water_amount r
    /\ Recipe.fragrance_amount r' = Recipe.fragrance_amount r
    /\ Recipe.properties r' = Recipe.properties r
    /\ Recipe.fatty_acids r' = Recipe.fatty_acids r.
Proof.
  eexists. split; [reflexivity|]. by split_and!.
Qed.

(** Apart from a [modifiers] attribute that was set to [None], which the
    constructor replaces by an empty dictionary, the whole record comes
    back, the two dates included. *)
Lemma recipe_roundtrip_full (now : string) (r : Recipe.t) :
  Recipe.modifiers r <> Recipe.PNone ->
  Recipe.from_dict now (Recipe.to_dict r) = Ok r.
Proof.
  intros H. destruct r as [? ? ? ? ? ? m ? ? ? ? ? ? ? ?]. simpl in H.
  by destruct m.
Qed.

End RecipeClaims.

(** ** Dictionaries built by assignment *)

Section DictFacts.
Import Py.

Lemma keys_app {V} (d1 d2 : dict V) : keys (d1 ++ d2) = keys d1 ++ keys d2.
Proof. apply map_app. Qed.

Lemma values_app {V} (d1 d2 : dict V) :
  values (d1 ++ d2) = values d1 ++ values d2.
Proof. apply map_app. Qed.

Lemma keys_block {V} (oils : list string) (f : string -> V) :
  keys (map (fun o => (o, f o)) oils) = oils.
Proof. unfold keys. rewrite map_map. simpl. apply map_id. Qed.

Lemma keys_map_values {V W} (f : V -> W) (d : dict V) :
  keys (map_values f d) = keys d.
Proof. unfold keys, map_values. rewrite map_map. reflexivity. Qed.

Lemma values_map_values {V W} (f : V -> W) (d : dict V) :
  values (map_values f d) = map f (values d).
Proof. unfold values, map_values. rewrite !map_map. reflexivity. Qed.

Lemma get_fresh {V} (d : dict V) (k : string) :
  k ∉ keys d -> get d k = None.
Proof.
  induction d as [|[k' v'] d IH]; simpl; [done|].
  intros [Hne Hnin]%not_elem_of_cons.
  apply String.eqb_neq in Hne. rewrite Hne. by apply IH.
Qed.

Lemma set_fresh {V} (d : dict V) (k : string) (v : V) :
  k ∉ keys d -> set d k v = d ++ [(k, v)].
Proof.
  induction d as [|[k' v'] d IH]; simpl; [done|].
  intros [Hne Hnin]%not_elem_of_cons.
  apply String.eqb_neq in Hne. rewrite Hne. by rewrite IH.
Qed.

Lemma fresh_step (d : dict Q) (o : string) (oils : list string) (w : Q) :
  NoDup (o :: oils) -> (forall o', o' ∈ o :: oils -> o' ∉ keys d) ->
  NoDup oils /\ (forall o', o' ∈ oils -> o' ∉ keys (d ++ [(o, w)])).
Proof.
  intros [Hnin Hnd]%NoDup_cons Hfresh. split; [done|].
  intros o' Ho'. rewrite keys_app. simpl.
  intros [Hk | ->%list_elem_of_singleton]%elem_of_app; [|done].
  by apply (Hfresh o'); [apply list_elem_of_further|].
Qed.

Lemma assign_each_fresh (d : dict Q) (oils : list string) (w : Q) :
  NoDup oils -> (forall o, o ∈ oils -> o ∉ keys d) ->
  AutoRecipeGenerator.assign_each d oils w = d ++ map (fun o => (o, w)) oils.
Proof.
  unfold AutoRecipeGenerator.assign_each.
  revert d. induction oils as [|o oils IH]; intros d Hnd Hfresh; simpl.
  - by rewrite app_nil_r.
  - rewrite set_fresh by (apply Hfresh, list_elem_of_here).
    destruct (fresh_step d o oils w Hnd Hfresh) as [Hnd' Hfresh'].
    rewrite (IH _ Hnd' Hfresh'), <- app_assoc. reflexivity.
Qed.

Lemma add_each_fresh (d : dict Q) (oils : list string) (w : Q) :
  NoDup oils -> (forall o, o ∈ oils -> o ∉ keys d) ->
  AutoRecipeGenerator.add_each d oils w
  = d ++ map (fun o => (o, 0 + w)) oils.
Proof.
  unfold AutoRecipeGenerator.add_each.
  revert d. induction oils as [|o oils IH]; intros d Hnd Hfresh; simpl.
  - by rewrite app_nil_r.
  - rewrite get_fresh, set_fresh by (apply Hfresh, list_elem_of_here).
    destruct (fresh_step d o oils (0 + w) Hnd Hfresh) as [Hnd' Hfresh'].
    simpl. rewrite (IH _ Hnd' Hfresh'), <- app_assoc. reflexivity.
Qed.

Lemma sum_block (oils : list string) (w : Q) :
  sum (values (map (fun o => (o, w)) oils)) == len oils * w.
Proof.
  induction oils as [|o oils IH].
  - unfold len. simpl. unfold sum. simpl. ring.
  - cbn [map values fst snd]. rewrite sum_cons, len_cons.
    unfold values in IH. rewrite IH. ring.
Qed.

(** A category's mass split evenly over its members adds up to it. *)
Lemma sum_even_split (oils : list string) (cat_total : Q) :
  oils <> [] ->
  sum (values (map (fun o => (o, cat_total / len oils)) oils)) == cat_total.
Proof.
  intros Hne. rewrite sum_block. destruct oils as [|o oils]; [done|].
  pose proof (len_pos o oils). field. lra.
Qed.

Lemma sum_rounded (d : dict Q) :
  Qabs (sum (values (AutoRecipeGenerator.round_weights d)) - sum (values d))
  <= 0.005 * len d.
Proof.
  unfold AutoRecipeGenerator.round_weights.
  induction d as [|[k v] d IH].
  - vm_compute. discriminate.
  - change (values (map_values (fun weight => round weight 2) ((k, v) :: d)))
      with (round v 2 :: values (map_values (fun weight => round weight 2) d)).
    change (values ((k, v) :: d)) with (v :: values d).
    rewrite !sum_cons, len_cons.
    pose proof (round2_err v) as Hv.
    apply Qabs_Qle_condition in Hv, IH. apply Qabs_Qle_condition.
    revert Hv IH. generalize (round v 2).
    generalize (sum (values (map_values (fun weight => round weight 2) d))).
    generalize (sum (values d)). generalize (len d). intros. lra.
Qed.

End DictFacts.

(** ** The allocation solver *)

Section SolverFacts.
Import Py AutoRecipeGenerator.

Lemma select_elem (category oils : list string) (o : string) :
  o ∈ select category oils <-> o ∈ category /\ o ∈ oils.
Proof. unfold select. by rewrite list_elem_of_filter. Qed.

Lemma select_nodup (category oils : list string) :
  NoDup oils -> NoDup (select category oils).
Proof. unfold select. apply NoDup_filter. Qed.

Lemma nodup_disjoint (c1 c2 : list string) (o : string) :
  NoDup (c1 ++ c2) -> o ∈ c1 -> o ∈ c2 -> False.
Proof. intros (_ & H & _)%NoDup_app H1 H2. exact (H o H1 H2). Qed.

(** Two different entries of [OIL_CATEGORIES] share no oil. *)
Ltac categories_disjoint :=
  match goal with
  | H1 : ?o ∈ ?c1, H2 : ?o ∈ ?c2 |- _ =>
      exfalso; refine (nodup_disjoint c1 c2 o _ H1 H2);
      apply (bool_decide_unpack _); vm_compute; exact I
  end.

Lemma other_hard_elem (oils : list string) (o : string) :
  o ∈ other_hard oils <-> o ≠ "Coconut Oil" /\ o ∈ hard_oils /\ o ∈ oils.
Proof. unfold other_hard. rewrite list_elem_of_filter, select_elem. tauto. Qed.

Lemma other_hard_nodup (oils : list string) :
  NoDup oils -> NoDup (other_hard oils).
Proof.
  intros H. unfold other_hard. apply NoDup_filter. by apply select_nodup.
Qed.

Lemma other_hard_id (oils : list string) :
  "Coconut Oil" ∉ select hard_oils oils ->
  other_hard oils = select hard_oils oils.
Proof.
  unfold other_hard. generalize (select hard_oils oils) as l.
  induction l as [|o l IH]; intros Hnin; [done|].
  apply not_elem_of_cons in Hnin as [Hne Hnin].
  rewrite filter_cons_True by congruence. by rewrite IH.
Qed.

Lemma if_nonempty_add (recipe : dict Q) (oils : list string) (w : Q) :
  (if nonempty oils then add_each recipe oils w else recipe)
  = add_each recipe oils w.
Proof. by destruct oils. Qed.

Lemma if_nonempty_assign (recipe : dict Q) (oils : list string) (w : Q) :
  (if nonempty oils then assign_each recipe oils w else recipe)
  = assign_each recipe oils w.
Proof. by destruct oils. Qed.

Ltac members H :=
  repeat (rewrite keys_app in H);
  repeat (apply elem_of_app in H as [H|H]);
  rewrite ?keys_block in H;
  try (apply select_elem in H as [H _]);
  try (apply other_hard_elem in H as (? & H & _));
  try (apply list_elem_of_singleton in H; subst).

Ltac fresh_block :=
  let o := fresh "o" in
  let Ho := fresh "Ho" in
  let Hk := fresh "Hk" in
  intros o Ho Hk;
  first [apply select_elem in Ho as [Ho _]
        |apply other_hard_elem in Ho as (? & Ho & _)];
  members Hk; try done; try categories_disjoint.

Lemma targeted_allocation_blocks (oils : list string) (total_oz : Q)
    (s : shares) :
  NoDup oils ->
  targeted_allocation oils total_oz s = targeted_blocks oils total_oz s.
Proof.
  intros Hnd. unfold targeted_allocation, targeted_blocks. cbv zeta.
  rewrite if_nonempty_assign.
  rewrite assign_each_fresh; [|by apply select_nodup|intros ? _; apply not_elem_of_nil].
  rewrite app_nil_l.
  assert ("Coconut Oil" ∈ hard_oils) as Hcoco
    by (apply (bool_decide_unpack _); vm_compute; exact I).
  destruct (bool_decide ("Coconut Oil" ∈ select hard_oils oils)) eqn:E.
  - rewrite set_fresh.
    2:{ intros Hk. members Hk. categories_disjoint. }
    rewrite !if_nonempty_add. fold (other_hard oils).
    rewrite (add_each_fresh _ (other_hard oils));
      [|by apply other_hard_nodup|fresh_block].
    rewrite (add_each_fresh _ (select conditioning_oils oils));
      [|by apply select_nodup|fresh_block].
    rewrite (add_each_fresh _ (select super_fat_oils oils));
      [|by apply select_nodup|fresh_block].
    rewrite (add_each_fresh _ (select specialty_oils oils));
      [|by apply select_nodup|fresh_block].
    by rewrite <- !app_assoc.
  - apply bool_decide_eq_false in E.
    rewrite !if_nonempty_add, (other_hard_id oils E), app_nil_l.
    rewrite (add_each_fresh _ (select hard_oils oils));
      [|by apply select_nodup|fresh_block].
    rewrite (add_each_fresh _ (select conditioning_oils oils));
      [|by apply select_nodup|fresh_block].
    rewrite (add_each_fresh _ (select super_fat_oils oils));
      [|by apply select_nodup|fresh_block].
    rewrite (add_each_fresh _ (select specialty_oils oils));
      [|by apply select_nodup|fresh_block].
    by rewrite <- !app_assoc.
Qed.

(** *** Category shares *)

Lemma initial_respects (a : available) (f : factors) :
  respects a (initial_shares a f).
Proof.
  unfold respects, initial_shares. simpl.
  split_and!; intros ->; reflexivity.
Qed.

Lemma compensate_respects (a : available) (s : shares) :
  respects a s -> respects a (compensate a s).
Proof.
  unfold respects, compensate.
  intros (Hb & Hc & Hh & Ha & Hs & Hp).
  destruct (has_base a); [done|]. simpl.
  split_and!; try done; intros E; rewrite E; auto.
Qed.

Lemma normalize_respects (a : available) (s : shares) :
  respects a s -> respects a (normalize s).
Proof.
  unfold respects, normalize.
  intros (Hb & Hc & Hh & Ha & Hs & Hp).
  destruct (Qlt_le_dec 0 (total_pct s)) as [Hpos|]; [|done]. simpl.
  split_and!; intros E;
    [rewrite (Hb E)|rewrite (Hc E)|rewrite (Hh E)
    |rewrite (Ha E)|rewrite (Hs E)|rewrite (Hp E)];
    field; lra.
Qed.

Lemma respects_total (a : available) (s : shares) :
  respects a s -> populated_total a s == total_pct s.
Proof.
  unfold respects, populated_total, total_pct.
  intros (Hb & Hc & Hh & Ha & Hs & Hp).
  destruct (has_base a); [|rewrite (Hb eq_refl)];
    (destruct (has_coconut a); [|rewrite (Hc eq_refl)]);
    (destruct (has_other_hard a); [|rewrite (Hh eq_refl)]);
    (destruct (has_animal a); [|rewrite (Ha eq_refl)]);
    (destruct (has_castor a); [|rewrite (Hs eq_refl)]);
    (destruct (has_specialty a); [|rewrite (Hp eq_refl)]);
    ring.
Qed.

(** Once divided by a positive running total, the shares sum to 1. *)
Lemma normalize_total_one (s : shares) :
  0 < total_pct s -> total_pct (normalize s) == 1.
Proof.
  intros Hpos. unfold normalize.
  destruct (Qlt_le_dec 0 (total_pct s)) as [_|Hle]; [|lra].
  unfold total_pct in *.
  cbn [base_pct coconut_pct hard_pct animal_pct castor_pct specialty_pct].
  field. lra.
Qed.

Lemma normalize_nonpositive (s : shares) :
  total_pct s <= 0 -> normalize s = s.
Proof.
  intros Hle. unfold normalize.
  destruct (Qlt_le_dec 0 (total_pct s)) as [Hpos|_]; [lra|done].
Qed.

(** *** The targeted recipe *)

Lemma block_sum (oils : list string) (cat_total : Q) :
  sum (values (map (fun o => (o, cat_total / len oils)) oils))
  == if nonempty oils then cat_total else 0.
Proof.
  destruct oils as [|o oils]; [reflexivity|].
  apply sum_even_split. discriminate.
Qed.

Lemma block_sum_add (oils : list string) (cat_total : Q) :
  sum (values (map (fun o => (o, 0 + cat_total / len oils)) oils))
  == if nonempty oils then cat_total else 0.
Proof.
  rewrite sum_block. destruct oils as [|o oils]; [reflexivity|].
  pose proof (len_pos o oils). simpl. field. lra.
Qed.

Lemma targeted_blocks_sum (oils : list string) (total_oz : Q) (s : shares) :
  sum (values (targeted_blocks oils total_oz s))
  == total_oz * populated_total (availability oils) s.
Proof.
  unfold targeted_blocks. cbv zeta.
  rewrite !values_app, !sum_app, block_sum, !block_sum_add.
  unfold populated_total, availability. cbn [has_base has_coconut
    has_other_hard has_animal has_castor has_specialty].
  fold (other_hard oils).
  destruct (nonempty (select base_oils oils)),
    (bool_decide ("Coconut Oil" ∈ select hard_oils oils)),
    (nonempty (other_hard oils)),
    (nonempty (select conditioning_oils oils)),
    (nonempty (select super_fat_oils oils)),
    (nonempty (select specialty_oils oils));
    cbn [values map snd]; rewrite ?sum_cons; unfold sum; simpl fold_left; ring.
Qed.

Lemma sum_scaled (c : Q) (d : dict Q) :
  sum (values (map_values (fun weight => weight * c) d))
  == sum (values d) * c.
Proof.
  induction d as [|[k v] d IH]; [reflexivity|].
  change (values (map_values (fun weight => weight * c) ((k, v) :: d)))
    with (v * c :: values (map_values (fun weight => weight * c) d)).
  change (values ((k, v) :: d)) with (v :: values d).
  rewrite !sum_cons, IH. ring.
Qed.

Lemma sum_shifted (c : Q) (d : dict Q) :
  sum (values (map_values (fun weight => weight + c) d))
  == sum (values d) + len d * c.
Proof.
  induction d as [|[k v] d IH]; [reflexivity|].
  change (values (map_values (fun weight => weight + c) ((k, v) :: d)))
    with (v + c :: values (map_values (fun weight => weight + c) d)).
  change (values ((k, v) :: d)) with (v :: values d).
  rewrite !sum_cons, len_cons, IH. ring.
Qed.

(** ["Normalize to exact total"] leaves a recipe that already sums to
    the positive total with that sum. *)
Lemma normalize_total_sum (total_oz : Q) (recipe : dict Q) :
  0 < sum (values recipe) ->
  sum (values (normalize_total total_oz recipe)) == total_oz.
Proof.
  intros Hpos. unfold normalize_total.
  destruct (Qlt_le_dec 0 (sum (values recipe))) as [_|Hle]; [|lra].
  rewrite sum_scaled. field. lra.
Qed.

(** *** When the shares have a positive total *)

Lemma compensated_positive (a : available) (f : factors) :
  nonneg_factors f -> populated a = true ->
  0 < total_pct (compensate a (initial_shares a f)).
Proof.
  intros (Hh & Hc & Hd & Hb & Hr) Hpop.
  pose proof (Q.le_max_l (cleansing_factor f) (bubbly_factor f)) as Hmax.
  unfold populated in Hpop.
  unfold total_pct, compensate, initial_shares.
  revert Hmax. generalize (Qmax (cleansing_factor f) (bubbly_factor f)).
  intros need Hmax.
  destruct (has_base a), (has_coconut a), (has_other_hard a),
    (has_animal a), (has_castor a), (has_specialty a);
    try discriminate Hpop;
    cbn [base_pct coconut_pct hard_pct animal_pct castor_pct specialty_pct];
    lra.
Qed.

Lemma nonempty_elem {A} (x : A) (l : list A) : x ∈ l -> nonempty l = true.
Proof. by destruct 1. Qed.

Lemma populated_of_categorized (oils : list string) :
  (exists o, o ∈ oils /\ o ∈ categorized) ->
  populated (availability oils) = true.
Proof.
  intros (o & Ho & Hcat). unfold populated, availability.
  cbn [has_base has_coconut has_other_hard has_animal has_castor
       has_specialty].
  fold (other_hard oils).
  unfold categorized in Hcat. rewrite !elem_of_app in Hcat.
  destruct Hcat as [H|[H|[H|[H|H]]]].
  - rewrite (nonempty_elem o (select base_oils oils)); [done|].
    by apply select_elem.
  - destruct (decide (o = "Coconut Oil")) as [->|Hne].
    + rewrite (bool_decide_eq_true_2 ("Coconut Oil" ∈ select hard_oils oils));
        [by rewrite orb_true_r | by apply select_elem].
    + rewrite (nonempty_elem o (other_hard oils));
        [by rewrite !orb_true_r | by apply other_hard_elem].
  - rewrite (nonempty_elem o (select super_fat_oils oils));
      [by rewrite !orb_true_r | by apply select_elem].
  - rewrite (nonempty_elem o (select conditioning_oils oils));
      [by rewrite !orb_true_r | by apply select_elem].
  - rewrite (nonempty_elem o (select specialty_oils oils));
      [by rewrite !orb_true_r | by apply select_elem].
Qed.

(** The targeted recipe before the rounding pass sums to the total. *)
Lemma targeted_sum (oils : list string) (total_oz : Q)
    (target_props : gmap string Q) :
  NoDup oils -> 0 < total_oz ->
  nonneg_factors (target_factors target_props) ->
  (exists o, o ∈ oils /\ o ∈ categorized) ->
  sum (values (normalize_total total_oz
                 (targeted_allocation oils total_oz
                    (category_shares oils target_props))))
  == total_oz.
Proof.
  intros Hnd Hpos Hf Hcat.
  apply normalize_total_sum.
  rewrite targeted_allocation_blocks, targeted_blocks_sum by done.
  unfold category_shares. cbv zeta.
  set (a := availability oils).
  set (c := compensate a (initial_shares a (target_factors target_props))).
  assert (0 < total_pct c) as Hc
    by (apply compensated_positive; [done | by apply populated_of_categorized]).
  rewrite respects_total
    by apply normalize_respects, compensate_respects, initial_respects.
  rewrite normalize_total_one by done. lra.
Qed.

(** *** The default strategy *)

(** One block of the comprehensive branch keeps [recipe total +
    remaining = total_oz] and a non-negative remainder. *)
Lemma allocate_step (total_oz : Q) (recipe : dict Q) (remaining_oz : Q)
    (selected : list string) (cat_total : Q) :
  NoDup selected -> (forall o, o ∈ selected -> o ∉ keys recipe) ->
  sum (values recipe) + remaining_oz == total_oz ->
  cat_total <= remaining_oz -> 0 <= remaining_oz ->
  exists recipe' remaining',
    allocate selected cat_total
      (@pair (list (string * Q)) Q recipe remaining_oz)
    = @pair (list (string * Q)) Q recipe' remaining'
    /\ keys recipe' = keys recipe ++ selected
    /\ sum (values recipe') + remaining' == total_oz
    /\ 0 <= remaining'.
Proof.
  intros Hnd Hfresh Hsum Hle Hrem. unfold allocate.
  destruct selected as [|o selected].
  - exists recipe, remaining_oz. by rewrite app_nil_r.
  - cbn [nonempty]. eexists _, _. split; [reflexivity|].
    rewrite assign_each_fresh by done.
    rewrite keys_app, keys_block, values_app, sum_app.
    rewrite sum_even_split by discriminate.
    split_and!; [done | lra | lra].
Qed.

Lemma comprehensive_sum (oils : list string) (total_oz : Q) :
  NoDup oils -> 0 < total_oz ->
  (exists o, o ∈ oils /\ o ∈ categorized) ->
  total_oz - 0.01 <= sum (values (comprehensive oils total_oz)) <= total_oz.
Proof.
  intros Hnd Hpos Hcat. unfold comprehensive. cbv zeta.
  destruct (allocate_step total_oz [] total_oz (select base_oils oils)
              (total_oz * 0.45))
    as (r1 & m1 & -> & K1 & S1 & P1);
    [by apply select_nodup | intros ? _; apply not_elem_of_nil
    | unfold sum; simpl; ring | lra | lra |].
  cbn [snd].
  destruct (allocate_step total_oz r1 m1 (select hard_oils oils)
              (Qmin (total_oz * 0.30) m1))
    as (r2 & m2 & -> & K2 & S2 & P2);
    [by apply select_nodup | rewrite K1; fresh_block | done
    | apply Q.le_min_r | done |].
  cbn [snd].
  destruct (allocate_step total_oz r2 m2 (select conditioning_oils oils)
              (Qmin (total_oz * 0.18) m2))
    as (r3 & m3 & -> & K3 & S3 & P3);
    [by apply select_nodup | rewrite K2, K1; fresh_block | done
    | apply Q.le_min_r | done |].
  cbn [snd].
  destruct (allocate_step total_oz r3 m3 (select super_fat_oils oils)
              (Qmin (total_oz * 0.07) m3))
    as (r4 & m4 & -> & K4 & S4 & P4);
    [by apply select_nodup | rewrite K3, K2, K1; fresh_block | done
    | apply Q.le_min_r | done |].
  cbn [snd].
  destruct (allocate_step total_oz r4 m4 (select specialty_oils oils)
              (Qmin (total_oz * 0.05) m4))
    as (r5 & m5 & -> & K5 & S5 & P5);
    [by apply select_nodup | rewrite K4, K3, K2, K1; fresh_block | done
    | apply Q.le_min_r | done |].
  assert (nonempty r5 = true) as Hne.
  { destruct Hcat as (o & Ho & Hc).
    assert (o ∈ keys r5) as Hin.
    { rewrite K5, K4, K3, K2, K1. simpl.
      unfold categorized in Hc. rewrite !elem_of_app in Hc |- *.
      rewrite !select_elem. tauto. }
    destruct r5; [inversion Hin | done]. }
  rewrite Hne.
  destruct (Qlt_le_dec 0.01 m5) as [Hgt|Hle].
  - rewrite sum_shifted.
    assert (len r5 * (m5 / len r5) == m5) as ->.
    { destruct r5 as [|kv r5]; [done|].
      pose proof (len_pos kv r5). field. lra. }
    lra.
  - lra.
Qed.

Lemma set_nil (k : string) (v : Q) : set [] k v = [(k, v)].
Proof. reflexivity. Qed.

Lemma select_head (category oils : list string) (o : string) (rest : list string) :
  select category oils = o :: rest -> o ∈ category /\ o ∈ oils.
Proof.
  intros E. apply select_elem. rewrite E. apply list_elem_of_here.
Qed.

(** With three distinct oils, two of them named, a third is left. *)
Lemma third_oil (x y z b h : string) :
  NoDup [x; y; z] ->
  exists other rest,
    filter (fun oil => oil ∉ [b; h]) [x; y; z] = other :: rest
    /\ other <> b /\ other <> h.
Proof.
  intros Hnd.
  destruct (filter (fun oil => oil ∉ [b; h]) [x; y; z]) as [|o rest] eqn:E.
  - exfalso.
    assert (forall o, o ∈ [x; y; z] -> o = b \/ o = h) as Hall.
    { intros o Ho. destruct (decide (o ∈ [b; h])) as [Hin|Hnin].
      - apply elem_of_cons in Hin as [?|Hin]; [by left|].
        apply list_elem_of_singleton in Hin. by right.
      - assert (o ∈ filter (fun oil => oil ∉ [b; h]) [x; y; z]) as Hf
          by (by apply list_elem_of_filter).
        rewrite E in Hf. inversion Hf. }
    apply NoDup_cons in Hnd as [Hx Hnd].
    apply NoDup_cons in Hnd as [Hy _].
    apply not_elem_of_cons in Hx as [Hxy Hxz].
    apply not_elem_of_cons in Hxz as [Hxz _].
    apply not_elem_of_cons in Hy as [Hyz _].
    assert (x = b \/ x = h) as Hx
      by (apply Hall; rewrite !elem_of_cons; tauto).
    assert (y = b \/ y = h) as Hy
      by (apply Hall; rewrite !elem_of_cons; tauto).
    assert (z = b \/ z = h) as Hz
      by (apply Hall; rewrite !elem_of_cons; tauto).
    destruct Hx, Hy, Hz; congruence.
  - exists o, rest. split; [done|].
    assert (o ∈ filter (fun oil => oil ∉ [b; h]) [x; y; z]) as Hf
      by (rewrite E; apply list_elem_of_here).
    apply list_elem_of_filter in Hf as [Hnin _].
    rewrite !not_elem_of_cons in Hnin. tauto.
Qed.

(** The default strategy before the rounding pass: the recipe sums to the
    total, up to a remainder of at most 0.01 left undistributed. *)
Lemma balanced_sum (oils : list string) (total_oz : Q) :
  NoDup oils -> oils <> [] -> 0 < total_oz ->
  ((4 <= length oils)%nat -> exists o, o ∈ oils /\ o ∈ categorized) ->
  exists recipe,
    balanced oils total_oz = Ok recipe
    /\ total_oz - 0.01 <= sum (values recipe) <= total_oz.
Proof.
  intros Hnd Hne Hpos Hcat.
  destruct oils as [|x [|y [|z [|w oils]]]]; [done| | | |].
  - eexists. split; [reflexivity|].
    unfold sum. cbn. lra.
  - unfold balanced. cbv zeta.
    apply NoDup_cons in Hnd as [Hxy%not_elem_of_cons _].
    assert (exists r, (Ok (set (set [] x (total_oz * 0.60)) y (total_oz * 0.40))
                       : result (dict Q)) = Ok r
                      /\ total_oz - 0.01 <= sum (values r) <= total_oz)
      as Hdefault.
    { eexists. split; [reflexivity|].
      rewrite set_nil, set_fresh
        by (cbn; rewrite list_elem_of_singleton; intros ->; tauto).
      unfold sum. cbn. lra. }
    destruct (select base_oils [x; y]) as [|b bs] eqn:EB; [exact Hdefault|].
    destruct (select hard_oils [x; y]) as [|h hs] eqn:EH; [exact Hdefault|].
    apply select_head in EB as [Hb _]. apply select_head in EH as [Hh _].
    eexists. split; [reflexivity|].
    rewrite set_nil, set_fresh.
    2:{ cbn. rewrite list_elem_of_singleton. intros ->. categories_disjoint. }
    unfold sum. cbn. lra.
  - unfold balanced. cbv zeta.
    assert (exists r, (Ok (assign_each [] [x; y; z] (total_oz / 3))
                       : result (dict Q)) = Ok r
                      /\ total_oz - 0.01 <= sum (values r) <= total_oz)
      as Hdefault.
    { eexists. split; [reflexivity|].
      rewrite assign_each_fresh;
        [|done|intros ? _; apply not_elem_of_nil].
      rewrite app_nil_l, sum_block. unfold len. cbn.
      assert (3 * (total_oz / 3) == total_oz) as -> by field. lra. }
    destruct (select base_oils [x; y; z]) as [|b bs] eqn:EB; [exact Hdefault|].
    destruct (select hard_oils [x; y; z]) as [|h hs] eqn:EH; [exact Hdefault|].
    apply select_head in EB as [Hb _]. apply select_head in EH as [Hh _].
    destruct (third_oil x y z b h Hnd) as (other & rest & -> & Hob & Hoh).
    eexists. split; [reflexivity|].
    rewrite set_nil, (set_fresh [(b, _)] h).
    2:{ cbn. rewrite list_elem_of_singleton. intros ->. categories_disjoint. }
    rewrite set_fresh.
    2:{ cbn. rewrite !elem_of_cons. intros [?|[?|Hnil]]; [done|done|inversion Hnil]. }
    unfold sum. cbn. lra.
  - exists (comprehensive (x :: y :: z :: w :: oils) total_oz).
    split; [reflexivity|].
    apply comprehensive_sum; [done | done |].
    apply Hcat. cbn. lia.
Qed.

Lemma len_round_weights (d : dict Q) : len (round_weights d) = len d.
Proof. unfold len, round_weights, map_values. by rewrite length_map. Qed.

(** The rounding pass moves the sum by at most 0.005 per ingredient. *)
Lemma rounded_sum_bound (d : dict Q) (total_oz slack : Q) :
  total_oz - slack <= sum (values d) <= total_oz ->
  Qabs (sum (values (round_weights d)) - total_oz)
  <= slack + 0.005 * len (round_weights d).
Proof.
  intros Hd. rewrite len_round_weights.
  pose proof (sum_rounded d) as Hr.
  apply Qabs_Qle_condition in Hr. apply Qabs_Qle_condition.
  revert Hd Hr. generalize (sum (values (round_weights d))).
  generalize (sum (values d)). generalize (len d). intros. lra.
Qed.

(** The targeted recipe of a single categorized oil has one entry. *)
Lemma targeted_blocks_single (oil : string) (total_oz : Q) (s : shares) :
  oil ∈ categorized ->
  exists weight, targeted_blocks [oil] total_oz s = [(oil, weight)].
Proof.
  intros Hcat. unfold categorized in Hcat. cbn in Hcat.
  repeat (apply elem_of_cons in Hcat as [->|Hcat]);
    [eexists; reflexivity ..|inversion Hcat].
Qed.

Lemma normalize_total_single (oil : string) (total_oz weight : Q) :
  weight == total_oz ->
  exists weight',
    normalize_total total_oz [(oil, weight)] = [(oil, weight')]
    /\ weight' == total_oz.
Proof.
  intros Hw. unfold normalize_total.
  destruct (Qlt_le_dec 0 (sum (values [(oil, weight)]))) as [Hpos|_].
  - eexists. split; [reflexivity|].
    unfold sum in *. cbn in *. field. lra.
  - by eexists.
Qed.

End SolverFacts.

Section SolverClaims.
Import Py AutoRecipeGenerator.

(** C1 (as amended).  For every duplicate-free, non-empty selection and
    positive total mass the solver returns a recipe whose weights sum to
    the requested total (16 oz per pound) to within 0.01 + 0.005 × n, where
    n is the number of ingredients of the returned recipe, each weight
    being rounded to two decimals on its own; this holds in the 1-, 2- and
    3-ingredient scenarios as they are, and with four or more ingredients
    or with a target vector provided that some selected ingredient is
    listed in a solver category and that no supplied target lies below the
    minimum of its range. *)
Theorem allocation_sum_within_rounding (selected_oils : list string)
    (total_weight_lbs : Q) (target_props : option (gmap string Q)) :
  NoDup selected_oils -> selected_oils <> [] -> 0 < total_weight_lbs ->
  (truthy target_props = true \/ (4 <= length selected_oils)%nat ->
   exists oil, oil ∈ selected_oils /\ oil ∈ categorized) ->
  (truthy target_props = true ->
   nonneg_factors (target_factors (default ∅ target_props))) ->
  exists recipe,
    generate_recipe selected_oils total_weight_lbs target_props = Ok recipe
    /\ Qabs (sum (values recipe) - total_weight_lbs * 16)
       <= 0.01 + 0.005 * len recipe.
Proof.
  intros Hnd Hne Hpos Hcat Hrange.
  assert (0 < total_weight_lbs * 16) as Hoz by lra.
  unfold generate_recipe.
  destruct selected_oils as [|oil oils]; [done|].
  destruct (truthy target_props) eqn:Ht.
  - eexists. split; [reflexivity|].
    unfold generate_targeted_recipe. cbv zeta.
    apply rounded_sum_bound.
    rewrite targeted_sum by auto. lra.
  - destruct (balanced_sum (oil :: oils) (total_weight_lbs * 16))
      as (recipe & Hb & Hsum); [done | done | done | auto |].
    rewrite Hb. eexists. split; [reflexivity|].
    by apply rounded_sum_bound.
Qed.

Lemma allocation_sum_within_rounding_witness :
  exists recipe,
    generate_recipe ["Olive Oil"; "Coconut Oil"; "Lard"; "Castor Oil"]
      (100 / 16) (Some {[ "hardness" := 40 ]})
    = Ok recipe
    /\ Qabs (sum (values recipe) - (100 / 16) * 16)
       <= 0.01 + 0.005 * len recipe.
Proof.
  apply allocation_sum_within_rounding.
  - apply (bool_decide_unpack _). vm_compute. exact I.
  - discriminate.
  - reflexivity.
  - intros _. exists "Olive Oil". split.
    + apply list_elem_of_here.
    + apply (bool_decide_unpack _). vm_compute. exact I.
  - intros _. vm_compute. repeat split; discriminate.
Defined.

(** C1, the claim as stated fails: six base oils and one pound (16 oz)
    give six weights of 2.67, which sum to 16.02. *)
Lemma allocation_sum_six_base_oils :
  exists recipe,
    generate_recipe
      ["Olive Oil"; "Sunflower Oil"; "Sweet Almond Oil"; "Rice Bran Oil";
       "Canola Oil"; "Apricot Kernel Oil"] 1 None
    = Ok recipe
    /\ sum (values recipe) == 16.02
    /\ ~ Qabs (sum (values recipe) - 1 * 16) <= 0.01.
Proof.
  eexists. split; [vm_compute; reflexivity|]. split.
  - vm_compute. reflexivity.
  - vm_compute. intros H. apply H. reflexivity.
Qed.

(** C2 (as amended).  A selection of exactly one ingredient receives the
    whole total mass (rounded to two decimals): always when no target
    vector is supplied, and with a target vector when the ingredient is
    listed in a solver category and no target lies below the minimum of
    its range. *)
Theorem single_ingredient_allocation (oil : string) (total_weight_lbs : Q)
    (target_props : option (gmap string Q)) :
  (truthy target_props = false ->
   generate_recipe [oil] total_weight_lbs target_props
   = Ok [(oil, round (total_weight_lbs * 16) 2)])
  /\ (truthy target_props = true ->
      oil ∈ categorized ->
      nonneg_factors (target_factors (default ∅ target_props)) ->
      generate_recipe [oil] total_weight_lbs target_props
      = Ok [(oil, round (total_weight_lbs * 16) 2)]).
Proof.
  unfold generate_recipe. split; intros Ht; rewrite Ht; [reflexivity|].
  intros Hcat Hrange. f_equal.
  unfold generate_targeted_recipe. cbv zeta.
  set (total_oz := total_weight_lbs * 16).
  set (tp := default ∅ target_props) in *.
  rewrite targeted_allocation_blocks by apply NoDup_singleton.
  pose proof (targeted_blocks_sum [oil] total_oz (category_shares [oil] tp))
    as Hsum.
  destruct (targeted_blocks_single oil total_oz (category_shares [oil] tp) Hcat)
    as [weight Hw].
  rewrite Hw in *.
  assert (weight == total_oz) as Hweight.
  { assert (populated_total (availability [oil]) (category_shares [oil] tp)
            == 1) as Hone.
    { unfold category_shares. cbv zeta.
      rewrite respects_total
        by apply normalize_respects, compensate_respects, initial_respects.
      apply normalize_total_one, compensated_positive; [done|].
      apply populated_of_categorized. exists oil.
      split; [apply list_elem_of_here | done]. }
    unfold sum in Hsum. cbn [values map snd fold_left] in Hsum.
    revert Hsum Hone.
    generalize (populated_total (availability [oil])
                  (category_shares [oil] tp)).
    intros p Hsum Hone. rewrite Hone in Hsum. lra. }
  destruct (normalize_total_single oil total_oz weight Hweight)
    as (weight' & -> & Hw').
  unfold round_weights, map_values. cbn [map fst snd].
  by rewrite (round_proper weight' total_oz 2 Hw').
Qed.

Lemma single_ingredient_allocation_witness :
  generate_recipe ["Palm Kernel Oil"] (100 / 16) None
  = Ok [("Palm Kernel Oil", 100.00)]
  /\ generate_recipe ["Coconut Oil"] (100 / 16) (Some {[ "bubbly" := 30 ]})
     = Ok [("Coconut Oil", 100.00)].
Proof.
  destruct (single_ingredient_allocation "Palm Kernel Oil" (100 / 16) None)
    as [Hplain _].
  destruct (single_ingredient_allocation "Coconut Oil" (100 / 16)
              (Some {[ "bubbly" := 30 ]})) as [_ Htargeted].
  split.
  - rewrite Hplain; reflexivity.
  - rewrite Htargeted; [reflexivity | reflexivity | |].
    + apply (bool_decide_unpack _). vm_compute. exact I.
    + vm_compute. repeat split; discriminate.
Defined.

(** C2, the claim as stated fails: with a target vector, a single
    ingredient that is in no solver category gets nothing at all. *)
Lemma single_uncategorized_with_targets :
  generate_recipe ["Palm Kernel Oil"] (100 / 16) (Some {[ "hardness" := 40 ]})
  = Ok []
  /\ forall weight,
      generate_recipe ["Palm Kernel Oil"] (100 / 16)
        (Some {[ "hardness" := 40 ]})
      <> Ok [("Palm Kernel Oil", weight)].
Proof.
  assert (generate_recipe ["Palm Kernel Oil"] (100 / 16)
            (Some {[ "hardness" := 40 ]}) = Ok []) as H
    by (vm_compute; reflexivity).
  split; [exact H|]. intros weight. rewrite H. discriminate.
Qed.

(** C3 (as amended).  In the targeted solver, when the selection has no
    base oil, the animal-fat share is multiplied by 1.8, the hard-oil share
    by 1.5 and the coconut share by 0.6, the other shares staying as they
    are; afterwards, when the running total of the six shares is positive,
    each share is divided by it and the shares sum to exactly 1; when the
    running total is not positive the shares stay undivided. *)
Theorem compensation_then_normalization (selected_oils : list string)
    (target_props : gmap string Q) :
  let a := availability selected_oils in
  let raw := initial_shares a (target_factors target_props) in
  let c := compensate a raw in
  let s := category_shares selected_oils target_props in
  has_base a = false ->
  (animal_pct c == animal_pct raw * 1.8
   /\ hard_pct c == hard_pct raw * 1.5
   /\ coconut_pct c == coconut_pct raw * 0.6
   /\ base_pct c = base_pct raw
   /\ castor_pct c = castor_pct raw
   /\ specialty_pct c = specialty_pct raw)
  /\ (0 < total_pct c ->
      base_pct s = base_pct c / total_pct c
      /\ coconut_pct s = coconut_pct c / total_pct c
      /\ hard_pct s = hard_pct c / total_pct c
      /\ animal_pct s = animal_pct c / total_pct c
      /\ castor_pct s = castor_pct c / total_pct c
      /\ specialty_pct s = specialty_pct c / total_pct c
      /\ total_pct s == 1)
  /\ (total_pct c <= 0 -> s = c).
Proof.
  intros a raw c s Hbase. split_and!.
  - unfold c, compensate. rewrite Hbase.
    cbn [animal_pct]. unfold raw, initial_shares. cbn [animal_pct].
    destruct (has_animal a); [reflexivity | ring].
  - unfold c, compensate. rewrite Hbase.
    cbn [hard_pct]. unfold raw, initial_shares. cbn [hard_pct].
    destruct (has_other_hard a); [reflexivity | ring].
  - unfold c, compensate. rewrite Hbase.
    cbn [coconut_pct]. unfold raw, initial_shares. cbn [coconut_pct].
    destruct (has_coconut a); [reflexivity | ring].
  - unfold c, compensate. by rewrite Hbase.
  - unfold c, compensate. by rewrite Hbase.
  - unfold c, compensate. by rewrite Hbase.
  - intros Hpos.
    assert (s = normalize c) as -> by reflexivity.
    pose proof (normalize_total_one c Hpos) as Hone.
    unfold normalize in *.
    destruct (Qlt_le_dec 0 (total_pct c)) as [_|Hle]; [|lra].
    by split_and!.
  - intros Hle.
    assert (s = normalize c) as -> by reflexivity.
    by apply normalize_nonpositive.
Qed.

Lemma compensation_then_normalization_witness :
  total_pct (category_shares ["Coconut Oil"; "Lard"; "Castor Oil"; "Palm Oil"]
               {[ "hardness" := 40 ]}) == 1.
Proof.
  destruct (compensation_then_normalization
              ["Coconut Oil"; "Lard"; "Castor Oil"; "Palm Oil"]
              {[ "hardness" := 40 ]}) as (_ & Hnorm & _).
  - reflexivity.
  - apply Hnorm. reflexivity.
Defined.

(** C3, the claim as stated fails: with no base oil selected and no
    selected oil in any category, the running total is 0, nothing is
    divided, and the shares sum to 0. *)
Lemma shares_of_uncategorized_selection :
  has_base (availability ["Palm Kernel Oil"]) = false
  /\ total_pct (category_shares ["Palm Kernel Oil"] {[ "hardness" := 40 ]})
     == 0
  /\ ~ total_pct (category_shares ["Palm Kernel Oil"] {[ "hardness" := 40 ]})
       == 1.
Proof.
  split_and!; [reflexivity | reflexivity | discriminate].
Qed.

End SolverClaims.

(** * Further properties of the code *)

(** ** Rounding *)

Section RoundingFacts.
Import Py.

Lemma round_half_even_Z (z : Z) : round_half_even (inject_Z z) = z.
Proof.
  unfold round_half_even. cbv zeta. rewrite Qfloor_Z.
  assert (Qcompare (inject_Z z - inject_Z z) (1 # 2) = Lt) as ->; [|done].
  apply Qlt_alt. unfold Qminus. rewrite Qplus_opp_r. reflexivity.
Qed.

(** A value with [ndigits] decimals is left as it is. *)
Lemma round_exact (z : Z) (n : nat) (x : Q) :
  x == z # pow10 n -> round x n = z # pow10 n.
Proof.
  intros Hx. unfold round. f_equal.
  rewrite <- (round_half_even_Z z). apply round_half_even_proper.
  rewrite Hx, (Qmake_Qdiv z (pow10 n)). field.
  pose proof (pow10_pos n). lra.
Qed.

Lemma round_zero (n : nat) : round 0 n == 0.
Proof. rewrite (round_exact 0 n 0); reflexivity. Qed.

Lemma round1_err (x : Q) : Qabs (round x 1 - x) <= 0.05.
Proof.
  unfold round. change (pow10 1) with 10%positive.
  pose proof (round_half_even_err (x * inject_Z 10)) as H.
  apply Qabs_Qle_condition in H. apply Qabs_Qle_condition.
  rewrite (Qmake_Qdiv (round_half_even (x * inject_Z 10)) 10).
  change (inject_Z (Z.pos 10)) with 10 in *.
  generalize dependent (inject_Z (round_half_even (x * 10))). intros q H.
  unfold Qdiv. change (/ 10) with (1 # 10). lra.
Qed.

End RoundingFacts.

(** ** The blend calculator, further *)

Section CalculatorClosedFormFacts.
Import Py SoapChemistry.

Variable oils_db : gmap string Oil.
Variable modifiers_db : gmap string Modifier.

Lemma lye_loop_closed lye_type (items : dict Q) (acc : Q) :
  all_known oils_db items ->
  exists total,
    lye_loop oils_db lye_type items acc = Ok total
    /\ total == acc + reagent_sum oils_db lye_type items.
Proof.
  revert acc. induction items as [|[n w] items IH]; intros acc Hall; simpl.
  - exists acc. split; [done|ring].
  - destruct (Hall n) as [oil E]; [apply list_elem_of_here|]. rewrite E.
    destruct (IH (acc + w * sap_value lye_type oil)) as (total & -> & Ht).
    { intros name Hin. apply Hall. by apply list_elem_of_further. }
    exists total. split; [done|]. rewrite Ht. ring.
Qed.

Lemma adjustment_loop_closed (items : dict Q) (acc : Q) :
  adjustment_loop modifiers_db items acc
  == acc + adjustment_sum modifiers_db items.
Proof.
  revert acc. induction items as [|[n a] items IH]; intros acc; simpl.
  - ring.
  - destruct (modifiers_db !! n) as [m|]; [destruct (lye_adjustment_factor m)|];
      rewrite IH; ring.
Qed.

Lemma lye_adjustment_closed (modifiers : option (dict Q)) :
  lye_adjustment_unrounded modifiers_db modifiers
  == adjustment_sum modifiers_db (default [] modifiers).
Proof.
  destruct modifiers as [[|kv items]|]; try reflexivity.
  unfold lye_adjustment_unrounded. rewrite adjustment_loop_closed.
  change (default [] (Some (kv :: items))) with (kv :: items). ring.
Qed.

Lemma all_known_dec_raise lye_type (items : dict Q) (acc : Q) :
  raises (lye_loop oils_db lye_type items acc)
  <-> exists name, name ∈ keys items /\ oils_db !! name = None.
Proof.
  split.
  - revert acc. induction items as [|[n w] items IH]; intros acc; simpl; [done|].
    destruct (oils_db !! n) as [oil|] eqn:E.
    + intros (name & Hin & Hnone)%IH.
      exists name. split; [by apply list_elem_of_further | done].
    + intros _. exists n. split; [apply list_elem_of_here | done].
  - intros Hex.
    destruct (lye_loop_unknown oils_db lye_type items acc Hex)
      as (missing & _ & _ & ->). exact I.
Qed.

Lemma reagent_sum_nonneg lye_type (items : dict Q) :
  (forall name weight, (name, weight) ∈ items -> 0 <= weight) ->
  (forall name oil, oils_db !! name = Some oil -> 0 <= sap_value lye_type oil) ->
  0 <= reagent_sum oils_db lye_type items.
Proof.
  intros Hw Hsap. induction items as [|[n w] items IH]; simpl; [lra|].
  assert (0 <= reagent_sum oils_db lye_type items) as Hrest.
  { apply IH. intros name weight Hin. apply (Hw name).
    by apply list_elem_of_further. }
  destruct (oils_db !! n) as [oil|] eqn:E; [|done].
  pose proof (Hw n w (list_elem_of_here _ _)) as Hw0.
  pose proof (Hsap n oil E) as Hs0.
  pose proof (Qmult_le_0_compat _ _ Hw0 Hs0). lra.
Qed.

(** When every name is known, the returned pair in closed form. *)
Lemma calculate_lye_amount_closed (oil_weights : dict Q) (superfat_percent : Q)
    (modifiers : option (dict Q)) (lye_type : string) :
  all_known oils_db oil_weights ->
  calculate_lye_amount oils_db modifiers_db oil_weights superfat_percent
    modifiers lye_type
  = Ok (round (reagent_sum oils_db lye_type oil_weights
               * (1 - superfat_percent / 100)) 2,
        round (adjustment_sum modifiers_db (default [] modifiers)) 2).
Proof.
  intros Hall.
  destruct (lye_loop_closed lye_type oil_weights 0 Hall) as (total & Ht & Heq).
  unfold calculate_lye_amount, lye_unrounded, mbind, result_bind.
  rewrite Ht. cbv beta iota delta [Py.bind mret result_ret].
  do 2 f_equal; apply round_proper.
  - rewrite Heq. ring.
  - apply lye_adjustment_closed.
Qed.

End CalculatorClosedFormFacts.

Section CalculatorExtras.
Import Py SoapChemistry.

Implicit Types (oils_db : gmap string Oil) (modifiers_db : gmap string Modifier).

(** X1.  The reagent calculation raises exactly when some name of the
    mapping is missing from the oil database; otherwise it returns the
    Σ weight × SAP, reduced by the superfat and rounded to two decimals,
    with the rounded Σ amount × factor of the modifiers. *)
Theorem lye_amount_raises_iff_unknown oils_db modifiers_db
    (oil_weights : dict Q) (superfat_percent : Q)
    (modifiers : option (dict Q)) (lye_type : string) :
  (raises (calculate_lye_amount oils_db modifiers_db oil_weights
             superfat_percent modifiers lye_type)
   <-> exists name, name ∈ keys oil_weights /\ oils_db !! name = None)
  /\ (all_known oils_db oil_weights ->
      calculate_lye_amount oils_db modifiers_db oil_weights superfat_percent
        modifiers lye_type
      = Ok (round (reagent_sum oils_db lye_type oil_weights
                   * (1 - superfat_percent / 100)) 2,
            round (adjustment_sum modifiers_db (default [] modifiers)) 2)).
Proof.
  split; [|apply calculate_lye_amount_closed].
  rewrite <- (all_known_dec_raise oils_db lye_type oil_weights 0).
  unfold calculate_lye_amount, lye_unrounded, mbind, result_bind.
  by destruct (lye_loop oils_db lye_type oil_weights 0).
Qed.

Lemma lye_amount_raises_iff_unknown_witness :
  calculate_lye_amount Sample.oils_db Sample.modifiers_db
    [("Coconut Oil", 200); ("Olive Oil", 400)] 5
    (Some [("Citric Acid", 8)]) "NaOH"
  = Ok (85.69, 4.80).
Proof.
  destruct (lye_amount_raises_iff_unknown Sample.oils_db Sample.modifiers_db
              [("Coconut Oil", 200); ("Olive Oil", 400)] 5
              (Some [("Citric Acid", 8)]) "NaOH") as [_ Hclosed].
  rewrite Hclosed; [vm_compute; reflexivity|].
  intros name Hin. simpl in Hin.
  apply elem_of_cons in Hin as [->|Hin]; [by eexists|].
  apply list_elem_of_singleton in Hin as ->. by eexists.
Defined.

(** X3.  With non-negative weights and SAP values, a larger superfat percent
    never gives a larger reagent amount; the adjustment is unaffected. *)
Theorem lye_amount_decreases_with_superfat oils_db modifiers_db
    (oil_weights : dict Q) (superfat1 superfat2 : Q)
    (modifiers : option (dict Q)) (lye_type : string) :
  all_known oils_db oil_weights ->
  (forall name weight, (name, weight) ∈ oil_weights -> 0 <= weight) ->
  (forall name oil, oils_db !! name = Some oil -> 0 <= sap_value lye_type oil) ->
  superfat1 <= superfat2 ->
  exists lye1 lye2 adjustment,
    calculate_lye_amount oils_db modifiers_db oil_weights superfat1
      modifiers lye_type = Ok (lye1, adjustment)
    /\ calculate_lye_amount oils_db modifiers_db oil_weights superfat2
         modifiers lye_type = Ok (lye2, adjustment)
    /\ lye2 <= lye1.
Proof.
  intros Hall Hw Hsap Hsf.
  rewrite !calculate_lye_amount_closed by done.
  eexists _, _, _. split_and!; [reflexivity | reflexivity |].
  apply round_mono.
  pose proof (reagent_sum_nonneg oils_db lye_type oil_weights Hw Hsap) as Hs.
  revert Hs. generalize (reagent_sum oils_db lye_type oil_weights). intros s Hs.
  rewrite !(Qmult_comm s). apply Qmult_le_compat_r; [|exact Hs].
  unfold Qdiv. change (/ 100) with (1 # 100). lra.
Qed.

Lemma lye_amount_decreases_with_superfat_witness :
  exists lye1 lye2 adjustment,
    calculate_lye_amount Sample.oils_db Sample.modifiers_db
      [("Olive Oil", 400); ("Coconut Oil", 200)] 5 None "NaOH"
    = Ok (lye1, adjustment)
    /\ calculate_lye_amount Sample.oils_db Sample.modifiers_db
         [("Olive Oil", 400); ("Coconut Oil", 200)] 8 None "NaOH"
       = Ok (lye2, adjustment)
    /\ lye2 <= lye1.
Proof.
  apply lye_amount_decreases_with_superfat.
  - intros name Hin. simpl in Hin.
    apply elem_of_cons in Hin as [->|Hin]; [by eexists|].
    apply list_elem_of_singleton in Hin as ->. by eexists.
  - intros name weight Hin.
    apply elem_of_cons in Hin as [[= -> ->]|Hin]; [discriminate|].
    apply list_elem_of_singleton in Hin as [= -> ->]. discriminate.
  - intros name oil Hoil. unfold Sample.oils_db in Hoil.
    apply lookup_insert_Some in Hoil as [[_ <-]|[_ Hoil]]; [discriminate|].
    apply lookup_singleton_Some in Hoil as [_ <-]. discriminate.
  - discriminate.
Defined.

(** X4.  Only the exact string ["NaOH"] selects the sodium SAP values: any
    other [lye_type], whatever its spelling, is computed with the potassium
    values, as ["KOH"] is. *)
Theorem lye_type_other_than_NaOH_is_KOH oils_db modifiers_db
    (oil_weights : dict Q) (superfat_percent : Q)
    (modifiers : option (dict Q)) (lye_type : string) :
  lye_type <> "NaOH" ->
  calculate_lye_amount oils_db modifiers_db oil_weights superfat_percent
    modifiers lye_type
  = calculate_lye_amount oils_db modifiers_db oil_weights superfat_percent
      modifiers "KOH".
Proof.
  intros Hne. apply String.eqb_neq in Hne.
  assert (forall oil, sap_value lye_type oil = sap_value "KOH" oil) as Hsap
    by (intros oil; unfold sap_value; by rewrite Hne).
  assert (forall acc,
             lye_loop oils_db lye_type oil_weights acc
             = lye_loop oils_db "KOH" oil_weights acc) as Hloop.
  { induction oil_weights as [|[n w] items IH]; intros acc; simpl; [done|].
    destruct (oils_db !! n) as [oil|]; [|done].
    rewrite Hsap. apply IH. }
  unfold calculate_lye_amount, lye_unrounded. by rewrite Hloop.
Qed.

Lemma lye_type_other_than_NaOH_is_KOH_witness :
  calculate_lye_amount Sample.oils_db Sample.modifiers_db
    [("Olive Oil", 400)] 5 None "naoh"
  = Ok (71.44, 0.00).
Proof.
  rewrite lye_type_other_than_NaOH_is_KOH; [|discriminate].
  vm_compute. reflexivity.
Defined.

(** X5.  For a positive reagent mass and a positive concentration, the
    diluent before rounding is the mass at which the reagent makes up the
    concentration percent of the solution:
    [lye / (lye + water) * 100 = lye_concentration]. *)
Theorem water_amount_meets_concentration (lye_weight lye_concentration : Q) :
  0 < lye_weight -> 0 < lye_concentration ->
  exists water,
    calculate_water_amount lye_weight lye_concentration = Ok (round water 2)
    /\ lye_weight / (lye_weight + water) * 100 == lye_concentration.
Proof.
  intros Hl Hc. unfold calculate_water_amount.
  destruct (Qeq_bool lye_concentration 0) eqn:E.
  { apply Qeq_bool_eq in E. lra. }
  eexists. split; [reflexivity|]. field. split; lra.
Qed.

Lemma water_amount_meets_concentration_witness :
  exists water,
    calculate_water_amount 100 33 = Ok (round water 2)
    /\ 100 / (100 + water) * 100 == 33.
Proof.
  apply water_amount_meets_concentration; reflexivity.
Defined.

(** X6.  The concentration is not validated: every non-zero concentration
    yields an amount.  For a non-negative reagent mass that amount is
    non-negative when the concentration lies in (0, 100], and non-positive
    when it is negative or above 100. *)
Theorem water_amount_sign (lye_weight lye_concentration : Q) :
  0 <= lye_weight -> ~ lye_concentration == 0 ->
  exists water,
    calculate_water_amount lye_weight lye_concentration = Ok water
    /\ (0 < lye_concentration <= 100 -> 0 <= water)
    /\ (lye_concentration < 0 \/ 100 < lye_concentration -> water <= 0).
Proof.
  intros Hl Hc. unfold calculate_water_amount.
  destruct (Qeq_bool lye_concentration 0) eqn:E.
  { apply Qeq_bool_eq in E. contradiction. }
  eexists. split; [reflexivity|].
  set (c := lye_concentration) in *.
  assert (lye_weight * (100 - c) / c == lye_weight * ((100 - c) / c)) as Hshape
    by (field; exact Hc).
  split.
  - intros [Hpos Hle]. rewrite <- (round_zero 2). apply round_mono.
    rewrite Hshape. apply Qmult_le_0_compat; [exact Hl|].
    apply Qle_shift_div_l; lra.
  - intros Hout. rewrite <- (round_zero 2). apply round_mono.
    rewrite Hshape.
    assert ((100 - c) / c <= 0) as Hneg.
    { destruct Hout as [Hlt|Hgt].
      - assert (0 <= (100 - c) / - c) as H0
          by (apply Qle_shift_div_l; lra).
        assert ((100 - c) / - c == - ((100 - c) / c)) as E' by (field; exact Hc).
        rewrite E' in H0. lra.
      - apply Qle_shift_div_r; lra. }
    revert Hneg. generalize ((100 - c) / c). intros q Hq.
    assert (0 <= lye_weight * - q) as H0
      by (apply Qmult_le_0_compat; lra).
    assert (lye_weight * - q == - (lye_weight * q)) as E' by ring.
    rewrite E' in H0. lra.
Qed.

Lemma water_amount_sign_witness :
  exists water,
    calculate_water_amount 100 125 = Ok water /\ water <= 0.
Proof.
  destruct (water_amount_sign 100 125) as (water & Hw & _ & Hneg);
    [discriminate | discriminate |].
  exists water. split; [exact Hw|]. apply Hneg. right. reflexivity.
Defined.

End CalculatorExtras.

Section AverageFacts.
Import Py SoapChemistry.

Variable oils_db : gmap string Oil.

Lemma weighted_average_keys {K} (names : list K) (vec : Oil -> K -> Q)
    (xs : dict Q) :
  map fst (weighted_average oils_db names vec xs)
  = if Qeq_bool (sum (values xs)) 0 then [] else names.
Proof.
  unfold weighted_average. destruct (Qeq_bool _ _); [done|].
  rewrite (average_loop_pointwise oils_db vec _ xs names (fun _ => 0)).
  rewrite !map_map. simpl. apply map_id.
Qed.

(** The known contributions of a mapping of known oils with non-negative
    weights lie between the smallest and the largest value times the total. *)
Lemma known_contributions_bounds {K} (vec : Oil -> K -> Q) (k : K)
    (lo hi : Q) (xs : dict Q) :
  all_known oils_db xs ->
  (forall name weight, (name, weight) ∈ xs -> 0 <= weight) ->
  (forall name oil, name ∈ keys xs -> oils_db !! name = Some oil ->
                    lo <= vec oil k <= hi) ->
  lo * sum (values xs) <= known_contributions oils_db vec xs k
  <= hi * sum (values xs).
Proof.
  induction xs as [|[n w] xs IH]; intros Hall Hw Hb.
  - unfold sum. simpl. lra.
  - change (values ((n, w) :: xs)) with (w :: values xs). rewrite sum_cons.
    simpl. destruct (Hall n) as [oil E]; [apply list_elem_of_here|]. rewrite E.
    destruct IH as [IHlo IHhi].
    { intros name Hin. apply Hall. by apply list_elem_of_further. }
    { intros name weight Hin. apply (Hw name). by apply list_elem_of_further. }
    { intros name o Hin. apply Hb. by apply list_elem_of_further. }
    pose proof (Hw n w (list_elem_of_here _ _)) as Hw0.
    destruct (Hb n oil (list_elem_of_here _ _) E) as [Hlo Hhi].
    revert IHlo IHhi Hlo Hhi. generalize (vec oil k) (sum (values xs))
      (known_contributions oils_db vec xs k). intros v s c ? ? ? ?.
    assert (0 <= (v - lo) * w) by (apply Qmult_le_0_compat; lra).
    assert (0 <= (hi - v) * w) by (apply Qmult_le_0_compat; lra).
    split; nra.
Qed.

End AverageFacts.

Section AverageExtras.
Import Py SoapChemistry.

Implicit Types (oils_db : gmap string Oil).

(** X9.  Whenever the weights do not sum to zero, the property vector has
    exactly the seven property names as keys, and the fatty-acid vector the
    eight fatty-acid names, in the order of the accumulator literals:
    unknown oils neither remove nor add a key. *)
Theorem property_vector_keys oils_db (oil_weights : dict Q) :
  ~ sum (values oil_weights) == 0 ->
  map fst (calculate_soap_properties oils_db oil_weights) = property_names
  /\ map fst (calculate_fatty_acid_profile oils_db oil_weights)
     = fatty_acid_names.
Proof.
  intros Hnz.
  unfold calculate_soap_properties, calculate_fatty_acid_profile.
  rewrite !weighted_average_keys.
  destruct (Qeq_bool _ _) eqn:E; [|done].
  apply Qeq_bool_eq in E. contradiction.
Qed.

Lemma property_vector_keys_witness :
  map fst (calculate_soap_properties Sample.oils_db [("Unknown Oil", 5)])
  = property_names.
Proof.
  destruct (property_vector_keys Sample.oils_db [("Unknown Oil", 5)])
    as [H _]; [discriminate | exact H].
Defined.

Lemma weighted_average_bounds oils_db {K} (names : list K)
    (vec : Oil -> K -> Q) (oil_weights : dict Q) (k : K) (lo hi value : Q) :
  all_known oils_db oil_weights ->
  (forall name weight, (name, weight) ∈ oil_weights -> 0 <= weight) ->
  0 < sum (values oil_weights) ->
  (forall name oil, name ∈ keys oil_weights -> oils_db !! name = Some oil ->
                    lo <= vec oil k <= hi) ->
  (k, value) ∈ weighted_average oils_db names vec oil_weights ->
  round lo 1 <= value <= round hi 1.
Proof.
  intros Hall Hw Hpos Hb Hin.
  rewrite weighted_average_value in Hin by lra.
  apply list_elem_of_fmap in Hin as (k' & [= <- ->] & _).
  destruct (known_contributions_bounds oils_db vec k lo hi oil_weights
              Hall Hw Hb) as [Hlo Hhi].
  revert Hlo Hhi Hpos.
  generalize (known_contributions oils_db vec oil_weights k)
    (sum (values oil_weights)). intros c s Hlo Hhi Hpos.
  split; apply round_mono.
  - apply Qle_shift_div_l; [exact Hpos | exact Hlo].
  - apply Qle_shift_div_r; [exact Hpos | exact Hhi].
Qed.

(** X10.  A blend of known oils with non-negative weights (not all zero)
    cannot leave the range of its ingredients: if a property, or a fatty
    acid, lies between [lo] and [hi] for every oil of the mapping, the
    returned score lies between [lo] and [hi] rounded to one decimal. *)
Theorem property_value_within_oil_range oils_db (oil_weights : dict Q)
    (p : PropName) (fa : FattyAcid) (lo hi lo' hi' : Q) :
  all_known oils_db oil_weights ->
  (forall name weight, (name, weight) ∈ oil_weights -> 0 <= weight) ->
  0 < sum (values oil_weights) ->
  (forall name oil, name ∈ keys oil_weights -> oils_db !! name = Some oil ->
                    lo <= properties oil p <= hi
                    /\ lo' <= fatty_acids oil fa <= hi') ->
  (forall value,
      (p, value) ∈ calculate_soap_properties oils_db oil_weights ->
      round lo 1 <= value <= round hi 1)
  /\ (forall value,
         (fa, value) ∈ calculate_fatty_acid_profile oils_db oil_weights ->
         round lo' 1 <= value <= round hi' 1).
Proof.
  intros Hall Hw Hpos Hb. split; intros value Hin.
  - eapply (weighted_average_bounds oils_db property_names properties);
      [done | done | done | | exact Hin].
    intros name oil Hk Ho. by apply (Hb name oil Hk Ho).
  - eapply (weighted_average_bounds oils_db fatty_acid_names fatty_acids);
      [done | done | done | | exact Hin].
    intros name oil Hk Ho. by apply (Hb name oil Hk Ho).
Qed.

Lemma property_value_within_oil_range_witness :
  exists value,
    (hardness, value) ∈ calculate_soap_properties Sample.oils_db
                          [("Olive Oil", 400); ("Coconut Oil", 200)]
    /\ 17.0 <= value <= 79.0.
Proof.
  destruct (property_value_within_oil_range Sample.oils_db
              [("Olive Oil", 400); ("Coconut Oil", 200)]
              hardness lauric 17 79 0 48) as [H _].
  - intros name Hin. simpl in Hin.
    apply elem_of_cons in Hin as [->|Hin]; [by eexists|].
    apply list_elem_of_singleton in Hin as ->. by eexists.
  - intros name weight Hin.
    apply elem_of_cons in Hin as [[= -> ->]|Hin]; [discriminate|].
    apply list_elem_of_singleton in Hin as [= -> ->]. discriminate.
  - reflexivity.
  - intros name oil Hin Hoil. unfold Sample.oils_db in Hoil.
    apply lookup_insert_Some in Hoil as [[_ <-]|[_ Hoil]];
      [repeat split; discriminate|].
    apply lookup_singleton_Some in Hoil as [_ <-].
    repeat split; discriminate.
  - eexists. split; [|apply H]; apply list_elem_of_here.
Defined.

End AverageExtras.

(** ** Modifier effects *)

Section ModifierEffectFacts.
Import Py SoapChemistry.

Lemma get_elem {V} (d : dict V) (k : string) (v : V) :
  get d k = Some v -> (k, v) ∈ d.
Proof.
  induction d as [|[k' v'] d IH]; simpl; [done|].
  destruct (String.eqb k k') eqn:E.
  - apply String.eqb_eq in E as ->. intros [= ->]. apply list_elem_of_here.
  - intros H. by apply list_elem_of_further, IH.
Qed.

Lemma boost_prop_keys (a : list (PropName * Q)) (prop : PropName) (boost : Q) :
  map fst (boost_prop a prop boost) = map fst a.
Proof.
  induction a as [|[p v] a IH]; simpl; [done|].
  destruct (decide (prop = p)); simpl; [done | by rewrite IH].
Qed.

Lemma apply_effects_keys (a effects : list (PropName * Q)) :
  map fst (apply_effects a effects) = map fst a.
Proof.
  unfold apply_effects. revert a.
  induction effects as [|[p b] effects IH]; intros a; simpl; [done|].
  by rewrite IH, boost_prop_keys.
Qed.

Lemma apply_modifier_effects_fold (base : list (PropName * Q)) (ms : dict Q) :
  apply_modifier_effects base ms = fold_left effect_step ms base.
Proof. reflexivity. Qed.

Lemma effect_step_keys (a : list (PropName * Q)) (entry : string * Q) :
  map fst (effect_step a entry) = map fst a.
Proof.
  unfold effect_step. destruct (get _ _); [|done].
  destruct (Qlt_le_dec _ _); [apply apply_effects_keys | done].
Qed.

Lemma one_decimal_plus (x y : Q) :
  one_decimal x -> one_decimal y -> one_decimal (x + y).
Proof.
  intros [zx Hx] [zy Hy]. exists (zx + zy)%Z. rewrite Hx, Hy.
  unfold Qeq, Qplus. simpl. lia.
Qed.

Lemma one_decimal_round (x : Q) : one_decimal x -> round x 1 == x.
Proof.
  intros [z Hz]. rewrite (round_exact z 1 x Hz). by rewrite Hz.
Qed.

Lemma one_decimal_rounded (x : Q) : one_decimal (round x 1).
Proof. eexists. unfold round. reflexivity. Qed.

Lemma shifted_keys f a a' : shifted f a a' -> map fst a' = map fst a.
Proof.
  induction 1 as [|[p v] [p' v'] a a' [E _] _ IH]; simpl; [done|].
  simpl in E. by rewrite IH, E.
Qed.

Lemma shifted_refl f a : (forall p, f p == 0) -> shifted f a a.
Proof.
  intros Hf. induction a as [|[p v] a IH]; constructor; [|done].
  split; [done|]. simpl. rewrite Hf. ring.
Qed.

Lemma shifted_trans f g h a a' a'' :
  (forall p, h p == f p + g p) ->
  shifted f a a' -> shifted g a' a'' -> shifted h a a''.
Proof.
  intros Hh H. revert a''.
  induction H as [|[p v] [p' v'] a a' [E Hv] _ IH]; intros a'' H'.
  - inversion H'. constructor.
  - inversion H' as [|? [p'' v''] ? a''0 [E' Hv'] Hrest]; subst.
    simpl in *. subst. constructor; [|by apply IH].
    split; [done|]. simpl. rewrite Hv', Hv, Hh. ring.
Qed.

Lemma boost_prop_shifted (a : list (PropName * Q)) (prop : PropName) (b : Q) :
  tenths a -> one_decimal b ->
  shifted (fun p => if decide (p = prop) then b else 0) a (boost_prop a prop b)
  /\ tenths (boost_prop a prop b).
Proof.
  intros [Hnd Hten] Hb.
  assert (tenths (boost_prop a prop b)) as Hten'.
  { split; [by rewrite boost_prop_keys|].
    clear Hnd. induction Hten as [|[p v] a Hv Hten IH]; simpl; [constructor|].
    destruct (decide (prop = p)); constructor; try done.
    apply one_decimal_rounded. }
  split; [|exact Hten']. clear Hten'.
  induction a as [|[p v] a IH]; simpl; [constructor|].
  apply NoDup_cons in Hnd as [Hnin Hnd].
  apply Forall_cons in Hten as [Hv Hten]. simpl in Hv.
  destruct (decide (prop = p)) as [->|Hne].
  - constructor.
    + split; [done|]. simpl. rewrite decide_True by done.
      apply one_decimal_round. by apply one_decimal_plus.
    + clear IH Hnd Hten. induction a as [|[p' v'] a IH]; constructor.
      * split; [done|]. simpl. rewrite decide_False; [ring|].
        intros ->. apply Hnin. simpl. apply list_elem_of_here.
      * apply IH. intros Hin. apply Hnin. simpl. by apply list_elem_of_further.
  - constructor; [|by apply IH].
    split; [done|]. simpl. rewrite decide_False by done. ring.
Qed.

Lemma apply_effects_shifted (a effects : list (PropName * Q)) :
  tenths a -> Forall (fun pb => one_decimal (snd pb)) effects ->
  shifted (fun p => sum (map snd (filter (fun pb => fst pb = p) effects)))
    a (apply_effects a effects)
  /\ tenths (apply_effects a effects).
Proof.
  unfold apply_effects. revert a.
  induction effects as [|[q b] effects IH]; intros a Ha Hb; simpl.
  - split; [|done]. by apply shifted_refl.
  - apply Forall_cons in Hb as [Hb Hrest]. simpl in Hb.
    destruct (boost_prop_shifted a q b Ha Hb) as [Hs Ht].
    destruct (IH _ Ht Hrest) as [Hs' Ht'].
    split; [|done]. eapply shifted_trans; [|exact Hs|exact Hs'].
    intros p. rewrite filter_cons. simpl.
    destruct (decide (q = p)) as [->|Hne].
    + rewrite decide_True by done. simpl. by rewrite sum_cons.
    + rewrite decide_False by done. ring.
Qed.

(** Every boost of the table is a positive whole number. *)
Lemma table_boosts (name : string) (effects : list (PropName * Q)) :
  get modifier_effects name = Some effects ->
  Forall (fun pb => one_decimal (snd pb) /\ 1 <= snd pb) effects.
Proof.
  assert (Forall (fun ne : string * list (PropName * Q) =>
                    Forall (fun pb => one_decimal (snd pb) /\ 1 <= snd pb)
                      (snd ne))
            modifier_effects) as Htable.
  { unfold modifier_effects.
    repeat (apply Forall_cons_2;
            [cbn [snd];
             repeat (apply Forall_cons_2;
                     [cbn [snd]; split;
                      [match goal with
                       | |- one_decimal ?b => exists (Qnum b * 10)%Z; reflexivity
                       end
                      |discriminate]|]);
             apply Forall_nil_2|]).
    apply Forall_nil_2. }
  intros H%get_elem.
  exact (proj1 (Forall_forall _ _) Htable _ H).
Qed.

Lemma effect_step_shifted (a : list (PropName * Q)) (entry : string * Q) :
  tenths a ->
  shifted (fun p => entry_boost p entry) a (effect_step a entry)
  /\ tenths (effect_step a entry).
Proof.
  intros Ha. unfold effect_step, entry_boost.
  destruct (get modifier_effects (fst entry)) as [effects|] eqn:E;
    [|split; [by apply shifted_refl | done]].
  destruct (Qlt_le_dec 0 (snd entry));
    [|split; [by apply shifted_refl | done]].
  apply apply_effects_shifted; [done|].
  eapply Forall_impl; [exact (table_boosts _ _ E)|]. by intros ? [? _].
Qed.

Lemma apply_modifier_effects_shifted (base : list (PropName * Q))
    (modifiers : dict Q) :
  tenths base ->
  shifted (fun p => total_boost p modifiers) base
    (apply_modifier_effects base modifiers).
Proof.
  rewrite apply_modifier_effects_fold. revert base.
  induction modifiers as [|entry ms IH]; intros base Hb; simpl.
  - apply shifted_refl. reflexivity.
  - destruct (effect_step_shifted base entry Hb) as [Hs Ht].
    eapply shifted_trans; [|exact Hs|exact (IH _ Ht)].
    intros p. unfold total_boost. simpl. by rewrite sum_cons.
Qed.

End ModifierEffectFacts.

Section ModifierEffectExtras.
Import Py SoapChemistry.

Lemma raised_refl a : raised a a.
Proof.
  induction a as [|[p v] a IH]; constructor; [|done]. split; [done|]. simpl. lra.
Qed.

Lemma raised_trans a a' a'' : raised a a' -> raised a' a'' -> raised a a''.
Proof.
  intros H. revert a''.
  induction H as [|[p v] [p' v'] a a' [E Hv] _ IH]; intros a'' H'.
  - inversion H'. constructor.
  - inversion H' as [|? [p'' v''] ? a''0 [E' Hv'] Hrest]; subst.
    simpl in *. subst. constructor; [|by apply IH].
    split; [done|]. simpl. lra.
Qed.

Lemma boost_prop_raised (a : list (PropName * Q)) (prop : PropName) (b : Q) :
  1 <= b -> raised a (boost_prop a prop b).
Proof.
  intros Hb. induction a as [|[p v] a IH]; simpl; [constructor|].
  destruct (decide (prop = p)).
  - constructor; [|apply raised_refl]. split; [done|]. simpl.
    pose proof (round1_err (v + b)) as H. apply Qabs_Qle_condition in H.
    revert H. generalize (round (v + b) 1). intros r H. lra.
  - constructor; [|done]. split; [done|]. simpl. lra.
Qed.

Lemma effect_step_raised (a : list (PropName * Q)) (entry : string * Q) :
  raised a (effect_step a entry).
Proof.
  unfold effect_step.
  destruct (get modifier_effects (fst entry)) as [effects|] eqn:E;
    [|apply raised_refl].
  destruct (Qlt_le_dec 0 (snd entry)); [|apply raised_refl].
  pose proof (table_boosts _ _ E) as Ht. clear E.
  unfold apply_effects. revert a.
  induction Ht as [|[p b] effects [_ Hb] _ IH]; intros a; simpl;
    [apply raised_refl|].
  eapply raised_trans; [by apply boost_prop_raised | apply IH].
Qed.

(** X11.  [apply_modifier_effects] returns the properties it was given, in
    the same order: an effect on a property that is absent is skipped, and
    no property is ever added or removed. *)
Theorem modifier_effects_keep_keys (base_properties : list (PropName * Q))
    (modifiers : dict Q) :
  map fst (apply_modifier_effects base_properties modifiers)
  = map fst base_properties.
Proof.
  rewrite apply_modifier_effects_fold. revert base_properties.
  induction modifiers as [|entry ms IH]; intros base; simpl; [done|].
  by rewrite IH, effect_step_keys.
Qed.

(** X12.  A modifier that the effects table does not list, or whose amount
    is zero or negative, has no effect: its entry can be removed from the
    mapping without changing the result. *)
Theorem inactive_modifier_has_no_effect (base_properties : list (PropName * Q))
    (before after : dict Q) (name : string) (amount : Q) :
  get modifier_effects name = None \/ amount <= 0 ->
  apply_modifier_effects base_properties (before ++ (name, amount) :: after)
  = apply_modifier_effects base_properties (before ++ after).
Proof.
  intros H. rewrite !apply_modifier_effects_fold, !fold_left_app. simpl.
  f_equal. unfold effect_step. cbn [fst snd].
  destruct H as [-> | Hle]; [done|].
  destruct (get modifier_effects name); [|done].
  destruct (Qlt_le_dec 0 amount); [lra | done].
Qed.

Lemma inactive_modifier_has_no_effect_witness :
  apply_modifier_effects [(hardness, 32.3); (creamy, 13.1)]
    [("Sugar", 0); ("Kaolin Clay", 5); ("Glitter", 2)]
  = [(hardness, 33.3); (creamy, 14.1)].
Proof.
  pose proof (inactive_modifier_has_no_effect
                [(hardness, 32.3); (creamy, 13.1)] []
                [("Kaolin Clay", 5); ("Glitter", 2)] "Sugar" 0) as H1.
  pose proof (inactive_modifier_has_no_effect
                [(hardness, 32.3); (creamy, 13.1)] [("Kaolin Clay", 5)] []
                "Glitter" 2) as H2.
  simpl app in H1, H2.
  rewrite H1 by (right; discriminate). rewrite H2 by (left; reflexivity).
  vm_compute. reflexivity.
Defined.

(** X13.  The boost of an active modifier is flat: the result does not
    depend on how large its positive amount is. *)
Theorem modifier_boost_is_flat (base_properties : list (PropName * Q))
    (before after : dict Q) (name : string) (amount amount' : Q) :
  0 < amount -> 0 < amount' ->
  apply_modifier_effects base_properties (before ++ (name, amount) :: after)
  = apply_modifier_effects base_properties (before ++ (name, amount') :: after).
Proof.
  intros H H'. rewrite !apply_modifier_effects_fold, !fold_left_app. simpl.
  f_equal. unfold effect_step. cbn [fst snd].
  destruct (get modifier_effects name); [|done].
  destruct (Qlt_le_dec 0 amount), (Qlt_le_dec 0 amount'); try done; lra.
Qed.

Lemma modifier_boost_is_flat_witness :
  apply_modifier_effects [(bubbly, 19.1)] [("Sugar", 0.1)]
  = apply_modifier_effects [(bubbly, 19.1)] [("Sugar", 500)].
Proof.
  apply (modifier_boost_is_flat [(bubbly, 19.1)] [] [] "Sugar" 0.1 500);
    reflexivity.
Defined.

(** X14.  No modifier ever lowers a property: key by key, the adjusted
    value is at least the base value. *)
Theorem modifier_effects_never_lower (base_properties : list (PropName * Q))
    (modifiers : dict Q) :
  Forall2 (fun kv kv' => fst kv = fst kv' /\ snd kv <= snd kv')
    base_properties (apply_modifier_effects base_properties modifiers).
Proof.
  rewrite apply_modifier_effects_fold. revert base_properties.
  induction modifiers as [|entry ms IH]; intros base; simpl;
    [apply raised_refl|].
  eapply raised_trans; [apply effect_step_raised | apply IH].
Qed.

(** X15.  On a property vector computed by [calculate_soap_properties],
    whose values have one decimal, the effects are exactly additive: every
    adjusted value is the blend's value plus the boosts of the listed
    modifiers with a positive amount, the intermediate roundings losing
    nothing. *)
Theorem modifier_effects_add_to_blend (oils_db : gmap string Oil)
    (oil_weights modifiers : dict Q) :
  Forall2
    (fun kv kv' =>
       fst kv = fst kv' /\ snd kv' == snd kv + total_boost (fst kv) modifiers)
    (calculate_soap_properties oils_db oil_weights)
    (apply_modifier_effects (calculate_soap_properties oils_db oil_weights)
       modifiers).
Proof.
  apply apply_modifier_effects_shifted. split.
  - unfold calculate_soap_properties. rewrite weighted_average_keys.
    destruct (Qeq_bool _ _); [constructor|].
    apply (bool_decide_unpack _). vm_compute. exact I.
  - unfold calculate_soap_properties, weighted_average.
    destruct (Qeq_bool _ _); [constructor|].
    apply Forall_fmap, Forall_forall. intros kv _. apply one_decimal_rounded.
Qed.

End ModifierEffectExtras.

(** ** Recipes and their manager *)

Section RecipeManagerFacts.
Import Py.

Lemma from_dict_to_dict (now : string) (r : Recipe.t) :
  Recipe.modifiers r <> Recipe.PNone ->
  Recipe.from_dict now (Recipe.to_dict r) = Ok r.
Proof.
  intros H. destruct r as [? ? ? ? ? ? m ? ? ? ? ? ? ? ?]. simpl in H.
  by destruct m.
Qed.

Lemma from_dicts_to_dicts (clock : nat -> string) (i : nat)
    (rs : list Recipe.t) :
  Forall (fun r => Recipe.modifiers r <> Recipe.PNone) rs ->
  RecipeManager.from_dicts clock i (map Recipe.to_dict rs) = Ok rs.
Proof.
  intros H. revert i. induction H as [|r rs Hr _ IH]; intros i; [done|].
  cbn [map RecipeManager.from_dicts].
  rewrite (from_dict_to_dict _ r Hr). unfold mbind, result_bind at 1.
  cbn [Py.bind]. rewrite IH. reflexivity.
Qed.

Lemma from_dict_raises_iff (now : string) (data : dict Recipe.pyval) :
  raises (Recipe.from_dict now data)
  <-> get data "name" = None \/ get data "oils" = None.
Proof.
  unfold Recipe.from_dict, Recipe.getitem, mbind, result_bind.
  destruct (get data "name"), (get data "oils"); simpl; split; try tauto;
    intros [H|H]; try discriminate; exact I.
Qed.

Lemma from_dicts_raises (clock : nat -> string) (i : nat)
    (entries : list (dict Recipe.pyval)) :
  (exists data, data ∈ entries
                /\ (get data "name" = None \/ get data "oils" = None)) ->
  raises (RecipeManager.from_dicts clock i entries).
Proof.
  revert i. induction entries as [|d entries IH]; intros i (data & Hin & Hbad).
  - inversion Hin.
  - cbn [RecipeManager.from_dicts].
    destruct (Recipe.from_dict (clock i) d) as [r|e] eqn:E; [|exact I].
    unfold mbind, result_bind at 1. cbn [Py.bind].
    assert (raises (RecipeManager.from_dicts clock (S i) entries)) as Hrest.
    { apply IH. exists data. split; [|done].
      apply elem_of_cons in Hin as [->|Hin]; [|done].
      apply (from_dict_raises_iff (clock i)) in Hbad. by rewrite E in Hbad. }
    destruct (RecipeManager.from_dicts clock (S i) entries); [done | exact I].
Qed.

End RecipeManagerFacts.

Section RecipeExtras.
Import Py.

(** X16.  [from_dict] needs the keys ['name'] and ['oils'], and only those:
    it raises [KeyError] for the first of the two that is missing, and with
    both present it succeeds.  A dictionary with none of the thirteen keys
    read through [data.get], in whatever order its entries come and
    whatever other keys it holds, loads as a recipe freshly constructed
    with the default parameters (superfat 5, concentration 33, fragrance 3,
    no notes, no modifiers, zero derived values, both dates the time of
    loading). *)
Theorem from_dict_required_keys (now : string) (data : dict Recipe.pyval) :
  (get data "name" = None ->
   Recipe.from_dict now data = Raise (KeyError "name"))
  /\ (is_Some (get data "name") -> get data "oils" = None ->
      Recipe.from_dict now data = Raise (KeyError "oils"))
  /\ (forall name oils,
        get data "name" = Some name -> get data "oils" = Some oils ->
        (exists recipe,
            Recipe.from_dict now data = Ok recipe
            /\ Recipe.name recipe = name /\ Recipe.oils recipe = oils)
        /\ ((forall key, key ∈ optional_keys -> get data key = None) ->
            Recipe.from_dict now data
            = Ok (Recipe.init now name oils (Recipe.PNum 5) (Recipe.PNum 33)
                    (Recipe.PNum 3) (Recipe.PStr "") (Recipe.PDict [])))).
Proof.
  unfold Recipe.from_dict, Recipe.getitem, mbind, result_bind.
  split_and!.
  - by intros ->.
  - by intros [v ->] ->.
  - intros name oils -> ->. split.
    + eexists. split; [reflexivity|]. done.
    + intros Hopt. unfold Recipe.get_or.
      rewrite !Hopt by (apply (bool_decide_unpack _); vm_compute; exact I).
      reflexivity.
Qed.

Lemma from_dict_required_keys_witness :
  Recipe.from_dict "t0" [("oils", Recipe.PDict [("Olive Oil", 500)])]
  = Raise (KeyError "name")
  /\ Recipe.from_dict "t0" [("name", Recipe.PStr "Castile")]
     = Raise (KeyError "oils")
  /\ Recipe.from_dict "t0"
       [("oils", Recipe.PDict [("Olive Oil", 500)]);
        ("author", Recipe.PStr "M.");
        ("name", Recipe.PStr "Castile")]
     = Ok (Recipe.init "t0" (Recipe.PStr "Castile")
             (Recipe.PDict [("Olive Oil", 500)])
             (Recipe.PNum 5) (Recipe.PNum 33) (Recipe.PNum 3)
             (Recipe.PStr "") (Recipe.PDict [])).
Proof.
  destruct (from_dict_required_keys "t0"
              [("oils", Recipe.PDict [("Olive Oil", 500)])]) as (H1 & _).
  destruct (from_dict_required_keys "t0"
              [("name", Recipe.PStr "Castile")]) as (_ & H2 & _).
  destruct (from_dict_required_keys "t0"
              [("oils", Recipe.PDict [("Olive Oil", 500)]);
               ("author", Recipe.PStr "M.");
               ("name", Recipe.PStr "Castile")]) as (_ & _ & H3).
  split_and!.
  - apply H1. reflexivity.
  - apply H2; [by eexists | reflexivity].
  - apply (H3 (Recipe.PStr "Castile") (Recipe.PDict [("Olive Oil", 500)]));
      [reflexivity|reflexivity|].
    intros key Hkey. unfold optional_keys in Hkey.
    repeat (apply elem_of_cons in Hkey as [->|Hkey]; [reflexivity|]).
    inversion Hkey.
Defined.

(** X17.  What [add_recipe], [update_recipe] and [delete_recipe] write can
    be read back: a manager started on the file left by any of them holds
    the same list of recipes, every field of every recipe included,
    provided no recipe of the list has its [modifiers] attribute set to
    [None]. *)
Theorem saved_recipes_load_back (clock : nat -> string)
    (self : RecipeManager.t) (recipe : Recipe.t) (now : string) (index : Z) :
  Forall (fun r => Recipe.modifiers r <> Recipe.PNone)
    (RecipeManager.recipes self) ->
  Recipe.modifiers recipe <> Recipe.PNone ->
  let reload st :=
    RecipeManager.recipes
      (RecipeManager.init clock (RecipeManager.recipes_file st)) in
  reload (RecipeManager.add_recipe recipe self)
  = RecipeManager.recipes self ++ [recipe]
  /\ (RecipeManager.in_range index self = true ->
      reload (RecipeManager.update_recipe now index recipe self)
      = RecipeManager.recipes (RecipeManager.update_recipe now index recipe self)
      /\ reload (RecipeManager.delete_recipe index self)
         = RecipeManager.recipes (RecipeManager.delete_recipe index self)).
Proof.
  intros Hall Hr reload.
  assert (forall rs,
             Forall (fun r => Recipe.modifiers r <> Recipe.PNone) rs ->
             reload (RecipeManager.save_recipes
                       (RecipeManager.mk (RecipeManager.recipes_file self) rs))
             = rs) as Hsave.
  { intros rs Hrs. unfold reload, RecipeManager.init, RecipeManager.load_recipes,
      RecipeManager.save_recipes. cbn [RecipeManager.recipes_file
      RecipeManager.recipes default from_option id].
    by rewrite from_dicts_to_dicts. }
  split.
  - unfold RecipeManager.add_recipe. apply Hsave.
    apply Forall_app. split; [done|]. by constructor.
  - intros Hin. unfold RecipeManager.update_recipe, RecipeManager.delete_recipe.
    rewrite Hin. rewrite !Hsave; [done | |].
    + revert Hall. generalize (RecipeManager.recipes self) (Z.to_nat index).
      intros rs n Hall. revert n.
      induction Hall as [|r rs ? ? IH]; intros [|n]; simpl;
        try constructor; auto.
    + apply Forall_insert; [done|]. done.
Qed.

Lemma saved_recipes_load_back_witness :
  let r := Recipe.init "t0" (Recipe.PStr "Castile")
             (Recipe.PDict [("Olive Oil", 500)]) (Recipe.PNum 5)
             (Recipe.PNum 33) (Recipe.PNum 3) (Recipe.PStr "") Recipe.PNone in
  RecipeManager.recipes
    (RecipeManager.init (fun _ => "t1")
       (RecipeManager.recipes_file
          (RecipeManager.add_recipe r
             (RecipeManager.init (fun _ => "t0") RecipeManager.Missing))))
  = [r].
Proof.
  intros r.
  destruct (saved_recipes_load_back (fun _ => "t1")
              (RecipeManager.init (fun _ => "t0") RecipeManager.Missing)
              r "t2" 0) as [H _].
  - constructor.
  - discriminate.
  - exact H.
Defined.

(** X18.  Loading is all or nothing: when one entry of the file lacks the
    key ['name'] or ['oils'], or the file is missing or unreadable, the
    manager ends with an empty list, whatever the other entries hold. *)
Theorem load_is_all_or_nothing (clock : nat -> string)
    (entries : list (dict Recipe.pyval)) (held : list Recipe.t) :
  (exists data, data ∈ entries
                /\ (get data "name" = None \/ get data "oils" = None)) ->
  RecipeManager.recipes
    (RecipeManager.load_recipes clock
       (RecipeManager.mk (RecipeManager.Json (Some entries)) held)) = []
  /\ RecipeManager.recipes
       (RecipeManager.load_recipes clock
          (RecipeManager.mk RecipeManager.Missing held)) = []
  /\ RecipeManager.recipes
       (RecipeManager.load_recipes clock
          (RecipeManager.mk RecipeManager.Unreadable held)) = [].
Proof.
  intros Hbad. split_and!; [|done|done].
  unfold RecipeManager.load_recipes.
  cbn [RecipeManager.recipes_file default from_option id].
  pose proof (from_dicts_raises clock 0 entries Hbad) as H.
  by destruct (RecipeManager.from_dicts clock 0 entries).
Qed.

Lemma load_is_all_or_nothing_witness :
  RecipeManager.recipes
    (RecipeManager.init (fun _ => "t0")
       (RecipeManager.Json
          (Some [ [("name", Recipe.PStr "Castile");
                   ("oils", Recipe.PDict [("Olive Oil", 500)])];
                  [("name", Recipe.PStr "Untitled")] ])))
  = [].
Proof.
  destruct (load_is_all_or_nothing (fun _ => "t0")
              [ [("name", Recipe.PStr "Castile");
                 ("oils", Recipe.PDict [("Olive Oil", 500)])];
                [("name", Recipe.PStr "Untitled")] ] []) as [H _];
    [|exact H].
  exists [("name", Recipe.PStr "Untitled")]. split.
  - apply list_elem_of_further, list_elem_of_here.
  - right. reflexivity.
Defined.

(** X19.  An index below 0 or at least the number of recipes is ignored:
    [update_recipe] and [delete_recipe] change neither the list nor the
    file, and [get_recipe] returns [None]; a negative index does not count
    from the end. *)
Theorem out_of_range_index_is_ignored (self : RecipeManager.t) (index : Z)
    (now : string) (recipe : Recipe.t) :
  (index < 0 \/ Z.of_nat (length (RecipeManager.recipes self)) <= index)%Z ->
  RecipeManager.update_recipe now index recipe self = self
  /\ RecipeManager.delete_recipe index self = self
  /\ RecipeManager.get_recipe index self = None.
Proof.
  intros H.
  assert (RecipeManager.in_range index self = false) as E
    by (apply bool_decide_eq_false; lia).
  unfold RecipeManager.update_recipe, RecipeManager.delete_recipe,
    RecipeManager.get_recipe. by rewrite E.
Qed.

Lemma out_of_range_index_is_ignored_witness :
  let self :=
    RecipeManager.add_recipe
      (Recipe.init "t0" (Recipe.PStr "Castile")
         (Recipe.PDict [("Olive Oil", 500)]) (Recipe.PNum 5) (Recipe.PNum 33)
         (Recipe.PNum 3) (Recipe.PStr "") Recipe.PNone)
      (RecipeManager.init (fun _ => "t0") RecipeManager.Missing) in
  RecipeManager.delete_recipe (-1) self = self
  /\ RecipeManager.get_recipe 1 self = None.
Proof.
  intros self.
  destruct (out_of_range_index_is_ignored self (-1) "t1"
              (Recipe.init "t0" (Recipe.PStr "x") (Recipe.PDict [])
                 (Recipe.PNum 5) (Recipe.PNum 33) (Recipe.PNum 3)
                 (Recipe.PStr "") Recipe.PNone)) as (_ & Hd & _);
    [left; reflexivity|].
  destruct (out_of_range_index_is_ignored self 1 "t1"
              (Recipe.init "t0" (Recipe.PStr "x") (Recipe.PDict [])
                 (Recipe.PNum 5) (Recipe.PNum 33) (Recipe.PNum 3)
                 (Recipe.PStr "") Recipe.PNone)) as (_ & _ & Hg);
    [right; simpl; lia|].
  by split.
Defined.

(** X20.  Deleting at a valid index removes that recipe alone: the list is
    one shorter, the recipes before the index keep their index, and those
    after it move down by one. *)
Theorem delete_recipe_shifts (self : RecipeManager.t) (index : Z) :
  (0 <= index < Z.of_nat (length (RecipeManager.recipes self)))%Z ->
  let self' := RecipeManager.delete_recipe index self in
  S (length (RecipeManager.recipes self'))
  = length (RecipeManager.recipes self)
  /\ (forall j, (0 <= j < index)%Z ->
        RecipeManager.get_recipe j self' = RecipeManager.get_recipe j self)
  /\ (forall j, (index <= j)%Z ->
        RecipeManager.get_recipe j self'
        = RecipeManager.get_recipe (j + 1) self).
Proof.
  intros Hin self'.
  assert (RecipeManager.in_range index self = true) as E
    by (apply bool_decide_eq_true; lia).
  assert (RecipeManager.recipes self'
          = delete (Z.to_nat index) (RecipeManager.recipes self)) as Hrs.
  { unfold self', RecipeManager.delete_recipe. by rewrite E. }
  assert (S (length (RecipeManager.recipes self'))
          = length (RecipeManager.recipes self)) as Hlen.
  { rewrite Hrs, length_delete.
    - lia.
    - apply lookup_lt_is_Some. lia. }
  split_and!; [exact Hlen | |].
  - intros j Hj. unfold RecipeManager.get_recipe, RecipeManager.in_range.
    rewrite !bool_decide_eq_true_2 by lia.
    rewrite Hrs. apply list_lookup_delete_lt. lia.
  - intros j Hj. unfold RecipeManager.get_recipe, RecipeManager.in_range.
    destruct (decide (j + 1 < Z.of_nat (length (RecipeManager.recipes self)))%Z).
    + rewrite !bool_decide_eq_true_2 by lia.
      rewrite Hrs, list_lookup_delete_ge by lia. f_equal. lia.
    + by rewrite !bool_decide_eq_false_2 by lia.
Qed.

Lemma delete_recipe_shifts_witness :
  let r name := Recipe.init "t0" (Recipe.PStr name) (Recipe.PDict [])
                  (Recipe.PNum 5) (Recipe.PNum 33) (Recipe.PNum 3)
                  (Recipe.PStr "") Recipe.PNone in
  let self := RecipeManager.mk RecipeManager.Missing [r "a"; r "b"; r "c"] in
  RecipeManager.get_recipe 1 (RecipeManager.delete_recipe 1 self)
  = Some (r "c").
Proof.
  intros r self.
  destruct (delete_recipe_shifts self 1) as (_ & _ & H); [simpl; lia|].
  rewrite H by lia. reflexivity.
Defined.

(** X21.  [add_recipe] appends the object it is given: it is found at the
    index equal to the former length, every earlier index still gives the
    same object, and no object is changed.  [update_recipe] at a valid
    index puts the given object there and sets that object's modification
    date, in place, to the time of the update, its other attributes kept;
    every other index keeps its object and no other object is changed.  So
    the recipe read at an index is as before unless that index now holds
    the very object that was passed: an entry that was already that
    object has its modification date moved too. *)
Theorem add_and_update_by_index (self : RecipeObjects.t)
    (recipe : RecipeObjects.ref) (now : string) (index : Z) :
  (0 <= index < Z.of_nat (length (RecipeObjects.recipes self)))%Z ->
  let added := RecipeObjects.add_recipe recipe self in
  let updated := RecipeObjects.update_recipe now index recipe self in
  (RecipeObjects.get_recipe
     (Z.of_nat (length (RecipeObjects.recipes self))) added = Some recipe
   /\ (forall j,
         (0 <= j < Z.of_nat (length (RecipeObjects.recipes self)))%Z ->
         RecipeObjects.get_recipe j added = RecipeObjects.get_recipe j self)
   /\ (forall r, RecipeObjects.objects added r = RecipeObjects.objects self r))
  /\ (RecipeObjects.get_recipe index updated = Some recipe
      /\ Recipe.modified_date (RecipeObjects.objects updated recipe)
         = Recipe.PStr now
      /\ Recipe.to_dict (RecipeObjects.objects updated recipe)
         = set (Recipe.to_dict (RecipeObjects.objects self recipe))
             "modified_date" (Recipe.PStr now))
  /\ ((forall j, j <> index ->
         RecipeObjects.get_recipe j updated = RecipeObjects.get_recipe j self)
      /\ (forall r, r <> recipe ->
            RecipeObjects.objects updated r = RecipeObjects.objects self r))
  /\ ((forall j, RecipeObjects.get_recipe j updated <> Some recipe ->
         read j updated = read j self)
      /\ (forall j, RecipeObjects.get_recipe j updated = Some recipe ->
            read j updated
            = Some (RecipeManager.touch now
                      (RecipeObjects.objects self recipe)))).
Proof.
  intros Hin added updated.
  assert (RecipeObjects.in_range index self = true) as E
    by (apply bool_decide_eq_true; lia).
  assert (forall j, j <> index ->
            RecipeObjects.get_recipe j updated
            = RecipeObjects.get_recipe j self) as Hother.
  { intros j Hj. unfold updated, RecipeObjects.get_recipe,
      RecipeObjects.update_recipe.
    rewrite E. unfold RecipeObjects.in_range.
    cbn [RecipeObjects.save_recipes RecipeObjects.recipes].
    rewrite length_insert.
    destruct (bool_decide _) eqn:Ej; [|done].
    apply bool_decide_eq_true in Ej.
    apply list_lookup_insert_ne. lia. }
  assert (RecipeObjects.get_recipe index updated = Some recipe) as Hat.
  { unfold updated, RecipeObjects.get_recipe, RecipeObjects.update_recipe.
    rewrite E. unfold RecipeObjects.in_range.
    cbn [RecipeObjects.save_recipes RecipeObjects.recipes].
    rewrite bool_decide_eq_true_2 by (rewrite length_insert; lia).
    apply list_lookup_insert_eq. lia. }
  assert (forall r,
            RecipeObjects.objects updated r
            = if decide (r = recipe)
              then RecipeManager.touch now (RecipeObjects.objects self recipe)
              else RecipeObjects.objects self r) as Hobj.
  { intros r. unfold updated, RecipeObjects.update_recipe. by rewrite E. }
  split_and!.
  - unfold added, RecipeObjects.get_recipe, RecipeObjects.in_range,
      RecipeObjects.add_recipe. cbn [RecipeObjects.save_recipes
      RecipeObjects.recipes].
    rewrite bool_decide_eq_true_2 by (rewrite length_app; simpl; lia).
    rewrite Nat2Z.id. by rewrite list_lookup_middle.
  - intros j Hj. unfold added, RecipeObjects.get_recipe,
      RecipeObjects.in_range, RecipeObjects.add_recipe.
    cbn [RecipeObjects.save_recipes RecipeObjects.recipes].
    rewrite !bool_decide_eq_true_2 by (rewrite ?length_app; simpl; lia).
    apply lookup_app_l. lia.
  - done.
  - exact Hat.
  - rewrite Hobj, decide_True by done. reflexivity.
  - rewrite Hobj, decide_True by done.
    by destruct (RecipeObjects.objects self recipe).
  - exact Hother.
  - intros r Hr. by rewrite Hobj, decide_False.
  - intros j Hne. unfold read.
    assert (j <> index) as Hj by (intros ->; by rewrite Hat in Hne).
    rewrite Hother in * by done.
    destruct (RecipeObjects.get_recipe j self) as [r|]; [|done].
    cbn [fmap option_fmap option_map]. f_equal.
    rewrite Hobj, decide_False; [done|]. by intros ->.
  - intros j Hj. unfold read. rewrite Hj.
    cbn [fmap option_fmap option_map]. by rewrite Hobj, decide_True.
Qed.

Lemma add_and_update_by_index_witness :
  let r name := Recipe.init "t0" (Recipe.PStr name) (Recipe.PDict [])
                  (Recipe.PNum 5) (Recipe.PNum 33) (Recipe.PNum 3)
                  (Recipe.PStr "") Recipe.PNone in
  let objects (o : RecipeObjects.ref) :=
    match o with O => r "a" | 1%nat => r "b" | _ => r "c" end in
  let self := RecipeObjects.mk objects RecipeManager.Missing [0%nat; 1%nat] in
  RecipeObjects.get_recipe 2 (RecipeObjects.add_recipe 2%nat self)
  = Some 2%nat
  /\ read 0 (RecipeObjects.update_recipe "t9" 1 2%nat self) = Some (r "a")
  /\ read 1 (RecipeObjects.update_recipe "t9" 1 2%nat self)
     = Some (RecipeManager.touch "t9" (r "c"))
  /\ read 0 (RecipeObjects.update_recipe "t9" 1 0%nat self)
     = Some (RecipeManager.touch "t9" (r "a"))
  /\ read 1 (RecipeObjects.update_recipe "t9" 1 0%nat self)
     = Some (RecipeManager.touch "t9" (r "a")).
Proof.
  intros r objects self.
  destruct (add_and_update_by_index self 2%nat "t9" 1)
    as ((Hadd & _) & _ & _ & Hfresh & Hgiven); [simpl; lia|].
  destruct (add_and_update_by_index self 0%nat "t9" 1)
    as (_ & _ & _ & _ & Halias); [simpl; lia|].
  split_and!.
  - exact Hadd.
  - rewrite Hfresh; [reflexivity|discriminate].
  - apply Hgiven. reflexivity.
  - apply Halias. reflexivity.
  - apply Halias. reflexivity.
Defined.

End RecipeExtras.

(** ** The allocation solver, further *)

Section SmallSelections.
Import Py AutoRecipeGenerator.

Ltac disjoint_categories :=
  match goal with
  | H1 : ?o ∈ ?c1, H2 : ?o ∈ ?c2 |- _ =>
      exfalso; refine (nodup_disjoint c1 c2 o _ H1 H2);
      apply (bool_decide_unpack _); vm_compute; exact I
  end.

Lemma select_cons_in (category : list string) (o : string) (oils : list string) :
  o ∈ category -> select category (o :: oils) = o :: select category oils.
Proof. intros H. unfold select. by rewrite filter_cons_True. Qed.

Lemma select_cons_out (category : list string) (o : string) (oils : list string) :
  o ∉ category -> select category (o :: oils) = select category oils.
Proof. intros H. unfold select. by rewrite filter_cons_False. Qed.

Lemma base_not_hard (o : string) : o ∈ base_oils -> o ∉ hard_oils.
Proof. intros H1 H2. disjoint_categories. Qed.

Lemma hard_not_base (o : string) : o ∈ hard_oils -> o ∉ base_oils.
Proof. intros H1 H2. disjoint_categories. Qed.

Lemma generate_recipe_balanced (oil : string) (oils : list string)
    (total_weight_lbs : Q) (target_props : option (gmap string Q)) :
  truthy target_props = false ->
  generate_recipe (oil :: oils) total_weight_lbs target_props
  = Py.bind (balanced (oil :: oils) (total_weight_lbs * 16))
      (fun recipe => Ok (round_weights recipe)).
Proof. intros H. unfold generate_recipe. by rewrite H. Qed.

(** X22.  Two ingredients without targets, one a base oil and one a hard
    oil: the base oil gets 70 % and the hard oil 30 % of the total, and the
    base oil comes first in the recipe, in whichever order the two were
    selected. *)
Theorem two_oils_base_and_hard (b h : string) (total_weight_lbs : Q)
    (target_props : option (gmap string Q)) :
  truthy target_props = false -> b ∈ base_oils -> h ∈ hard_oils ->
  let expected :=
    Ok [(b, round (total_weight_lbs * 16 * 0.70) 2);
        (h, round (total_weight_lbs * 16 * 0.30) 2)] in
  generate_recipe [b; h] total_weight_lbs target_props = expected
  /\ generate_recipe [h; b] total_weight_lbs target_props = expected.
Proof.
  intros Ht Hb Hh expected.
  pose proof (base_not_hard b Hb) as Hbh. pose proof (hard_not_base h Hh) as Hhb.
  assert (h <> b) as Hne by (intros ->; contradiction).
  rewrite !generate_recipe_balanced by done. unfold balanced. cbv zeta.
  rewrite !(select_cons_in base_oils b), !(select_cons_out base_oils h),
    !(select_cons_in hard_oils h), !(select_cons_out hard_oils b) by done.
  rewrite !(select_cons_in base_oils b), !(select_cons_in hard_oils h) by done.
  cbn [Py.bind]. rewrite set_nil, set_fresh
    by (cbn; by rewrite list_elem_of_singleton).
  by split.
Qed.

Lemma two_oils_base_and_hard_witness :
  generate_recipe ["Coconut Oil"; "Olive Oil"] (100 / 16) None
  = Ok [("Olive Oil", 70.00); ("Coconut Oil", 30.00)].
Proof.
  destruct (two_oils_base_and_hard "Olive Oil" "Coconut Oil" (100 / 16) None)
    as [_ H]; [reflexivity | | | rewrite H; reflexivity];
    apply (bool_decide_unpack _); vm_compute; exact I.
Defined.

(** X23.  Two distinct ingredients without targets that are not a base oil
    together with a hard oil: the first selected gets 60 % and the second
    40 %, whatever their categories. *)
Theorem two_oils_otherwise (x y : string) (total_weight_lbs : Q)
    (target_props : option (gmap string Q)) :
  truthy target_props = false -> x <> y ->
  ((x ∉ base_oils) /\ (y ∉ base_oils))
  \/ ((x ∉ hard_oils) /\ (y ∉ hard_oils)) ->
  generate_recipe [x; y] total_weight_lbs target_props
  = Ok [(x, round (total_weight_lbs * 16 * 0.60) 2);
        (y, round (total_weight_lbs * 16 * 0.40) 2)].
Proof.
  intros Ht Hne Hcat.
  rewrite generate_recipe_balanced by done. unfold balanced. cbv zeta.
  assert (set (set [] x (total_weight_lbs * 16 * 0.60)) y
            (total_weight_lbs * 16 * 0.40)
          = [(x, total_weight_lbs * 16 * 0.60);
             (y, total_weight_lbs * 16 * 0.40)]) as Hset.
  { rewrite set_nil, set_fresh; [done|].
    cbn. rewrite list_elem_of_singleton. congruence. }
  destruct Hcat as [[Hx Hy]|[Hx Hy]].
  - rewrite !(select_cons_out base_oils) by done. cbn [select filter].
    change (select base_oils []) with (@nil string). by rewrite Hset.
  - rewrite !(select_cons_out hard_oils) by done.
    change (select hard_oils []) with (@nil string).
    destruct (select base_oils [x; y]); by rewrite Hset.
Qed.

Lemma two_oils_otherwise_witness :
  generate_recipe ["Castor Oil"; "Coconut Oil"] (100 / 16) None
  = Ok [("Castor Oil", 60.00); ("Coconut Oil", 40.00)].
Proof.
  rewrite two_oils_otherwise; [reflexivity | reflexivity | discriminate |].
  left. split; apply (bool_decide_unpack _); vm_compute; exact I.
Defined.

Lemma not_in_pair (o b h : string) : o <> b -> o <> h -> o ∉ [b; h].
Proof.
  intros Hb Hh [->|Hin%list_elem_of_singleton]%elem_of_cons; congruence.
Qed.

Lemma in_pair_l (b h : string) : ~ (b ∉ [b; h]).
Proof. intros H. apply H, list_elem_of_here. Qed.

Lemma in_pair_r (b h : string) : ~ (h ∉ [b; h]).
Proof. intros H. apply H, list_elem_of_further, list_elem_of_here. Qed.

(** X24.  Three distinct ingredients without targets: when they are a base
    oil, a hard oil and a third oil that is neither, the three get 50 %,
    30 % and 20 % of the total, listed in that order, however they were
    selected; when no base oil, or no hard oil, is among them, each gets a
    third. *)
Theorem three_oils (selected_oils : list string) (b h o : string)
    (total_weight_lbs : Q) (target_props : option (gmap string Q)) :
  truthy target_props = false ->
  selected_oils ≡ₚ [b; h; o] -> NoDup [b; h; o] ->
  let total_oz := total_weight_lbs * 16 in
  (b ∈ base_oils -> h ∈ hard_oils -> o ∉ base_oils -> o ∉ hard_oils ->
   generate_recipe selected_oils total_weight_lbs target_props
   = Ok [(b, round (total_oz * 0.50) 2); (h, round (total_oz * 0.30) 2);
         (o, round (total_oz * 0.20) 2)])
  /\ (select base_oils selected_oils = []
      \/ select hard_oils selected_oils = [] ->
      generate_recipe selected_oils total_weight_lbs target_props
      = Ok (map (fun oil => (oil, round (total_oz / 3) 2)) selected_oils)).
Proof.
  intros Ht Hperm Hnd total_oz.
  assert (NoDup selected_oils) as Hnd' by (by rewrite Hperm).
  assert (exists x y z, selected_oils = [x; y; z]) as (x & y & z & ->).
  { apply Permutation_length in Hperm.
    destruct selected_oils as [|x [|y [|z [|? ?]]]]; try discriminate.
    by exists x, y, z. }
  split.
  - intros Hb Hh Hob Hoh.
    pose proof (base_not_hard b Hb) as Hbh.
    pose proof (hard_not_base h Hh) as Hhb.
    assert (b <> h /\ b <> o /\ h <> o) as (Hbh' & Hbo & Hho).
    { apply NoDup_cons in Hnd as [H1 Hnd]. apply NoDup_cons in Hnd as [H2 _].
      apply not_elem_of_cons in H1 as [H1 H1'].
      apply not_elem_of_cons in H1' as [H1' _].
      apply not_elem_of_cons in H2 as [H2 _]. done. }
    assert (set (set (set [] b (total_oz * 0.50)) h (total_oz * 0.30)) o
              (total_oz * 0.20)
            = [(b, total_oz * 0.50); (h, total_oz * 0.30); (o, total_oz * 0.20)])
      as Hset.
    { rewrite set_nil, (set_fresh [(b, _)] h), set_fresh; [done| |].
      - cbn. rewrite !elem_of_cons.
        intros [?|[?|H]]; [congruence | congruence | inversion H].
      - cbn. rewrite list_elem_of_singleton. congruence. }
    rewrite generate_recipe_balanced by done. unfold balanced. cbv zeta.
    fold total_oz.
    symmetry in Hperm.
    apply permutations_Permutation in Hperm. vm_compute permutations in Hperm.
    repeat (apply elem_of_cons in Hperm as [[= -> -> ->]|Hperm]);
      [..|inversion Hperm];
      rewrite ?(select_cons_in base_oils b), ?(select_cons_out base_oils h),
        ?(select_cons_out base_oils o), ?(select_cons_in hard_oils h),
        ?(select_cons_out hard_oils b), ?(select_cons_out hard_oils o) by done;
      rewrite ?(select_cons_in base_oils b), ?(select_cons_out base_oils h),
        ?(select_cons_out base_oils o), ?(select_cons_in hard_oils h),
        ?(select_cons_out hard_oils b), ?(select_cons_out hard_oils o) by done;
      rewrite ?(select_cons_in base_oils b), ?(select_cons_out base_oils h),
        ?(select_cons_out base_oils o), ?(select_cons_in hard_oils h),
        ?(select_cons_out hard_oils b), ?(select_cons_out hard_oils o) by done;
      cbv beta iota;
      rewrite ?(filter_cons_False _ b), ?(filter_cons_False _ h),
        ?(filter_cons_True _ o)
        by first [by apply not_in_pair | apply in_pair_l | apply in_pair_r];
      rewrite ?(filter_cons_False _ b), ?(filter_cons_False _ h),
        ?(filter_cons_True _ o)
        by first [by apply not_in_pair | apply in_pair_l | apply in_pair_r];
      rewrite ?(filter_cons_False _ b), ?(filter_cons_False _ h),
        ?(filter_cons_True _ o)
        by first [by apply not_in_pair | apply in_pair_l | apply in_pair_r];
      cbn [Py.bind]; by rewrite Hset.
  - intros Hnone.
    rewrite generate_recipe_balanced by done. unfold balanced. cbv zeta.
    fold total_oz.
    assert (assign_each [] [x; y; z] (total_oz / 3)
            = map (fun oil => (oil, total_oz / 3)) [x; y; z]) as Hassign.
    { rewrite assign_each_fresh; [done | done |].
      intros ? _. apply not_elem_of_nil. }
    destruct Hnone as [-> | ->].
    + cbn [Py.bind]. by rewrite Hassign.
    + destruct (select base_oils [x; y; z]); cbn [Py.bind]; by rewrite Hassign.
Qed.

Lemma three_oils_witness :
  generate_recipe ["Castor Oil"; "Coconut Oil"; "Olive Oil"] (100 / 16) None
  = Ok [("Olive Oil", 50.00); ("Coconut Oil", 30.00); ("Castor Oil", 20.00)].
Proof.
  destruct (three_oils ["Castor Oil"; "Coconut Oil"; "Olive Oil"]
              "Olive Oil" "Coconut Oil" "Castor Oil" (100 / 16) None)
    as [H _].
  - reflexivity.
  - etrans; [apply perm_skip, perm_swap|].
    etrans; [apply perm_swap|]. apply perm_skip, perm_swap.
  - apply (bool_decide_unpack _). vm_compute. exact I.
  - rewrite H; [reflexivity|..];
      apply (bool_decide_unpack _); vm_compute; exact I.
Defined.

End SmallSelections.

Section RecipeIngredients.
Import Py AutoRecipeGenerator.

Ltac disjoint_categories :=
  match goal with
  | H1 : ?o ∈ ?c1, H2 : ?o ∈ ?c2 |- _ =>
      exfalso; refine (nodup_disjoint c1 c2 o _ H1 H2);
      apply (bool_decide_unpack _); vm_compute; exact I
  end.

Ltac members H :=
  repeat (rewrite keys_app in H);
  repeat (apply elem_of_app in H as [H|H]);
  rewrite ?keys_block in H;
  try (apply select_elem in H as [H _]);
  try (apply other_hard_elem in H as (? & H & _));
  try (apply list_elem_of_singleton in H; subst).

Ltac fresh_block :=
  let o := fresh "o" in
  let Ho := fresh "Ho" in
  let Hk := fresh "Hk" in
  intros o Ho Hk;
  first [apply select_elem in Ho as [Ho _]
        |apply other_hard_elem in Ho as (? & Ho & _)];
  members Hk; try done; try disjoint_categories.

Lemma allocate_keys (st : dict Q * Q) (selected : list string) (cat_total : Q) :
  NoDup selected -> (forall o, o ∈ selected -> o ∉ keys (fst st)) ->
  keys (fst (allocate selected cat_total st)) = keys (fst st) ++ selected.
Proof.
  intros Hnd Hfresh. unfold allocate. destruct st as [recipe remaining_oz].
  destruct selected as [|o selected].
  - by rewrite app_nil_r.
  - cbn [nonempty fst] in *. rewrite assign_each_fresh by done.
    by rewrite keys_app, keys_block.
Qed.

(** The ingredients of the comprehensive recipe, category by category. *)
Lemma comprehensive_keys (oils : list string) (total_oz : Q) :
  NoDup oils ->
  keys (comprehensive oils total_oz)
  = select base_oils oils ++ select hard_oils oils
    ++ select conditioning_oils oils ++ select super_fat_oils oils
    ++ select specialty_oils oils.
Proof.
  intros Hnd. unfold comprehensive. cbv zeta.
  set (st1 := allocate (select base_oils oils) _ _).
  set (st2 := allocate (select hard_oils oils) _ st1).
  set (st3 := allocate (select conditioning_oils oils) _ st2).
  set (st4 := allocate (select super_fat_oils oils) _ st3).
  set (st5 := allocate (select specialty_oils oils) _ st4).
  assert (keys (fst st1) = select base_oils oils) as K1.
  { unfold st1. rewrite allocate_keys;
      [done | by apply select_nodup | intros ? _; apply not_elem_of_nil]. }
  assert (keys (fst st2) = keys (fst st1) ++ select hard_oils oils) as K2.
  { unfold st2. apply allocate_keys;
      [by apply select_nodup | rewrite K1; fresh_block]. }
  assert (keys (fst st3) = keys (fst st2) ++ select conditioning_oils oils)
    as K3.
  { unfold st3. apply allocate_keys;
      [by apply select_nodup | rewrite K2, K1; fresh_block]. }
  assert (keys (fst st4) = keys (fst st3) ++ select super_fat_oils oils) as K4.
  { unfold st4. apply allocate_keys;
      [by apply select_nodup | rewrite K3, K2, K1; fresh_block]. }
  assert (keys (fst st5) = keys (fst st4) ++ select specialty_oils oils) as K5.
  { unfold st5. apply allocate_keys;
      [by apply select_nodup | rewrite K4, K3, K2, K1; fresh_block]. }
  assert (keys (let '(recipe, remaining_oz) := st5 in
                if Qlt_le_dec 0.01 remaining_oz
                then if nonempty recipe
                     then map_values
                            (fun weight => weight + remaining_oz / len recipe)
                            recipe
                     else recipe
                else recipe) = keys (fst st5)) as ->.
  { destruct st5 as [r m]. cbn [fst].
    destruct (Qlt_le_dec 0.01 m); [|done].
    destruct (nonempty r); [apply keys_map_values | done]. }
  rewrite K5, K4, K3, K2, K1. by rewrite <- !app_assoc.
Qed.

Lemma targeted_keys (oils : list string) (total_oz : Q)
    (target_props : gmap string Q) :
  NoDup oils ->
  keys (generate_targeted_recipe oils total_oz target_props)
  = select base_oils oils
    ++ (if bool_decide ("Coconut Oil" ∈ select hard_oils oils)
        then ["Coconut Oil"] else [])
    ++ other_hard oils ++ select conditioning_oils oils
    ++ select super_fat_oils oils ++ select specialty_oils oils.
Proof.
  intros Hnd. unfold generate_targeted_recipe. cbv zeta.
  unfold round_weights. rewrite keys_map_values.
  assert (forall d, keys (normalize_total total_oz d) = keys d) as ->.
  { intros d. unfold normalize_total.
    destruct (Qlt_le_dec _ _); [apply keys_map_values | done]. }
  rewrite targeted_allocation_blocks by done. unfold targeted_blocks. cbv zeta.
  rewrite !keys_app, !keys_block.
  by destruct (bool_decide _).
Qed.

Lemma in_categorized (o : string) :
  o ∈ categorized
  <-> o ∈ base_oils \/ o ∈ hard_oils \/ o ∈ conditioning_oils
      \/ o ∈ super_fat_oils \/ o ∈ specialty_oils.
Proof. unfold categorized. rewrite !elem_of_app. tauto. Qed.

(** X25.  With a target vector, or with four or more ingredients, the
    recipe names exactly the selected ingredients that are listed in a
    solver category: a selected ingredient outside every category is left
    out without notice, and no other name ever appears. *)
Theorem recipe_names_categorized_selection (selected_oils : list string)
    (total_weight_lbs : Q) (target_props : option (gmap string Q)) :
  NoDup selected_oils ->
  truthy target_props = true \/ (4 <= length selected_oils)%nat ->
  selected_oils <> [] ->
  exists recipe,
    generate_recipe selected_oils total_weight_lbs target_props = Ok recipe
    /\ forall oil,
        oil ∈ keys recipe <-> oil ∈ selected_oils /\ oil ∈ categorized.
Proof.
  intros Hnd Hcase Hne. unfold generate_recipe.
  destruct selected_oils as [|o0 oils0] eqn:Eoils; [done|]. rewrite <- Eoils in *.
  clear Hne. destruct (truthy target_props) eqn:Ht.
  - eexists. split; [reflexivity|]. intros oil.
    rewrite targeted_keys by done.
    rewrite !elem_of_app, !select_elem, other_hard_elem, in_categorized.
    assert (oil ∈ (if bool_decide ("Coconut Oil" ∈ select hard_oils selected_oils)
                   then ["Coconut Oil"] else [])
            <-> oil = "Coconut Oil" /\ oil ∈ hard_oils /\ oil ∈ selected_oils)
      as ->.
    { destruct (bool_decide _) eqn:E.
      - apply bool_decide_eq_true, select_elem in E.
        rewrite list_elem_of_singleton. split; [by intros ->|tauto].
      - apply bool_decide_eq_false in E. rewrite select_elem in E.
        split; [by intros ?%not_elem_of_nil | intros (-> & ? & ?); tauto]. }
    rewrite !select_elem.
    destruct (decide (oil = "Coconut Oil")); tauto.
  - destruct Hcase as [?|Hlen]; [done|].
    assert (balanced selected_oils (total_weight_lbs * 16)
            = Ok (comprehensive selected_oils (total_weight_lbs * 16))) as ->.
    { rewrite Eoils in *. destruct oils0 as [|? [|? [|? ?]]]; simpl in Hlen;
        try lia; reflexivity. }
    eexists. split; [reflexivity|]. intros oil.
    unfold round_weights. rewrite keys_map_values, comprehensive_keys by done.
    rewrite !elem_of_app, !select_elem, in_categorized. tauto.
Qed.

Lemma recipe_names_categorized_selection_witness :
  exists recipe,
    generate_recipe
      ["Olive Oil"; "Palm Kernel Oil"; "Coconut Oil"; "Emu Oil"] 1 None
    = Ok recipe
    /\ keys recipe = ["Olive Oil"; "Coconut Oil"].
Proof.
  destruct (recipe_names_categorized_selection
              ["Olive Oil"; "Palm Kernel Oil"; "Coconut Oil"; "Emu Oil"]
              1 None) as (recipe & Hr & _).
  - apply (bool_decide_unpack _). vm_compute. exact I.
  - right. simpl. lia.
  - discriminate.
  - exists recipe. split; [exact Hr|].
    vm_compute in Hr. injection Hr as <-. reflexivity.
Defined.

(** X26.  A selection without duplicates never makes [generate_recipe]
    raise, whatever the total and the targets.  A repeated name can: three
    selected names made of a base oil and a hard oil only leave no third
    ingredient for the 20 % share, and the call raises [IndexError]. *)
Theorem generate_recipe_raises_only_on_duplicates (selected_oils : list string)
    (b h : string) (total_weight_lbs : Q)
    (target_props : option (gmap string Q)) :
  (NoDup selected_oils ->
   exists recipe,
     generate_recipe selected_oils total_weight_lbs target_props = Ok recipe)
  /\ (truthy target_props = false -> b ∈ base_oils -> h ∈ hard_oils ->
      generate_recipe [b; h; b] total_weight_lbs target_props
      = Raise IndexError
      /\ generate_recipe [h; b; h] total_weight_lbs target_props
         = Raise IndexError).
Proof.
  split.
  - intros Hnd. unfold generate_recipe.
    destruct selected_oils as [|x oils]; [by eexists|].
    destruct (truthy target_props); [by eexists|].
    assert (exists recipe,
               balanced (x :: oils) (total_weight_lbs * 16) = Ok recipe)
      as [recipe ->]; [|by eexists].
    unfold balanced. cbv zeta.
    destruct oils as [|y [|z [|w oils]]]; [by eexists| | |by eexists].
    + destruct (select base_oils [x; y]); [by eexists|].
      destruct (select hard_oils [x; y]); by eexists.
    + destruct (select base_oils [x; y; z]) as [|b' ?]; [by eexists|].
      destruct (select hard_oils [x; y; z]) as [|h' ?]; [by eexists|].
      destruct (third_oil x y z b' h' Hnd) as (other & rest & -> & _).
      by eexists.
  - intros Ht Hb Hh.
    pose proof (base_not_hard b Hb) as Hbh.
    pose proof (hard_not_base h Hh) as Hhb.
    rewrite !generate_recipe_balanced by done. unfold balanced. cbv zeta.
    rewrite !(select_cons_in base_oils b), !(select_cons_out base_oils h),
      !(select_cons_in hard_oils h), !(select_cons_out hard_oils b) by done.
    rewrite !(select_cons_in base_oils b), !(select_cons_in hard_oils h)
      by done.
    rewrite !(filter_cons_False _ b), !(filter_cons_False _ h)
      by first [apply in_pair_l | apply in_pair_r].
    rewrite !(filter_cons_False _ b), !(filter_cons_False _ h)
      by first [apply in_pair_l | apply in_pair_r].
    done.
Qed.

Lemma generate_recipe_raises_only_on_duplicates_witness :
  generate_recipe ["Olive Oil"; "Coconut Oil"; "Olive Oil"] 1 None
  = Raise IndexError.
Proof.
  destruct (generate_recipe_raises_only_on_duplicates [] "Olive Oil"
              "Coconut Oil" 1 None) as [_ H].
  destruct H as [H _]; [reflexivity | | | exact H];
    apply (bool_decide_unpack _); vm_compute; exact I.
Defined.

End RecipeIngredients.

(** ** The application's batch arithmetic *)

Section BatchFacts.
Import Py SoapChemistry SoapMakerAutoApp.

Variable oils_db : gmap string Oil.

Lemma total_sap_loop_bounds (lo hi : Q) (oil_names : list string) (acc : Q) :
  (forall name, name ∈ oil_names ->
     exists oil, oils_db !! name = Some oil /\ lo <= sap_naoh oil <= hi) ->
  acc + lo * len oil_names <= total_sap_loop oils_db oil_names acc
  <= acc + hi * len oil_names.
Proof.
  revert acc. induction oil_names as [|n names IH]; intros acc Hall.
  - change (len (@nil string)) with 0. simpl. lra.
  - destruct (Hall n) as (oil & E & Hlo & Hhi); [apply list_elem_of_here|].
    simpl. unfold get_oil_info. rewrite E. rewrite len_cons.
    destruct (IH (acc + sap_naoh oil)) as [IHlo IHhi].
    { intros name Hin. apply Hall. by apply list_elem_of_further. }
    revert IHlo IHhi Hlo Hhi.
    generalize (total_sap_loop oils_db names (acc + sap_naoh oil))
      (len names) (sap_naoh oil).
    intros t l s IHlo IHhi Hlo Hhi.
    assert (lo * (1 + l) == lo + lo * l) as -> by ring.
    assert (hi * (1 + l) == hi + hi * l) as -> by ring.
    revert IHlo IHhi. generalize (lo * l) (hi * l). intros. lra.
Qed.

Lemma total_sap_loop_unknown (oil_names : list string) (acc : Q) :
  (forall name, name ∈ oil_names -> oils_db !! name = None) ->
  total_sap_loop oils_db oil_names acc = acc.
Proof.
  revert acc. induction oil_names as [|n names IH]; intros acc Hall; [done|].
  simpl. unfold get_oil_info. rewrite (Hall n) by apply list_elem_of_here.
  apply IH. intros name Hin. apply Hall. by apply list_elem_of_further.
Qed.

End BatchFacts.

Section BatchExtras.
Import Py SoapChemistry SoapMakerAutoApp.

(** X27.  The average SAP value of a non-empty selection of known oils
    lies between the smallest and the largest SAP value among them.  Names
    the database lacks add nothing but are counted in the divisor: a
    selection of unknown names only has average 0, the 0.14 fallback being
    used for the empty selection alone. *)
Theorem average_sap_within_oil_range (oils_db : gmap string Oil)
    (oil_names : list string) (lo hi : Q) :
  oil_names <> [] ->
  ((forall name, name ∈ oil_names ->
      exists oil, oils_db !! name = Some oil /\ lo <= sap_naoh oil <= hi) ->
   lo <= calculate_average_sap oils_db oil_names <= hi)
  /\ ((forall name, name ∈ oil_names -> oils_db !! name = None) ->
      calculate_average_sap oils_db oil_names == 0)
  /\ calculate_average_sap oils_db [] = 0.14.
Proof.
  intros Hne. destruct oil_names as [|n names]; [done|].
  unfold calculate_average_sap. pose proof (len_pos n names) as Hlen.
  split_and!; [| |done].
  - intros Hall.
    destruct (total_sap_loop_bounds oils_db lo hi (n :: names) 0 Hall)
      as [Hlo Hhi].
    split.
    + apply Qle_shift_div_l; [exact Hlen | lra].
    + apply Qle_shift_div_r; [exact Hlen | lra].
  - intros Hall. rewrite (total_sap_loop_unknown oils_db (n :: names) 0 Hall).
    field. lra.
Qed.

Lemma average_sap_within_oil_range_witness :
  0.134 <= calculate_average_sap Sample.oils_db
             ["Olive Oil"; "Coconut Oil"; "Olive Oil"] <= 0.183.
Proof.
  destruct (average_sap_within_oil_range Sample.oils_db
              ["Olive Oil"; "Coconut Oil"; "Olive Oil"] 0.134 0.183)
    as (H & _); [discriminate|].
  apply H. intros name Hin.
  repeat (apply elem_of_cons in Hin as [->|Hin]);
    [eexists; split; [reflexivity | split; discriminate] ..|inversion Hin].
Defined.

(** X28.  The oil weight the application derives from a batch size fills
    the batch: with a non-negative average SAP value and fragrance percent,
    a superfat between 0 and 100 and a concentration in (0, 100], the oils
    plus the reagent, the diluent and the fragrance estimated for them weigh
    exactly the batch (16 oz per pound), and the oils never weigh more than
    the batch.  A concentration of 0 raises [ZeroDivisionError]. *)
Theorem oil_weight_fills_batch (oils_db : gmap string Oil)
    (selected_oils : list string)
    (superfat lye_conc fragrance_pct batch_size_lbs : Q) :
  let avg_sap := calculate_average_sap oils_db selected_oils in
  0 <= avg_sap -> 0 <= superfat <= 100 -> 0 <= fragrance_pct ->
  0 <= batch_size_lbs ->
  (0 < lye_conc <= 100 ->
   exists oil,
     oil_weight_oz oils_db selected_oils superfat lye_conc fragrance_pct
       batch_size_lbs = Ok oil
     /\ (let lye := oil * (avg_sap * (1 - superfat / 100)) in
         let water := lye * ((100 - lye_conc) / lye_conc) in
         let fragrance := oil * (fragrance_pct / 100) in
         oil + lye + water + fragrance == batch_size_lbs * 16)
     /\ 0 <= oil <= batch_size_lbs * 16)
  /\ (lye_conc == 0 ->
      oil_weight_oz oils_db selected_oils superfat lye_conc fragrance_pct
        batch_size_lbs = Raise ZeroDivisionError).
Proof.
  intros avg_sap Hsap Hsf Hfr Hbatch. split.
  - intros Hc. unfold oil_weight_oz, total_multiplier, mbind, result_bind.
    cbv zeta. fold avg_sap.
    destruct (Qeq_bool lye_conc 0) eqn:E0; [apply Qeq_bool_eq in E0; lra|].
    cbn [Py.bind].
    set (lye_per_oil := avg_sap * (1 - superfat / 100)).
    set (water_ratio := (100 - lye_conc) / lye_conc).
    assert (0 <= lye_per_oil) as Hl.
    { apply Qmult_le_0_compat; [done|].
      unfold Qdiv. change (/ 100) with (1 # 100). lra. }
    assert (0 <= water_ratio) as Hw by (apply Qle_shift_div_l; lra).
    assert (0 <= lye_per_oil * water_ratio) as Hlw
      by (by apply Qmult_le_0_compat).
    assert (0 <= fragrance_pct / 100) as Hf
      by (unfold Qdiv; change (/ 100) with (1 # 100); lra).
    revert Hl Hw Hlw Hf. generalize lye_per_oil water_ratio (fragrance_pct / 100).
    intros l w f Hl Hw Hlw Hf.
    assert (1 <= 1 + l + l * w + f) as Hm by lra.
    destruct (Qeq_bool (1 + l + l * w + f) 0) eqn:Em;
      [apply Qeq_bool_eq in Em; lra|].
    eexists. split; [reflexivity|]. split.
    + cbv zeta. field. lra.
    + split.
      * apply Qle_shift_div_l; lra.
      * apply Qle_shift_div_r; [lra|].
        assert (0 <= batch_size_lbs * 16 * (l + l * w + f)) as H0
          by (apply Qmult_le_0_compat; lra).
        lra.
  - intros Hz. unfold oil_weight_oz, total_multiplier, mbind, result_bind.
    by rewrite (Qeq_eq_bool _ _ Hz).
Qed.

Lemma oil_weight_fills_batch_witness :
  exists oil,
    oil_weight_oz Sample.oils_db ["Olive Oil"; "Coconut Oil"] 5 33 3 2 = Ok oil
    /\ 0 <= oil <= 2 * 16.
Proof.
  destruct (oil_weight_fills_batch Sample.oils_db ["Olive Oil"; "Coconut Oil"]
              5 33 3 2) as [H _];
    [discriminate | split; discriminate | discriminate | discriminate |].
  destruct H as (oil & Ho & _ & Hb); [split; [reflexivity | discriminate]|].
  by exists oil.
Defined.

End BatchExtras.

Section EqualSplit.
Import Py AutoRecipeGenerator.

Ltac disjoint_categories :=
  match goal with
  | H1 : ?o ∈ ?c1, H2 : ?o ∈ ?c2 |- _ =>
      exfalso; refine (nodup_disjoint c1 c2 o _ H1 H2);
      apply (bool_decide_unpack _); vm_compute; exact I
  end.

Lemma get_app_l {V} (d1 d2 : dict V) (k : string) (v : V) :
  get d1 k = Some v -> get (d1 ++ d2) k = Some v.
Proof.
  induction d1 as [|[k' v'] d1 IH]; simpl; [done|].
  destruct (String.eqb k k'); [done | exact IH].
Qed.

Lemma get_app_r {V} (d1 d2 : dict V) (k : string) :
  k ∉ keys d1 -> get (d1 ++ d2) k = get d2 k.
Proof.
  induction d1 as [|[k' v'] d1 IH]; simpl; [done|].
  intros [Hne Hnin]%not_elem_of_cons.
  apply String.eqb_neq in Hne. rewrite Hne. by apply IH.
Qed.

Lemma get_block_in {V} (oils : list string) (w : V) (k : string) :
  k ∈ oils -> get (map (fun o => (o, w)) oils) k = Some w.
Proof.
  induction oils as [|o oils IH]; [by intros ?%not_elem_of_nil|].
  simpl. destruct (String.eqb k o) eqn:E; [done|].
  apply String.eqb_neq in E.
  intros [?|Hin]%elem_of_cons; [done | by apply IH].
Qed.

Lemma get_map_values {V W} (f : V -> W) (d : dict V) (k : string) :
  get (map_values f d) k = f <$> get d k.
Proof.
  induction d as [|[k' v'] d IH]; simpl; [done|].
  destruct (String.eqb k k'); [done | exact IH].
Qed.

Lemma coconut_is_hard : "Coconut Oil" ∈ hard_oils.
Proof. apply (bool_decide_unpack _). vm_compute. exact I. Qed.

Lemma coconut_block_keys (oils : list string) (w : Q) (o : string) :
  o <> "Coconut Oil" ->
  o ∉ keys (if bool_decide ("Coconut Oil" ∈ select hard_oils oils)
            then [("Coconut Oil", w)] else []).
Proof.
  intros Hne. destruct (bool_decide _); cbn.
  - by rewrite list_elem_of_singleton.
  - apply not_elem_of_nil.
Qed.

Lemma not_coconut (o : string) (c : list string) :
  o ∈ c -> NoDup (c ++ hard_oils) -> o <> "Coconut Oil".
Proof.
  intros Hc Hnd ->. exact (nodup_disjoint c hard_oils _ Hnd Hc coconut_is_hard).
Qed.

Section Blocks.
Variables (oils : list string) (total_oz : Q) (s : shares).

Ltac skip_select :=
  rewrite get_app_r;
  [|rewrite keys_block; intros [? _]%select_elem; disjoint_categories].

Ltac skip_other_hard :=
  rewrite get_app_r;
  [|rewrite keys_block; intros (_ & ? & _)%other_hard_elem;
    disjoint_categories].

Ltac skip_coconut :=
  rewrite get_app_r; [|apply coconut_block_keys; done].

Lemma get_base_block (o : string) :
  o ∈ select base_oils oils ->
  get (targeted_blocks oils total_oz s) o
  = Some (total_oz * base_pct s / len (select base_oils oils)).
Proof.
  intros H. unfold targeted_blocks. cbv zeta.
  by apply get_app_l, get_block_in.
Qed.

Lemma get_hard_block (o : string) :
  o ∈ other_hard oils ->
  get (targeted_blocks oils total_oz s) o
  = Some (0 + total_oz * hard_pct s / len (other_hard oils)).
Proof.
  intros H. pose proof H as (Hne & Hc & _)%other_hard_elem.
  unfold targeted_blocks. cbv zeta.
  skip_select. skip_coconut. by apply get_app_l, get_block_in.
Qed.

Lemma get_conditioning_block (o : string) :
  o ∈ select conditioning_oils oils ->
  get (targeted_blocks oils total_oz s) o
  = Some (0 + total_oz * animal_pct s / len (select conditioning_oils oils)).
Proof.
  intros H. pose proof H as [Hc _]%select_elem.
  assert (o <> "Coconut Oil") as Hne.
  { apply (not_coconut o _ Hc).
    apply (bool_decide_unpack _). vm_compute. exact I. }
  unfold targeted_blocks. cbv zeta.
  skip_select. skip_coconut. skip_other_hard.
  by apply get_app_l, get_block_in.
Qed.

Lemma get_super_fat_block (o : string) :
  o ∈ select super_fat_oils oils ->
  get (targeted_blocks oils total_oz s) o
  = Some (0 + total_oz * castor_pct s / len (select super_fat_oils oils)).
Proof.
  intros H. pose proof H as [Hc _]%select_elem.
  assert (o <> "Coconut Oil") as Hne.
  { apply (not_coconut o _ Hc).
    apply (bool_decide_unpack _). vm_compute. exact I. }
  unfold targeted_blocks. cbv zeta.
  skip_select. skip_coconut. skip_other_hard. skip_select.
  by apply get_app_l, get_block_in.
Qed.

Lemma get_specialty_block (o : string) :
  o ∈ select specialty_oils oils ->
  get (targeted_blocks oils total_oz s) o
  = Some (0 + total_oz * specialty_pct s / len (select specialty_oils oils)).
Proof.
  intros H. pose proof H as [Hc _]%select_elem.
  assert (o <> "Coconut Oil") as Hne.
  { apply (not_coconut o _ Hc).
    apply (bool_decide_unpack _). vm_compute. exact I. }
  unfold targeted_blocks. cbv zeta.
  skip_select. skip_coconut. skip_other_hard. skip_select. skip_select.
  by apply get_block_in.
Qed.

(** In the block form, every oil of a block carries the block's weight. *)
Lemma targeted_blocks_get (o1 o2 : string) :
  same_block oils o1 o2 ->
  exists weight,
    get (targeted_blocks oils total_oz s) o1 = Some weight
    /\ get (targeted_blocks oils total_oz s) o2 = Some weight.
Proof.
  intros (block & Hblock & H1 & H2).
  repeat (apply elem_of_cons in Hblock as [->|Hblock]);
    [| | | | |inversion Hblock]; eexists.
  - by rewrite !get_base_block.
  - by rewrite !get_hard_block.
  - by rewrite !get_conditioning_block.
  - by rewrite !get_super_fat_block.
  - by rewrite !get_specialty_block.
Qed.

End Blocks.

(** X29.  In a targeted recipe a category's mass is split evenly: two
    selected oils of the same block (base oils; hard oils other than
    coconut; conditioning fats; castor and jojoba; specialty oils) are both
    in the recipe and get the same weight. *)
Theorem same_category_same_weight (selected_oils : list string)
    (total_weight_lbs : Q) (target_props : option (gmap string Q))
    (o1 o2 : string) :
  NoDup selected_oils -> truthy target_props = true ->
  same_block selected_oils o1 o2 ->
  exists recipe weight,
    generate_recipe selected_oils total_weight_lbs target_props = Ok recipe
    /\ get recipe o1 = Some weight /\ get recipe o2 = Some weight.
Proof.
  intros Hnd Ht Hsame. unfold generate_recipe. rewrite Ht.
  destruct selected_oils as [|x oils] eqn:E.
  { destruct Hsame as (block & Hblock & H1 & _).
    repeat (apply elem_of_cons in Hblock as [->|Hblock];
            [by (cbv in H1; inversion H1)|]).
    inversion Hblock. }
  rewrite <- E in *. clear E.
  destruct (targeted_blocks_get selected_oils (total_weight_lbs * 16)
              (category_shares selected_oils (default ∅ target_props))
              o1 o2 Hsame) as (w & Hw1 & Hw2).
  unfold generate_targeted_recipe. cbv zeta.
  rewrite targeted_allocation_blocks by done.
  unfold round_weights, normalize_total.
  destruct (Qlt_le_dec _ _);
    eexists _, _; (split; [reflexivity|]);
    rewrite !get_map_values, ?Hw1, ?Hw2; split; reflexivity.
Qed.

Lemma same_category_same_weight_witness :
  exists recipe weight,
    generate_recipe ["Olive Oil"; "Coconut Oil"; "Avocado Oil"; "Lard"] 2
      (Some {[ "conditioning" := 60 ]})
    = Ok recipe
    /\ get recipe "Olive Oil" = Some weight
    /\ get recipe "Avocado Oil" = Some weight.
Proof.
  apply same_category_same_weight.
  - apply (bool_decide_unpack _). vm_compute. exact I.
  - reflexivity.
  - exists ["Olive Oil"; "Avocado Oil"]. split_and!.
    + apply list_elem_of_here.
    + apply list_elem_of_here.
    + apply list_elem_of_further, list_elem_of_here.
Defined.

End EqualSplit.

(** ** The targeted solver never returns a negative weight *)

Section NonNegativeWeights.
Import Py AutoRecipeGenerator.

Lemma initial_nonneg (a : available) (f : factors) :
  nonneg_factors f -> nonneg_shares (initial_shares a f).
Proof.
  intros (Hh & Hc & Hd & Hb & Hr).
  pose proof (Q.le_max_l (cleansing_factor f) (bubbly_factor f)) as Hmax.
  unfold nonneg_shares, initial_shares. cbn [base_pct coconut_pct hard_pct
    animal_pct castor_pct specialty_pct].
  revert Hmax. generalize (Qmax (cleansing_factor f) (bubbly_factor f)).
  intros need Hmax.
  split_and!;
    [destruct (has_base a)|destruct (has_coconut a)
    |destruct (has_other_hard a)|destruct (has_animal a)
    |destruct (has_castor a)|destruct (has_specialty a)]; lra.
Qed.

Lemma compensate_nonneg (a : available) (s : shares) :
  nonneg_shares s -> nonneg_shares (compensate a s).
Proof.
  intros (Hb & Hc & Hh & Ha & Hs & Hp).
  unfold nonneg_shares, compensate.
  destruct (has_base a); [done|].
  cbn [base_pct coconut_pct hard_pct animal_pct castor_pct specialty_pct].
  split_and!; try done;
    [destruct (has_coconut a)|destruct (has_other_hard a)
    |destruct (has_animal a)]; lra.
Qed.

Lemma Qdiv_nonneg (x y : Q) : 0 <= x -> 0 < y -> 0 <= x / y.
Proof.
  intros Hx Hy. apply Qle_shift_div_l; [exact Hy|]. lra.
Qed.

Lemma normalize_nonneg (s : shares) :
  nonneg_shares s -> nonneg_shares (normalize s).
Proof.
  intros (Hb & Hc & Hh & Ha & Hs & Hp).
  unfold nonneg_shares, normalize.
  destruct (Qlt_le_dec 0 (total_pct s)) as [Hpos|]; [|done].
  cbn [base_pct coconut_pct hard_pct animal_pct castor_pct specialty_pct].
  split_and!; by apply Qdiv_nonneg.
Qed.

Lemma category_shares_nonneg (oils : list string)
    (target_props : gmap string Q) :
  nonneg_factors (target_factors target_props) ->
  nonneg_shares (category_shares oils target_props).
Proof.
  intros Hf. unfold category_shares. cbv zeta.
  by apply normalize_nonneg, compensate_nonneg, initial_nonneg.
Qed.

Lemma block_nonneg (oils : list string) (w : Q) :
  0 <= w -> Forall (fun x => 0 <= x) (values (map (fun o => (o, w)) oils)).
Proof.
  intros Hw. induction oils as [|o oils IH]; [apply Forall_nil_2|].
  apply Forall_cons_2; [exact Hw | exact IH].
Qed.

Lemma share_weight_nonneg {A} (total_oz pct : Q) (xs : list A) :
  0 <= total_oz -> 0 <= pct -> 0 <= 0 + total_oz * pct / len xs.
Proof.
  intros Ht Hp.
  assert (0 <= total_oz * pct) as Hm by (by apply Qmult_le_0_compat).
  destruct xs as [|x xs].
  - change (len (@nil A)) with 0. unfold Qdiv.
    change (/ 0) with 0. lra.
  - pose proof (Qdiv_nonneg _ _ Hm (len_pos x xs)). lra.
Qed.

Lemma targeted_blocks_nonneg (oils : list string) (total_oz : Q) (s : shares) :
  0 <= total_oz -> nonneg_shares s ->
  Forall (fun x => 0 <= x) (values (targeted_blocks oils total_oz s)).
Proof.
  intros Ht (Hb & Hc & Hh & Ha & Hs & Hp).
  unfold targeted_blocks. cbv zeta.
  rewrite !values_app. repeat apply Forall_app_2.
  - apply block_nonneg.
    pose proof (share_weight_nonneg total_oz (base_pct s)
                  (select base_oils oils) Ht Hb). lra.
  - destruct (bool_decide _); [|apply Forall_nil_2].
    apply Forall_cons_2; [|apply Forall_nil_2].
    cbn [snd]. by apply Qmult_le_0_compat.
  - by apply block_nonneg, share_weight_nonneg.
  - by apply block_nonneg, share_weight_nonneg.
  - by apply block_nonneg, share_weight_nonneg.
  - by apply block_nonneg, share_weight_nonneg.
Qed.

Lemma normalize_total_nonneg (total_oz : Q) (recipe : dict Q) :
  0 <= total_oz -> Forall (fun x => 0 <= x) (values recipe) ->
  Forall (fun x => 0 <= x) (values (normalize_total total_oz recipe)).
Proof.
  intros Ht Hall. unfold normalize_total. cbv zeta.
  destruct (Qlt_le_dec 0 (sum (values recipe))) as [Hpos|]; [|done].
  rewrite values_map_values. apply Forall_map.
  eapply Forall_impl; [exact Hall|].
  intros w Hw. cbv beta. apply Qmult_le_0_compat; [exact Hw|].
  by apply Qdiv_nonneg.
Qed.

Lemma round_nonneg (x : Q) (n : nat) : 0 <= x -> 0 <= round x n.
Proof.
  intros Hx. rewrite <- (round_zero n). by apply round_mono.
Qed.

(** X30.  When no target is below the minimum of its range and the total
    is not negative, the targeted solver returns no negative weight. *)
Theorem targeted_weights_nonnegative (selected_oils : list string)
    (total_oz : Q) (target_props : gmap string Q) :
  NoDup selected_oils -> 0 <= total_oz ->
  nonneg_factors (target_factors target_props) ->
  Forall (fun weight => 0 <= weight)
    (values (generate_targeted_recipe selected_oils total_oz target_props)).
Proof.
  intros Hnd Ht Hf. unfold generate_targeted_recipe. cbv zeta.
  unfold round_weights. rewrite values_map_values. apply Forall_map.
  eapply Forall_impl.
  - apply normalize_total_nonneg; [exact Ht|].
    rewrite targeted_allocation_blocks by done.
    apply targeted_blocks_nonneg; [exact Ht|].
    by apply category_shares_nonneg.
  - intros w Hw. cbv beta. by apply round_nonneg.
Qed.

Lemma targeted_weights_nonnegative_witness :
  Forall (fun weight => 0 <= weight)
    (values (generate_targeted_recipe
               ["Olive Oil"; "Coconut Oil"; "Lard"; "Castor Oil"] 32
               {[ "hardness" := 45; "cleansing" := 12 ]})).
Proof.
  apply targeted_weights_nonnegative.
  - apply (bool_decide_unpack _). vm_compute. exact I.
  - discriminate.
  - vm_compute. repeat split; discriminate.
Defined.

End NonNegativeWeights.

